(** * wptools: the fetch / cache / validate / normalize core

    A shallow embedding of [wptools/core.py] (class [WPTools]) and
    [wptools/restbase.py] (class [WPToolsRESTBase]).

    Python objects are modelled as follows.
    - [self.cache], [self.data] are dicts keyed by strings: [gmap string _].
    - a parsed JSON document is a [json] value; JSON objects are dicts.
    - a Python text is a [string] that holds its UTF-8 encoding; its
      length and its slices count characters (code points), not bytes.
    - [self.flags] and [self.params] are dicts with a fixed vocabulary of
      keys: records, an optional key being an [option] field.
    - a method is a function in the monad [M]: it threads the instance and
      the outside world (diagnostic stream, wire) and may raise.  A raised
      exception keeps the state reached so far, as in Python.
    - what the two modules import ([wptools.query], [wptools.request],
      [wptools.utils], [urlparse]) is taken as a parameter, one class per
      collaborator. *)

From Stdlib Require Import String Ascii ZArith List Lia.
From stdpp Require Import gmap strings list fin_maps.

Set Warnings "-register-all".
Local Open Scope string_scope.
Local Open Scope list_scope.

(** ** Python primitives on [str] *)
Module Py.

(** [s.split(sep)] for a one-character separator: empty pieces are kept. *)
Fixpoint split (sep : ascii) (s : string) : list string :=
  match s with
  | EmptyString => [EmptyString]
  | String c s' =>
      if Ascii.eqb c sep then EmptyString :: split sep s'
      else match split sep s' with
           | h :: t => String c h :: t
           | [] => [String c EmptyString]
           end
  end.

(** [sep.join(parts)] *)
Fixpoint join (sep : string) (parts : list string) : string :=
  match parts with
  | [] => EmptyString
  | [p] => p
  | p :: ps => p +:+ sep +:+ join sep ps
  end.

(** truth value of a [str] *)
Definition nonempty (s : string) : bool :=
  match s with EmptyString => false | String _ _ => true end.

(** truth value of a value that is [None] or a [str] *)
Definition truthy_opt (o : option string) : bool :=
  match o with None => false | Some s => nonempty s end.

(** [s.startswith(p)] *)
Definition startswith (p s : string) : bool := String.prefix p s.

(** [s.replace(old, new)], [old] not empty: leftmost, non-overlapping
    occurrences.  [skip] counts the characters of a matched occurrence
    that are still to be dropped. *)
Fixpoint replace_from (old new : string) (skip : nat) (s : string) : string :=
  match s with
  | EmptyString => EmptyString
  | String c s' =>
      match skip with
      | S k => replace_from old new k s'
      | O =>
          if String.prefix old s
          then new +:+ replace_from old new (String.length old - 1) s'
          else String c (replace_from old new 0 s')
      end
  end.

Definition replace (old new s : string) : string := replace_from old new 0 s.

(** a byte that continues a character of a UTF-8 text ([10xxxxxx]) *)
Definition continuation (c : ascii) : bool :=
  match c with
  | Ascii _ _ _ _ _ _ false true => true
  | _ => false
  end.

(** [len(s)]: the characters of [s], one for each byte that starts one *)
Fixpoint len (s : string) : nat :=
  match s with
  | EmptyString => 0
  | String c s' => if continuation c then len s' else S (len s')
  end.

(** [s[:n]]: the first [n] characters, each with the bytes that continue
    it *)
Fixpoint take (n : nat) (s : string) : string :=
  match s with
  | EmptyString => EmptyString
  | String c s' =>
      if continuation c then String c (take n s')
      else match n with
           | O => EmptyString
           | S k => String c (take k s')
           end
  end.

(** [s[:z]] with Python's reading of a negative bound *)
Definition slice_to (z : Z) (s : string) : string :=
  if (0 <=? z)%Z then take (Z.to_nat z) s
  else take (len s - Z.to_nat (- z)) s.

End Py.

(** ** Values *)

(** What [json.loads] produces; of the numbers the integers are enough
    here. *)
Inductive json : Type :=
| JNull
| JBool (b : bool)
| JNum (z : Z)
| JStr (s : string)
| JArr (l : list json)
| JObj (m : gmap string json).

(** Python truth value *)
Definition truthy (v : json) : bool :=
  match v with
  | JNull => false
  | JBool b => b
  | JNum z => negb (Z.eqb z 0)
  | JStr s => Py.nonempty s
  | JArr l => match l with [] => false | _ :: _ => true end
  | JObj m => negb (Nat.eqb (size m) 0)
  end.

(** [a or b] *)
Definition py_or (a b : json) : json := if truthy a then a else b.

(** The body handed back by the transport: [None], text or bytes. *)
Inductive Body : Type :=
| BNone
| BStr (s : string)
| BBytes (s : string).

Definition body_truthy (b : Body) : bool :=
  match b with
  | BNone => false
  | BStr s | BBytes s => Py.nonempty s
  end.

(** [req.info]: at least the content type and the status code. *)
Record Info : Type := { content : string; status : Z }.

(** One cache entry, a dict that starts empty and receives the keys
    ['query'], ['response'] and ['info']; [None] is a missing key. *)
Record CacheEntry : Type :=
  { ce_query : option string;
    ce_response : option Body;
    ce_info : option Info }.

Definition empty_entry : CacheEntry :=
  {| ce_query := None; ce_response := None; ce_info := None |}.

Record Flags : Type :=
  { silent : bool; skip : list string; verbose : bool }.

(** [self.params]: ['lang'], ['variant'] and ['wiki'] are always present
    (['variant'] and ['wiki'] possibly [None], which nothing here tells
    apart from a missing key); ['title'] and ['endpoint'] are keys that
    may be missing. *)
Record Params : Type :=
  { lang : string;
    variant : option string;
    wiki : option string;
    title : option string;
    endpoint : option string }.

(** Exceptions, with the argument the code gives them.  [StandardError]
    is the Python 2 built-in that [_load_response] names for an empty
    response; its argument is made from [self.params].  Python 3 has no
    such name: there the [raise] statement itself fails, with [NameError]
    for the name. *)
Inductive Exc : Type :=
| StandardError (p : Params)
| NameError (name : string)
| ValueError (msg : string)
| LookupError (msg : string)
| KeyError (key : string)
| IndexError
| AttributeError
| TypeError
| UnicodeDecodeError
| NotImplementedError
| TransportError.

(** [isinstance(e, ValueError)], which is what [except ValueError] tests:
    [UnicodeDecodeError] is a subclass of [ValueError]; no other exception
    of the model is. *)
Definition is_ValueError (e : Exc) : bool :=
  match e with
  | ValueError _ | UnicodeDecodeError => true
  | _ => false
  end.

(** One call of [utils.stderr(msg)] or [utils.stderr(msg, silent)]. *)
Record StderrCall : Type :=
  { sc_msg : string; sc_silent : option bool }.

(** One call of the transport adapter. *)
Record Request : Type :=
  { rq_query : string;
    rq_status : string;
    rq_proxy : option string;
    rq_timeout : Z }.

(** The instance ([cache], [data], [flags], [params]) together with the
    two channels it talks to: the calls made to [utils.stderr] and the
    requests put on the wire, oldest first. *)
Record State : Type :=
  { cache : gmap string CacheEntry;
    data : gmap string json;
    flags : Flags;
    params : Params;
    stderr_calls : list StderrCall;
    wire : list Request }.

Definition with_cache (c : gmap string CacheEntry) (s : State) : State :=
  {| cache := c; data := data s; flags := flags s; params := params s;
     stderr_calls := stderr_calls s; wire := wire s |}.

Definition with_data (d : gmap string json) (s : State) : State :=
  {| cache := cache s; data := d; flags := flags s; params := params s;
     stderr_calls := stderr_calls s; wire := wire s |}.

Definition with_params (p : Params) (s : State) : State :=
  {| cache := cache s; data := data s; flags := flags s; params := p;
     stderr_calls := stderr_calls s; wire := wire s |}.

Definition with_stderr (l : list StderrCall) (s : State) : State :=
  {| cache := cache s; data := data s; flags := flags s; params := params s;
     stderr_calls := l; wire := wire s |}.

Definition with_wire (w : list Request) (s : State) : State :=
  {| cache := cache s; data := data s; flags := flags s; params := params s;
     stderr_calls := stderr_calls s; wire := w |}.

Definition with_title (t : option string) (p : Params) : Params :=
  {| lang := lang p; variant := variant p; wiki := wiki p;
     title := t; endpoint := endpoint p |}.

Definition with_endpoint (e : option string) (p : Params) : Params :=
  {| lang := lang p; variant := variant p; wiki := wiki p;
     title := title p; endpoint := e |}.

(** ** The method monad: state and exceptions *)

Inductive Result (A : Type) : Type :=
| Ok (a : A)
| Raise (e : Exc).
Arguments Ok {A} a.
Arguments Raise {A} e.

Definition M (A : Type) : Type := State -> Result A * State.

Definition ret {A} (a : A) : M A := fun s => (Ok a, s).

Definition raise {A} (e : Exc) : M A := fun s => (Raise e, s).

Definition bind {A B} (c : M A) (k : A -> M B) : M B :=
  fun s =>
    match c s with
    | (Ok a, s') => k a s'
    | (Raise e, s') => (Raise e, s')
    end.

Notation "x <- c ;; k" := (bind c (fun x => k))
  (at level 100, c at next level, right associativity).
Notation "c ;;; k" := (bind c (fun _ => k))
  (at level 100, right associativity).

Definition get_state : M State := fun s => (Ok s, s).
Definition modify (f : State -> State) : M unit := fun s => (Ok tt, f s).

(** lift a pure computation that may raise *)
Definition lift {A} (r : Result A) : M A := fun s => (r, s).

(** [d[key]] on an optional key *)
Definition require {A} (key : string) (o : option A) : Result A :=
  match o with Some a => Ok a | None => Raise (KeyError key) end.

(** [utils.stderr(msg)] and [utils.stderr(msg, silent)] *)
Definition stderr (msg : string) (sil : option bool) : M unit :=
  modify (fun s =>
    with_stderr (stderr_calls s ++ [{| sc_msg := msg; sc_silent := sil |}]) s).

(** ** [WPToolsRESTBase._parse_endpoint] *)

(** [parts[0]] *)
Definition first_part (parts : list string) : Result string :=
  match parts with
  | [] => Raise IndexError
  | p :: _ => Ok p
  end.

(** The segments of a supplied endpoint: split on the separator, empty
    pieces dropped, ['page'] put in front unless it is there already. *)
Definition endpoint_parts (ep : string) : Result (list string) :=
  let parts := filter (fun x => Is_true (Py.nonempty x)) (Py.split "/" ep) in
  match first_part parts with
  | Ok p0 => Ok (if negb (String.eqb p0 "page") then "page" :: parts else parts)
  | Raise e => Raise e
  end.

(** [self._parse_endpoint(endpoint, title)]; both arguments are [None] or
    a [str] *)
Definition _parse_endpoint (endpoint title : option string) : M string :=
  match endpoint with
  | None => ret "/page/"
  | Some ep =>
      if negb (Py.nonempty ep) then ret "/page/"
      else
        parts <- lift (endpoint_parts ep) ;;
        parts <- (if Nat.eqb (length parts) 2
                  then match title with
                       | Some t => if Py.nonempty t then ret (parts ++ [t])
                                   else raise (ValueError "need a title.")
                       | None => raise (ValueError "need a title.")
                       end
                  else ret parts) ;;
        (* [len(parts) == 3]: [p2] is [parts[2]], which is [parts[-1]] too *)
        (match parts with
         | [_; _; p2] =>
             match title with
             | Some t =>
                 if Py.nonempty t
                 then (if negb (String.eqb t p2)
                       then raise (ValueError "titles conflict.")
                       else ret tt)
                 else modify (fun s => with_params (with_title (Some p2) (params s)) s)
             | None => modify (fun s => with_params (with_title (Some p2) (params s)) s)
             end
         | _ => ret tt
         end) ;;;
        ret ("/" +:+ Py.join "/" parts)
  end.

(** ** Dict and list primitives on [json] values *)

(** [v.get(key)]: only a dict has [get] *)
Definition py_get (v : json) (key : string) : Result json :=
  match v with
  | JObj m => Ok (default JNull (m !! key))
  | _ => Raise AttributeError
  end.

(** [p in s] on strings *)
Fixpoint substring_in (p s : string) : bool :=
  String.prefix p s ||
  match s with
  | EmptyString => false
  | String _ s' => substring_in p s'
  end.

Definition is_str (k : string) (v : json) : bool :=
  match v with JStr s => String.eqb s k | _ => false end.

(** [k in v] for a string [k] *)
Definition py_contains (k : string) (v : json) : Result bool :=
  match v with
  | JObj m => Ok (bool_decide (is_Some (m !! k)))
  | JArr l => Ok (existsb (is_str k) l)
  | JStr s => Ok (substring_in k s)
  | JNull | JBool _ | JNum _ => Raise TypeError
  end.

(** [v[0]] *)
Definition py_index0 (v : json) : Result json :=
  match v with
  | JArr (x :: _) => Ok x
  | JArr [] => Raise IndexError
  | JStr (String c _) => Ok (JStr (String c EmptyString))
  | JStr EmptyString => Raise IndexError
  | JObj _ => Raise (KeyError "0")
  | JNull | JBool _ | JNum _ => Raise TypeError
  end.

(** [d.update(other)] for dicts [d] and [other]: the keys of [other] win. *)
Definition dict_update (d other : gmap string json) : gmap string json :=
  other ∪ d.

(** ** External collaborators *)

(** [WPToolsQuery(lang=..., wiki=..., variant=...)]; a builder method
    returns the query string and leaves a status hint in the object. *)
Record QObj : Type :=
  { q_lang : string;
    q_wiki : option string;
    q_variant : option string;
    q_status : string }.

Class QueryBuilder : Type :=
  { MAXWIDTH : Z;
    RPAD : Z;
    (** [qobj.restbase(endpoint)] *)
    qobj_restbase : QObj -> string -> string * QObj }.

(** [WPToolsRequest(silent, verbose, proxy, timeout).get(qstr, status)]:
    the reply may depend on everything sent before; [None] is a transport
    error. *)
Class Transport : Type :=
  { http_get : list Request -> bool -> bool -> Request -> option (Body * Info) }.

(** Helpers of [wptools.utils] and of the Python library, and the
    interpreter that runs the package ([restbase.py] imports [urlparse]
    for Python 2 and for Python 3). *)
Class Helpers : Type :=
  { (** whether the interpreter is Python 3 *)
    python3 : bool;
    (** [utils.json_loads]: the parsed document, or the exception raised
        ([ValueError] or a subclass of it for a body that does not
        parse) *)
    json_loads : Body -> Result json;
    (** [d.update(seq)] for a JSON array [seq]: Python stores every item
        of two elements as a key and its value and raises on any other
        item; the keys need not be strings, so the outcome is left to the
        interpreter *)
    update_sequence : gmap string json -> list json -> Result (gmap string json);
    (** [utils.wikidata_url] *)
    wikidata_url : json -> json;
    (** [urlparse(query)]: scheme and netloc *)
    urlparse : string -> string * string;
    (** [bytes.decode('utf-8')]; [None] when it raises *)
    utf8_decode : string -> option string;
    (** [str(v)], as used by ["%s" % v] *)
    py_str : json -> string;
    (** the [output] list that [show] builds from the record
        (core.py, lines 163 to 205), line by line; how a value is
        rendered, and whether rendering can fail, is not interpreted *)
    dump_lines : gmap string json -> Params -> list string }.

(** [img.update(v)] where [v] comes from the response.  A dict is merged;
    an array is taken as a sequence of pairs; [None], numbers and booleans
    are not iterable ([TypeError]); the items of a string are its
    characters, none of which is a pair ([ValueError]; the empty string
    has no item and changes nothing). *)
Definition py_update `{Helpers} (img : gmap string json) (v : json) :
    Result (gmap string json) :=
  match v with
  | JObj m => Ok (dict_update img m)
  | JArr l => update_sequence img l
  | JStr EmptyString => Ok img
  | JStr (String _ _) => Raise (ValueError "dictionary update sequence")
  | JNull | JBool _ | JNum _ => Raise TypeError
  end.

(** Modelled from the spec: [utils.stderr(msg, silent=False)] of the module
    [wptools/utils.py] (not among the sources) writes the notice to the
    diagnostic stream unless its second argument is set; the one-argument
    call has no access to the instance flags and always writes. *)
Definition stderr_writes (c : StderrCall) : bool :=
  match sc_silent c with
  | Some true => false
  | Some false | None => true
  end.

(** what reaches the diagnostic stream *)
Definition emitted (calls : list StderrCall) : list string :=
  map sc_msg (List.filter stderr_writes calls).

(** The two abstract methods a data source supplies. *)
Class Source : Type :=
  { (** [self._query(action, qobj)]: reads the instance, may raise *)
    _query : string -> QObj -> State -> Result (string * QObj);
    (** [self._set_data(action)] *)
    _set_data : string -> M unit }.

Section WPTools.
Context {QB : QueryBuilder} {TR : Transport} {HP : Helpers}.

(** [self.cache[action][key] = value] *)
Definition update_entry (action : string) (f : CacheEntry -> CacheEntry) : M unit :=
  s <- get_state ;;
  e <- lift (require action (cache s !! action)) ;;
  modify (with_cache (<[action := f e]> (cache s))).

Definition set_query (q : string) (e : CacheEntry) : CacheEntry :=
  {| ce_query := Some q; ce_response := ce_response e; ce_info := ce_info e |}.
Definition set_response (r : Body) (e : CacheEntry) : CacheEntry :=
  {| ce_query := ce_query e; ce_response := Some r; ce_info := ce_info e |}.
Definition set_info (i : Info) (e : CacheEntry) : CacheEntry :=
  {| ce_query := ce_query e; ce_response := ce_response e; ce_info := Some i |}.

(** [req = self._request(proxy, timeout); req.get(qstr, status)],
    giving the body and [req.info] *)
Definition req_get (proxy : option string) (timeout : Z)
    (qstr status : string) : M (Body * Info) :=
  fun s =>
    let rq := {| rq_query := qstr; rq_status := status;
                 rq_proxy := proxy; rq_timeout := timeout |} in
    let s' := with_wire (wire s ++ [rq]) s in
    match http_get (wire s) (silent (flags s)) (verbose (flags s)) rq with
    | Some r => (Ok r, s')
    | None => (Raise TransportError, s')
    end.

(** [prettyprint(datastr)] *)
Fixpoint prettyprint_from (extent : Z) (datastr : list string) : M unit :=
  match datastr with
  | [] => ret tt
  | line :: rest =>
      let line :=
        if (MAXWIDTH <=? Z.of_nat (Py.len line))%Z
        then Py.slice_to extent line +:+ "..."
        else line in
      stderr line None ;;;
      prettyprint_from extent rest
  end.

Definition prettyprint (datastr : list string) : M unit :=
  prettyprint_from (MAXWIDTH - (RPAD + 2))%Z datastr.

(** [self.show(force)] *)
Definition show (force : bool) : M unit :=
  s <- get_state ;;
  if silent (flags s) && negb force then ret tt
  else if Nat.eqb (size (data s)) 0 then ret tt
  else prettyprint (dump_lines (data s) (params s)).

(** [self._load_response(action)] *)
Definition _load_response (action : string) : M json :=
  s <- get_state ;;
  e <- lift (require action (cache s !! action)) ;;
  q <- lift (require "query" (ce_query e)) ;;
  let _query := Py.replace "&format=json" "" q in
  response <- lift (require "response" (ce_response e)) ;;
  if negb (body_truthy response)
  then raise (if python3 then NameError "StandardError"
              else StandardError (params s))
  else
    match json_loads response with
    | Raise e => if is_ValueError e then raise (ValueError _query) else raise e
    | Ok data =>
        err <- lift (py_get data "error") ;;
        if truthy err then raise (LookupError _query)
        else
          noparse <- (if String.eqb action "parse"
                      then p <- lift (py_get data "parse") ;; ret (negb (truthy p))
                      else ret false) ;;
          if (noparse : bool) then raise (LookupError _query)
          else
            notfound <- (if String.eqb action "wikidata"
                         then ents <- lift (py_get data "entities") ;;
                              lift (py_contains "-1" ents)
                         else ret false) ;;
            if (notfound : bool) then raise (LookupError _query)
            else ret data
    end.

(** What an inspector returns: the cached item, the cached actions, or
    [None] when nothing is cached. *)
Inductive Inspected (A : Type) : Type :=
| Item (a : A)
| Actions (l : list string)
| Nothing.
Arguments Item {A} a.
Arguments Actions {A} l.
Arguments Nothing {A}.

(** [self.cache.keys() or None] *)
Definition cached_actions {A} (s : State) : Inspected A :=
  match elements (dom (cache s)) with
  | [] => Nothing
  | l => Actions l
  end.

(** [self.info(action)] *)
Definition info (action : option string) : M (Inspected Info) :=
  s <- get_state ;;
  match action ≫= (fun a => cache s !! a) with
  | Some e => i <- lift (require "info" (ce_info e)) ;; ret (Item i)
  | None => ret (cached_actions s)
  end.

(** [self.query(action)] *)
Definition query (action : option string) : M (Inspected string) :=
  s <- get_state ;;
  match action ≫= (fun a => cache s !! a) with
  | Some e =>
      q <- lift (require "query" (ce_query e)) ;;
      ret (Item (Py.replace "&format=json" "" q))
  | None => ret (cached_actions s)
  end.

(** [self.response(action)] *)
Definition response (action : option string) : M (Inspected json) :=
  s <- get_state ;;
  match action ≫= (fun a => cache s !! a) with
  | Some e =>
      r <- lift (require "response" (ce_response e)) ;;
      d <- lift (json_loads r) ;;
      ret (Item d)
  | None => ret (cached_actions s)
  end.

Section Get.
Context {SRC : Source}.

(** [self._get(action, show, proxy, timeout)] *)
Definition _get (action : string) (show_ : bool)
    (proxy : option string) (timeout : Z) : M unit :=
  s <- get_state ;;
  let silent_ := silent (flags s) in
  cached <- (match cache s !! action with
             | Some _ =>
                 if negb (String.eqb action "imageinfo")
                 then stderr ("+ " +:+ action +:+ " results in cache") (Some silent_) ;;;
                      ret true
                 else ret false
             | None =>
                 modify (with_cache (<[action := empty_entry]> (cache s))) ;;;
                 ret false
             end) ;;
  if (cached : bool) then ret tt
  else if bool_decide (action ∈ skip (flags s))
  then stderr ("+ skipping " +:+ action) None
  else
    (* make the request *)
    let qobj := {| q_lang := lang (params s); q_wiki := wiki (params s);
                   q_variant := variant (params s); q_status := "" |} in
    s1 <- get_state ;;
    qq <- lift (_query action qobj s1) ;;
    let qstr := fst qq in
    update_entry action (set_query qstr) ;;;
    ri <- req_get proxy timeout qstr (q_status (snd qq)) ;;
    update_entry action (set_response (fst ri)) ;;;
    update_entry action (set_info (snd ri)) ;;;
    _set_data action ;;;
    if show_ then show false else ret tt.
End Get.

(** The base class leaves both methods abstract. *)
Definition WPTools_abstract : Source :=
  {| _query := fun _ _ _ => Raise NotImplementedError;
     _set_data := fun _ => raise NotImplementedError |}.

End WPTools.

Arguments Item {A} a.
Arguments Actions {A} l.
Arguments Nothing {A}.

(** ** [WPToolsRESTBase] *)
Section RESTBase.
Context {QB : QueryBuilder} {TR : Transport} {HP : Helpers}.

(** [self.data[key] = v] *)
Definition set_data (key : string) (v : json) : M unit :=
  modify (fun s => with_data (<[key := v]> (data s)) s).

(** [self._handle_response()]: [None] when there is nothing to extract *)
Definition _handle_response : M (option json) :=
  s <- get_state ;;
  e <- lift (require "restbase" (cache s !! "restbase")) ;;
  i <- lift (require "info" (ce_info e)) ;;
  if Py.startswith "text/html" (content i)
  then
    html <- lift (require "response" (ce_response e)) ;;
    html <- (match html with
             | BBytes b =>
                 match utf8_decode b with
                 | Some t => ret (JStr t)
                 | None => raise UnicodeDecodeError
                 end
             | BStr t => ret (JStr t)
             | BNone => ret JNull
             end) ;;
    set_data "html" html ;;;
    ret None
  else
    response <- _load_response "restbase" ;;
    s <- get_state ;;
    e <- lift (require "restbase" (cache s !! "restbase")) ;;
    i <- lift (require "info" (ce_info e)) ;;
    if (status i =? 404)%Z
    then q <- lift (require "query" (ce_query e)) ;; raise (LookupError q)
    else if bool_decide (endpoint (params s) = Some "/page/")
    then
      items <- lift (py_get response "items") ;;
      stderr ("RESTBase /page/ entry points: " +:+ py_str items) None ;;;
      (* [del self.cache['restbase']] *)
      s <- get_state ;;
      _ <- lift (require "restbase" (cache s !! "restbase")) ;;
      modify (fun s => with_cache (delete "restbase" (cache s)) s) ;;;
      ret None
    else ret (Some response).

(** [self.data['image'].append(img)] *)
Definition append_image (img : gmap string json) : M unit :=
  s <- get_state ;;
  match data s !! "image" with
  | Some (JArr l) => set_data "image" (JArr (l ++ [JObj img]))
  | Some _ => raise AttributeError
  | None => raise (KeyError "image")
  end.

(** [img.update({'url': shape.get('source')})] when the shape has a source *)
Definition with_url (shape : json) (img : gmap string json) : Result (gmap string json) :=
  match py_get shape "source" with
  | Ok src => Ok (if truthy src then dict_update img {["url" := src]} else img)
  | Raise e => Raise e
  end.

(** [self._unpack_images(rdata)] *)
Definition _unpack_images (rdata : json) : M unit :=
  image <- lift (py_get rdata "image") ;;
  originalimage <- lift (py_get rdata "originalimage") ;;
  thumbnail <- lift (py_get rdata "thumbnail") ;;
  (if truthy image || truthy originalimage || truthy thumbnail
   then s <- get_state ;;
        match data s !! "image" with
        | None => set_data "image" (JArr [])
        | Some _ => ret tt
        end
   else ret tt) ;;;
  (if truthy image
   then img <- lift (py_update {["kind" := JStr "restbase-image"]} image) ;;
        append_image img
   else ret tt) ;;;
  (if truthy originalimage
   then img <- lift (py_update {["kind" := JStr "restbase-original"]} originalimage) ;;
        img <- lift (with_url originalimage img) ;;
        append_image img
   else ret tt) ;;;
  (if truthy thumbnail
   then img <- lift (py_update {["kind" := JStr "restbase-thumb"]} thumbnail) ;;
        img <- lift (with_url thumbnail img) ;;
        append_image img
   else ret tt).

(** [self.data['modified'].update(pagemod)] or
    [self.data['modified'] = pagemod] *)
Definition merge_modified (lastmodified : json) : M unit :=
  s <- get_state ;;
  match data s !! "modified" with
  | Some (JObj m) => set_data "modified" (JObj (dict_update m {["page" := lastmodified]}))
  | Some _ => raise AttributeError
  | None => set_data "modified" (JObj {["page" := lastmodified]})
  end.

(** [self._set_restbase_data()] *)
Definition _set_restbase_data : M unit :=
  res <- _handle_response ;;
  match res with
  | None => ret tt
  | Some res =>
      description <- lift (py_get res "description") ;;
      set_data "description" description ;;;
      id <- lift (py_get res "id") ;;
      pageid <- lift (py_get res "pageid") ;;
      set_data "pageid" (py_or id pageid) ;;;
      extract <- lift (py_get res "extract") ;;
      set_data "exrest" extract ;;;
      extract_html <- lift (py_get res "extract_html") ;;
      set_data "exhtml" extract_html ;;;
      lastmodified <- lift (py_get res "lastmodified") ;;
      (if truthy lastmodified then merge_modified lastmodified else ret tt) ;;;
      sections <- lift (py_get res "sections") ;;
      (if truthy sections
       then lead <- lift (py_index0 sections) ;;
            text <- lift (py_get lead "text") ;;
            set_data "lead" text
       else ret tt) ;;;
      t1 <- lift (py_get res "title") ;;
      t2 <- lift (py_get res "normalizedtitle") ;;
      let title_ := py_or t1 t2 in
      (if truthy title_
       then match title_ with
            | JStr t => set_data "title" (JStr (Py.replace " " "_" t))
            | _ => raise AttributeError
            end
       else ret tt) ;;;
      wikibase <- lift (py_get res "wikibase_item") ;;
      (if truthy wikibase
       then set_data "wikibase" wikibase ;;;
            set_data "wikidata_url" (wikidata_url wikibase)
       else ret tt) ;;;
      s <- get_state ;;
      e <- lift (require "restbase" (cache s !! "restbase")) ;;
      q <- lift (require "query" (ce_query e)) ;;
      let url := urlparse q in
      t <- lift (require "title" (title (params s))) ;;
      let durl := fst url +:+ "://" +:+ snd url +:+ "/wiki/" +:+ t in
      set_data "url" (JStr durl) ;;;
      set_data "url_raw" (JStr (durl +:+ "?action=raw")) ;;;
      _unpack_images res
  end.

(** The two methods the class supplies. *)
#[global] Instance WPToolsRESTBase : Source :=
  {| _query := fun _ qobj s =>
       match require "endpoint" (endpoint (params s)) with
       | Ok ep => Ok (qobj_restbase qobj ep)
       | Raise e => Raise e
       end;
     _set_data := fun _ => _set_restbase_data |}.

(** [self.get_restbase(endpoint, show, proxy, timeout)] *)
Definition get_restbase (endpoint_ : option string) (show_ : bool)
    (proxy : option string) (timeout : Z) : M unit :=
  (if Py.truthy_opt endpoint_
   then s <- get_state ;;
        ep <- _parse_endpoint endpoint_ (title (params s)) ;;
        modify (fun s => with_params (with_endpoint (Some ep) (params s)) s)
   else ret tt) ;;;
  _get "restbase" show_ proxy timeout.

End RESTBase.

(** ** Construction *)

(** The keyword arguments the constructors read. *)
Record Kwargs : Type :=
  { kw_silent : option bool;
    kw_skip : option (list string);
    kw_verbose : option bool;
    kw_lang : option string;
    kw_variant : option string;
    kw_wiki : option string;
    kw_endpoint : option string }.

Definition no_kwargs : Kwargs :=
  {| kw_silent := None; kw_skip := None; kw_verbose := None; kw_lang := None;
     kw_variant := None; kw_wiki := None; kw_endpoint := None |}.

(** [WPTools.__init__] with keyword arguments [kw], on channels that carry
    nothing yet *)
Definition WPTools__init__ (kw : Kwargs) : State :=
  {| cache := ∅;
     data := ∅;
     flags := {| silent := default false (kw_silent kw);
                 skip := default [] (kw_skip kw);
                 verbose := default false (kw_verbose kw) |};
     params := {| lang := if Py.truthy_opt (kw_lang kw)
                          then default "en" (kw_lang kw) else "en";
                  variant := kw_variant kw;
                  wiki := kw_wiki kw;
                  title := None;
                  endpoint := None |};
     stderr_calls := [];
     wire := [] |}.

(** The constructor call of [WPToolsRESTBase] with positional arguments
    [args] and keyword arguments [kw]: the instance, or the exception
    that leaves the caller without one.  [__init__] hands [args] on to
    [WPTools.__init__(self, **kwargs)], which takes no positional
    argument: with any, the call raises [TypeError] before an attribute
    is set. *)
Definition WPToolsRESTBase__init__ (args : list json) (kw : Kwargs) : Result State :=
  match args with
  | _ :: _ => Raise TypeError
  | [] =>
      match (s <- get_state ;;
             ep <- _parse_endpoint (kw_endpoint kw) (title (params s)) ;;
             modify (fun s => with_params (with_endpoint (Some ep) (params s)) s))
              (WPTools__init__ kw) with
      | (Ok _, s) => Ok s
      | (Raise e, _) => Raise e
      end
  end.

(** The instance of a constructor call that returns; where the call
    raises there is none, and [WPTools__init__ no_kwargs] stands in. *)
Definition constructed (r : Result State) : State :=
  match r with
  | Ok s => s
  | Raise _ => WPTools__init__ no_kwargs
  end.

(** ** Vocabulary of the statements *)

(** an endpoint made of [n] separators and nothing else *)
Fixpoint slashes (n : nat) : string :=
  match n with
  | O => EmptyString
  | S k => String "/" (slashes k)
  end.

(** The state in which [_get] goes on after its cache check: a missing
    entry has been created empty. *)
Definition reserve (action : string) (s : State) : State :=
  match cache s !! action with
  | Some _ => s
  | None => with_cache (<[action := empty_entry]> (cache s)) s
  end.

(** the query object [_get] builds from the parameters *)
Definition qobj_of (s : State) : QObj :=
  {| q_lang := lang (params s); q_wiki := wiki (params s);
     q_variant := variant (params s); q_status := "" |}.

(** the two notices of [_get] *)
Definition cache_notice (action : string) (s : State) : StderrCall :=
  {| sc_msg := "+ " +:+ action +:+ " results in cache";
     sc_silent := Some (silent (flags s)) |}.

Definition skip_notice (action : string) : StderrCall :=
  {| sc_msg := "+ skipping " +:+ action; sc_silent := None |}.

(** a cache entry as a completed request leaves it *)
Definition fetched (q : string) (r : Body) (i : Info) : CacheEntry :=
  {| ce_query := Some q; ce_response := Some r; ce_info := Some i |}.

(** the query as the validator reports it *)
Definition reported (q : string) : string := Py.replace "&format=json" "" q.

(** the request [_get] hands to the transport *)
Definition request_of (proxy : option string) (timeout : Z)
    (qq : string * QObj) : Request :=
  {| rq_query := fst qq; rq_status := q_status (snd qq);
     rq_proxy := proxy; rq_timeout := timeout |}.

(** [_get] goes past its cache check for an action that has no entry, and
    for ['imageinfo'] always. *)
Definition proceeds (action : string) (s : State) : Prop :=
  cache s !! action = None \/ action = "imageinfo".

(** The state in which the normalizer runs: the request is on the wire
    and the entry holds query, response and info. *)
Definition arrived (action : string) (rq : Request) (body : Body) (i : Info)
    (s : State) : State :=
  with_wire (wire s ++ [rq])
    (with_cache (<[action := fetched (rq_query rq) body i]> (cache s)) s).

(** A computation whose every outcome is related to its start by [R]. *)
Definition keeps (R : State -> State -> Prop) {A} (c : M A) : Prop :=
  forall s, R s (snd (c s)).

Definition same_wire (s s' : State) : Prop := wire s' = wire s.

(** A computation that puts nothing on the wire. *)
Definition offline {A} (c : M A) : Prop := keeps same_wire c.

Definition same_cache (s s' : State) : Prop := cache s' = cache s.

Definition same_data (s s' : State) : Prop := data s' = data s.

Definition same_params (s s' : State) : Prop := params s' = params s.

(** every cache entry but that of [action] is as before *)
Definition same_cache_but (action : string) (s s' : State) : Prop :=
  forall k, k <> action -> cache s' !! k = cache s !! k.

(** the records in [data['image']] *)
Definition images_of (s : State) : list json :=
  match data s !! "image" with
  | Some (JArr l) => l
  | _ => []
  end.

(** [data['image']] is missing or a list *)
Definition image_list_ok (s : State) : Prop :=
  data s !! "image" = None \/ exists l, data s !! "image" = Some (JArr l).

(** Every other field of [data] is as before, and a list in
    [data['image']] has only been extended at its end. *)
Definition image_grows (s s' : State) : Prop :=
  (forall k, k <> "image" -> data s' !! k = data s !! k)
  /\ (forall l, data s !! "image" = Some (JArr l) ->
       exists added, data s' !! "image" = Some (JArr (l ++ added))).

(** the record built from a shape: the tag, the fields of the shape over
    it, and (for any shape but ['image']) its ['source'] again as ['url'] *)
Definition tagged (kind : string) (shape : gmap string json) : gmap string json :=
  dict_update {["kind" := JStr kind]} shape.

Definition with_source_url (shape img : gmap string json) : gmap string json :=
  if truthy (default JNull (shape !! "source"))
  then dict_update img {["url" := default JNull (shape !! "source")]}
  else img.

(** every field of [data] outside [W] is as before *)
Definition data_but (W : list string) (s s' : State) : Prop :=
  forall k, k ∉ W -> data s' !! k = data s !! k.

(** the fields of [data] outside [W], the cache and the parameters are as
    before *)
Definition touches (W : list string) (s s' : State) : Prop :=
  data_but W s s' /\ cache s' = cache s /\ params s' = params s.

(** the canonical URL the normalizer derives *)
Definition derived_url `{Helpers} (q t : string) : string :=
  fst (urlparse q) +:+ "://" +:+ snd (urlparse q) +:+ "/wiki/" +:+ t.

(** the three records of [_unpack_images] *)
Definition image_record (image : gmap string json) : gmap string json :=
  tagged "restbase-image" image.

Definition original_record (originalimage : gmap string json) : gmap string json :=
  with_source_url originalimage (tagged "restbase-original" originalimage).

Definition thumb_record (thumbnail : gmap string json) : gmap string json :=
  with_source_url thumbnail (tagged "restbase-thumb" thumbnail).

(** a [str] without the path separator *)
Fixpoint no_slash (s : string) : bool :=
  match s with
  | EmptyString => true
  | String c s' => negb (Ascii.eqb c "/") && no_slash s'
  end.

(** a proper path segment: not empty, no separator inside *)
Definition segment (p : string) : Prop :=
  Py.nonempty p = true /\ no_slash p = true.

(** [params['title']] is missing or a proper segment, as
    [_parse_endpoint] stores it *)
Definition title_ok (s : State) : Prop :=
  match title (params s) with
  | None => True
  | Some t => segment t
  end.

(** what [get_restbase] does with a supplied endpoint before it fetches:
    [self._parse_endpoint(endpoint, self.params.get('title'))] *)
Definition resolve (ep : string) : M string :=
  s <- get_state ;; _parse_endpoint (Some ep) (title (params s)).

(** what construction establishes and every [get_restbase] keeps: the
    endpoint is on record and starts with [/page], the title is missing
    or a proper segment *)
Definition ready (s : State) : Prop :=
  (exists r, endpoint (params s) = Some r /\ Py.startswith "/page" r = true)
  /\ title_ok s.

(** the notice of the root listing *)
Definition listing_notice `{Helpers} (items : json) : StderrCall :=
  {| sc_msg := "RESTBase /page/ entry points: " +:+ py_str items;
     sc_silent := None |}.

(** [data['html']] for a body announced as HTML *)
Definition html_value `{Helpers} (body : Body) : Result json :=
  match body with
  | BBytes b => match utf8_decode b with
                | Some t => Ok (JStr t)
                | None => Raise UnicodeDecodeError
                end
  | BStr t => Ok (JStr t)
  | BNone => Ok JNull
  end.

(** the calls to [utils.stderr] so far are still there, in front *)
Definition stderr_grows (s s' : State) : Prop :=
  exists l, stderr_calls s' = stderr_calls s ++ l.

(** the line [prettyprint] writes for a line of the dump *)
Definition clip `{QueryBuilder} (line : string) : string :=
  if (MAXWIDTH <=? Z.of_nat (Py.len line))%Z
  then Py.slice_to (MAXWIDTH - (RPAD + 2))%Z line +:+ "..."
  else line.

(** a call of [utils.stderr] with one argument *)
Definition plain_call (msg : string) : StderrCall :=
  {| sc_msg := msg; sc_silent := None |}.

(** a shape of the response as [_unpack_images] takes it: nothing when
    the value is false, the object when it is a non-empty one *)
Definition shape_of (v : json) : list (gmap string json) :=
  match v with
  | JObj o => if truthy (JObj o) then [o] else []
  | _ => []
  end.

(** a value [_unpack_images] can take as a shape: false, or an object *)
Definition well_shaped (v : json) : Prop :=
  truthy v = false \/ exists o, v = JObj o.

(** the records a response adds, in the order the code appends them *)
Definition added_images (m : gmap string json) : list json :=
  map (fun o => JObj (image_record o)) (shape_of (default JNull (m !! "image")))
  ++ map (fun o => JObj (original_record o))
       (shape_of (default JNull (m !! "originalimage")))
  ++ map (fun o => JObj (thumb_record o))
       (shape_of (default JNull (m !! "thumbnail"))).

(** a value that is neither a dict nor an array nor [None]: a number, a
    boolean or a string *)
Definition scalar (v : json) : bool :=
  match v with
  | JNum _ | JBool _ | JStr _ => true
  | JNull | JArr _ | JObj _ => false
  end.

(** the error of [dict.update] on a scalar that is true *)
Definition update_error (v : json) : Exc :=
  match v with
  | JStr _ => ValueError "dictionary update sequence"
  | _ => TypeError
  end.

(** ** Fixtures: canned collaborators for the examples *)
Module Demo.

Definition dq : string := String (ascii_of_nat 34) EmptyString.

(** the key [k] between double quotes *)
Definition quoted (k : string) : string := dq +:+ k +:+ dq.

Definition doc_empty : string := "{}".
Definition doc_truncated : string := "{" +:+ quoted "title" +:+ ": ".
Definition doc_error : string :=
  "{" +:+ quoted "error" +:+ ": {" +:+ quoted "code" +:+ ": 1}}".
Definition doc_ids : string :=
  "{" +:+ quoted "id" +:+ ": 0, " +:+ quoted "pageid" +:+ ": 5}".
Definition doc_notfound : string :=
  "{" +:+ quoted "entities" +:+ ": {" +:+ quoted "-1" +:+ ": {}}}".
Definition doc_summary : string :=
  "{" +:+ quoted "title" +:+ ": " +:+ quoted "Douglas Adams" +:+ "}".

(** the documents the canned parser knows *)
Definition documents : list (string * json) :=
  [ (doc_empty, JObj ∅);
    (doc_error, JObj {["error" := JObj {["code" := JNum 1]}]});
    (doc_ids, JObj (<["id" := JNum 0]> {["pageid" := JNum 5]}));
    (doc_notfound, JObj {["entities" := JObj {["-1" := JObj ∅]}]});
    (doc_summary, JObj {["title" := JStr "Douglas Adams"]}) ].

Fixpoint find_doc (text : string) (docs : list (string * json)) : option json :=
  match docs with
  | [] => None
  | (t, v) :: rest => if String.eqb t text then Some v else find_doc text rest
  end.

Definition rest_v1 : string := "https://en.wikipedia.org/api/rest_v1".

(** which body the canned server sends for a query *)
Definition served (q : string) : Body :=
  if String.eqb q (rest_v1 +:+ "/page/summary/Broken") then BStr doc_truncated
  else if String.eqb q (rest_v1 +:+ "/page/summary/Douglas_Adams") then BStr doc_summary
  else BStr doc_empty.

#[global] Instance query_builder : QueryBuilder :=
  {| MAXWIDTH := 72;
     RPAD := 4;
     qobj_restbase := fun qobj ep =>
       ("https://" +:+ q_lang qobj +:+ ".wikipedia.org/api/rest_v1" +:+ ep,
        {| q_lang := q_lang qobj; q_wiki := q_wiki qobj;
           q_variant := q_variant qobj; q_status := "restbase " +:+ ep |}) |}.

#[global] Instance transport : Transport :=
  {| http_get := fun _ _ _ rq =>
       Some (served (rq_query rq),
             {| content := "application/json"; status := 200 |}) |}.

(** [dict.update] on a sequence of pairs whose keys are strings *)
Fixpoint update_pairs (d : gmap string json) (l : list json) :
    Result (gmap string json) :=
  match l with
  | [] => Ok d
  | JArr [JStr k; v] :: rest => update_pairs (<[k := v]> d) rest
  | _ => Raise (ValueError "dictionary update sequence")
  end.

(** the helpers, on Python 2 *)
#[global] Instance helpers : Helpers :=
  {| python3 := false;
     update_sequence := update_pairs;
     json_loads := fun b =>
       match b with
       | BStr t | BBytes t =>
           match find_doc t documents with
           | Some v => Ok v
           | None => Raise (ValueError "No JSON object could be decoded")
           end
       | BNone => Raise TypeError
       end;
     wikidata_url := fun v =>
       match v with
       | JStr q => JStr ("https://www.wikidata.org/wiki/" +:+ q)
       | _ => JNull
       end;
     urlparse := fun _ => ("https", "en.wikipedia.org");
     utf8_decode := Some;
     py_str := fun _ => "None";
     dump_lines := fun _ _ => [] |}.

Definition kw_skip_restbase : Kwargs :=
  {| kw_silent := Some true; kw_skip := Some ["restbase"]; kw_verbose := None;
     kw_lang := None; kw_variant := None; kw_wiki := None; kw_endpoint := None |}.

(** [WPToolsRESTBase()] *)
Definition fresh : State := constructed (WPToolsRESTBase__init__ [] no_kwargs).

(** [WPToolsRESTBase(silent=True, skip=['restbase'])] *)
Definition skipping : State := constructed (WPToolsRESTBase__init__ [] kw_skip_restbase).

(** [WPToolsRESTBase(skip=['imageinfo'])] *)
Definition skipping_imageinfo : State :=
  constructed (WPToolsRESTBase__init__ []
         {| kw_silent := None; kw_skip := Some ["imageinfo"]; kw_verbose := None;
            kw_lang := None; kw_variant := None; kw_wiki := None;
            kw_endpoint := None |}).

(** [WPToolsRESTBase(endpoint='/page/summary/Douglas_Adams')] *)
Definition summary_page : State :=
  constructed (WPToolsRESTBase__init__ []
         {| kw_silent := None; kw_skip := None; kw_verbose := None;
            kw_lang := None; kw_variant := None; kw_wiki := None;
            kw_endpoint := Some "/page/summary/Douglas_Adams" |}).

(** [WPToolsRESTBase(endpoint='/page/summary/Broken')], with a title
    recorded by an earlier source *)
Definition broken_page : State :=
  with_data {["title" := JStr "Broken"]}
    (constructed (WPToolsRESTBase__init__ []
            {| kw_silent := None; kw_skip := None; kw_verbose := None;
               kw_lang := None; kw_variant := None; kw_wiki := None;
               kw_endpoint := Some "/page/summary/Broken" |})).

(** the instance on which [_get] runs the normalizer when the root listing
    has been fetched by [WPToolsRESTBase().get_restbase()] *)
Definition root_arrived : State :=
  arrived "restbase"
    (request_of None 0 (qobj_restbase (qobj_of fresh) "/page/"))
    (BStr doc_empty) {| content := "application/json"; status := 200 |}
    fresh.

(** image shapes as [/page/summary] and [/page/mobile-sections-lead] send
    them *)
Definition shape (source : string) (width : Z) : gmap string json :=
  <["source" := JStr source]> {["width" := JNum width]}.

Definition summary_images : gmap string json :=
  <["originalimage" := JObj (shape "https://upload/full.jpg" 1200)]>
    {["thumbnail" := JObj (shape "https://upload/thumb.jpg" 240)]}.

Definition lead_images : gmap string json :=
  {["image" := JObj {["file" := JStr "Douglas_adams.jpg"]}]}.

(** a response whose shapes bring a ['kind'] of their own *)
Definition kinded_images : gmap string json :=
  <["originalimage" := JObj (<["kind" := JStr "photo"]> (shape "https://upload/full.jpg" 1200))]>
    {["thumbnail" := JObj (<["kind" := JStr "photo"]> (shape "https://upload/thumb.jpg" 240))]}.

(** the instance on which [_get] runs the normalizer for
    [/page/summary/Douglas_Adams] when the body is [body], a description
    and a page id being on record from an earlier source *)
Definition described (body : Body) : State :=
  with_data (<["description" := JStr "English writer and humorist"]>
               {["pageid" := JNum 8091]})
    (arrived "restbase"
       (request_of None 0
          (qobj_restbase (qobj_of summary_page) "/page/summary/Douglas_Adams"))
       body {| content := "application/json"; status := 200 |}
       summary_page).

(** an instance that has one completed request in its cache *)
Definition holding (action : string) (body : Body) : State :=
  with_cache
    {[action := fetched (rest_v1 +:+ "/page/summary/X&format=json") body
                  {| content := "application/json"; status := 200 |}]}
    fresh.

End Demo.

(** ** Further fixtures: failing collaborators and odd responses *)
Module Cases.

(** [WPToolsRESTBase(endpoint=ep)] *)
Definition kw_endpoint_only (ep : string) : Kwargs :=
  {| kw_silent := None; kw_skip := None; kw_verbose := None; kw_lang := None;
     kw_variant := None; kw_wiki := None; kw_endpoint := Some ep |}.

(** a transport that is down *)
Definition down : Transport := {| http_get := fun _ _ _ _ => None |}.

Definition doc_list : string := "[]".
Definition doc_modified : string :=
  "{" +:+ Demo.quoted "title" +:+ ": " +:+ Demo.quoted "Douglas Adams" +:+ ", "
  +:+ Demo.quoted "lastmodified" +:+ ": " +:+ Demo.quoted "2017-01-01T00:00:00Z"
  +:+ "}".

Definition more_documents : list (string * json) :=
  Demo.documents
  ++ [ (doc_list, JArr []);
       (doc_modified,
        JObj (<["title" := JStr "Douglas Adams"]>
                {["lastmodified" := JStr "2017-01-01T00:00:00Z"]})) ].

(** the helpers on Python 3.5: a parser that knows two documents more
    and, as [json.loads] does there, refuses bytes with [TypeError] *)
Definition parser : Helpers :=
  {| python3 := true;
     update_sequence := update_sequence (Helpers := Demo.helpers);
     json_loads := fun b =>
       match b with
       | BStr t =>
           match Demo.find_doc t more_documents with
           | Some v => Ok v
           | None => Raise (ValueError "No JSON object could be decoded")
           end
       | BBytes _ | BNone => Raise TypeError
       end;
     wikidata_url := wikidata_url (Helpers := Demo.helpers);
     urlparse := urlparse (Helpers := Demo.helpers);
     utf8_decode := utf8_decode (Helpers := Demo.helpers);
     py_str := py_str (Helpers := Demo.helpers);
     dump_lines := dump_lines (Helpers := Demo.helpers) |}.

Definition ok_json : Info := {| content := "application/json"; status := 200 |}.

(** an instance whose cache holds a page that was not found, announced as
    HTML with an empty body *)
Definition html_not_found : State :=
  with_cache
    {["restbase" := fetched (Demo.rest_v1 +:+ "/page/html/Nope") (BStr EmptyString)
                      {| content := "text/html; charset=utf-8"; status := 404 |}]}
    Demo.fresh.

(** the same for a JSON answer *)
Definition json_not_found : State :=
  with_cache
    {["restbase" := fetched (Demo.rest_v1 +:+ "/page/summary/Nope&format=json")
                      (BStr Demo.doc_empty)
                      {| content := "application/json"; status := 404 |}]}
    Demo.fresh.

(** [WPToolsRESTBase(endpoint='/page/')] *)
Definition bare_root : State := constructed (WPToolsRESTBase__init__ [] (kw_endpoint_only "/page/")).

(** the instance on which [_get] runs the normalizer for it *)
Definition bare_root_arrived : State :=
  arrived "restbase"
    (request_of None 0 (qobj_restbase (qobj_of bare_root) "/page"))
    (BStr Demo.doc_summary) ok_json bare_root.

(** [Demo.broken_page] with the summary of another page in its cache *)
Definition broken_after_summary : State :=
  with_cache
    {["restbase" := fetched (Demo.rest_v1 +:+ "/page/summary/Douglas_Adams")
                      (BStr Demo.doc_summary) ok_json]}
    Demo.broken_page.

(** an instance that has fetched nothing for a skipped action *)
Definition reserved (action : string) : State :=
  with_cache {[action := empty_entry]} Demo.fresh.

(** a response with an ['image'] that is a number *)
Definition numbered_image : gmap string json := {["image" := JNum 1]}.

(** a line of [n] characters of three bytes each (U+4E2D) *)
Fixpoint wide (n : nat) : string :=
  match n with
  | O => EmptyString
  | S k => String (ascii_of_nat 228)
             (String (ascii_of_nat 184) (String (ascii_of_nat 173) (wide k)))
  end.

(** a line of [n] dashes *)
Fixpoint dashes (n : nat) : string :=
  match n with
  | O => EmptyString
  | S k => String "-" (dashes k)
  end.

End Cases.

(** * Properties *)

(** ** The monad *)

Lemma bind_ok {A B} (c : M A) (k : A -> M B) s b s' :
  (x <- c ;; k x) s = (Ok b, s') ->
  exists a s1, c s = (Ok a, s1) /\ k a s1 = (Ok b, s').
Proof.
  unfold bind. destruct (c s) as [[a|e] s1]; intros H.
  - eauto.
  - discriminate.
Qed.

Lemma bind_raise {A B} (c : M A) (k : A -> M B) s e s1 :
  c s = (Raise e, s1) -> (x <- c ;; k x) s = (Raise e, s1).
Proof. unfold bind. intros ->. reflexivity. Qed.

Lemma bind_step {A B} (c : M A) (k : A -> M B) s a s1 :
  c s = (Ok a, s1) -> (x <- c ;; k x) s = k a s1.
Proof. unfold bind. intros ->. reflexivity. Qed.

(** ** Endpoint resolution *)

Lemma split_slashes n : Py.split "/" (slashes n) = replicate (S n) EmptyString.
Proof.
  induction n as [|n IH]; [reflexivity|].
  cbn [slashes Py.split]. rewrite IH. reflexivity.
Qed.

Lemma filter_nonempty_replicate n :
  filter (fun x => Is_true (Py.nonempty x)) (replicate n EmptyString) = [].
Proof. induction n as [|n IH]; [reflexivity|]. cbn. exact IH. Qed.

Lemma endpoint_parts_slashes n : endpoint_parts (slashes n) = Raise IndexError.
Proof.
  unfold endpoint_parts. rewrite split_slashes, filter_nonempty_replicate.
  reflexivity.
Qed.

(** C10: an endpoint that is not empty and consists of path separators
    only (["/"], ["//"], ...) makes [_parse_endpoint] raise the unclassified
    [IndexError] of [parts[0]] on an empty list; it neither returns the
    root path nor fails with one of the two title errors, and the instance
    is left as it was. *)
Theorem parse_endpoint_separators_only :
  forall (n : nat) (title_ : option string) (s : State),
    0 < n ->
    _parse_endpoint (Some (slashes n)) title_ s = (Raise IndexError, s).
Proof.
  intros n title_ s Hn. destruct n as [|n]; [lia|].
  unfold _parse_endpoint. cbn [slashes Py.nonempty negb].
  apply bind_raise. unfold lift.
  change (String "/" (slashes n)) with (slashes (S n)).
  rewrite endpoint_parts_slashes. reflexivity.
Qed.

Lemma parse_endpoint_separators_only_witness :
  0 < 1 /\
  _parse_endpoint (Some "/") None Demo.fresh = (Raise IndexError, Demo.fresh).
Proof.
  split; [lia|]. apply (parse_endpoint_separators_only 1). lia.
Defined.

(** C2: the five resolutions of the specification, and the adoption of
    the third segment as the instance title when three segments result
    and no title was known: the resolution returns the joined path and
    leaves an instance whose [params['title']] is the third segment and
    whose every other part is as before. *)
Theorem parse_endpoint_resolution :
  forall s : State,
    _parse_endpoint None (Some "X") s = (Ok "/page/", s)
    /\ _parse_endpoint (Some "summary") (Some "X") s = (Ok "/page/summary/X", s)
    /\ _parse_endpoint (Some "page/summary/X") (Some "X") s
       = (Ok "/page/summary/X", s)
    /\ _parse_endpoint (Some "page/summary/Y") (Some "X") s
       = (Raise (ValueError "titles conflict."), s)
    /\ _parse_endpoint (Some "summary") None s
       = (Raise (ValueError "need a title."), s)
    /\ (forall (ep : string) (known : option string) (p0 p1 p2 : string),
          Py.nonempty ep = true ->
          Py.truthy_opt known = false ->
          endpoint_parts ep = Ok [p0; p1; p2] ->
          exists s' : State,
            _parse_endpoint (Some ep) known s
            = (Ok ("/" +:+ Py.join "/" [p0; p1; p2]), s')
            /\ title (params s') = Some p2
            /\ lang (params s') = lang (params s)
            /\ variant (params s') = variant (params s)
            /\ wiki (params s') = wiki (params s)
            /\ endpoint (params s') = endpoint (params s)
            /\ cache s' = cache s /\ data s' = data s /\ flags s' = flags s
            /\ stderr_calls s' = stderr_calls s /\ wire s' = wire s
            /\ s' = with_params (with_title (Some p2) (params s)) s).
Proof.
  intros s. repeat apply conj; try reflexivity.
  intros ep known p0 p1 p2 Hep Hknown Hparts.
  exists (with_params (with_title (Some p2) (params s)) s).
  split; [|repeat apply conj; reflexivity].
  unfold _parse_endpoint. rewrite Hep. cbn [negb].
  unfold bind, lift. rewrite Hparts. cbn [length Nat.eqb].
  destruct known as [t|]; [destruct t; [|discriminate]|]; reflexivity.
Qed.

Lemma parse_endpoint_resolution_witness :
  title (params Demo.fresh) = None
  /\ exists s' : State,
       _parse_endpoint (Some "/page/summary/Douglas_Adams") None Demo.fresh
       = (Ok "/page/summary/Douglas_Adams", s')
       /\ title (params s') = Some "Douglas_Adams"
       /\ endpoint (params s') = endpoint (params Demo.fresh)
       /\ cache s' = cache Demo.fresh /\ data s' = data Demo.fresh.
Proof.
  split; [reflexivity|].
  destruct (parse_endpoint_resolution Demo.fresh) as (_ & _ & _ & _ & _ & H).
  destruct (H "/page/summary/Douglas_Adams" None "page" "summary" "Douglas_Adams"
              eq_refl eq_refl eq_refl)
    as (s' & E & Ht & _ & _ & _ & He & Hc & Hd & _).
  exists s'. repeat apply conj; assumption.
Defined.

(** ** The response validator *)

Section Validator.
Context {HP : Helpers}.

(** The validator only reads the instance. *)
Lemma load_response_pure (action : string) (s : State) :
  snd (_load_response action s) = s.
Proof.
  unfold _load_response, bind, lift, get_state, raise, ret, require.
  destruct (cache s !! action) as [e|]; [|reflexivity].
  destruct (ce_query e); [|reflexivity].
  destruct (ce_response e) as [r|]; [|reflexivity].
  destruct (body_truthy r); [|reflexivity]. cbn [negb].
  destruct (json_loads r) as [d|[]]; try reflexivity.
  destruct (py_get d "error") as [err|]; [|reflexivity].
  destruct (truthy err); [reflexivity|].
  destruct (String.eqb action "parse").
  - destruct (py_get d "parse") as [p|]; [|reflexivity]. cbn.
    destruct (truthy p); cbn; [|reflexivity].
    destruct (String.eqb action "wikidata"); [|reflexivity].
    destruct (py_get d "entities") as [ents|]; [|reflexivity].
    destruct (py_contains "-1" ents) as [[]|]; reflexivity.
  - destruct (String.eqb action "wikidata"); [|reflexivity].
    destruct (py_get d "entities") as [ents|]; [|reflexivity].
    destruct (py_contains "-1" ents) as [[]|]; reflexivity.
Qed.

(** What the validator does once the entry and its two keys are found. *)
Lemma load_response_found (action : string) (s : State) (e : CacheEntry)
    (q : string) (r : Body) :
  cache s !! action = Some e ->
  ce_query e = Some q ->
  ce_response e = Some r ->
  _load_response action s =
  (if negb (body_truthy r)
   then raise (if python3 then NameError "StandardError"
               else StandardError (params s))
   else
     match json_loads r with
     | Raise e0 => if is_ValueError e0 then raise (ValueError (reported q))
                   else raise e0
     | Ok d =>
         err <- lift (py_get d "error") ;;
         if truthy err then raise (LookupError (reported q))
         else
           noparse <- (if String.eqb action "parse"
                       then p <- lift (py_get d "parse") ;; ret (negb (truthy p))
                       else ret false) ;;
           if (noparse : bool) then raise (LookupError (reported q))
           else
             notfound <- (if String.eqb action "wikidata"
                          then ents <- lift (py_get d "entities") ;;
                               lift (py_contains "-1" ents)
                          else ret false) ;;
             if (notfound : bool) then raise (LookupError (reported q))
             else ret d
     end) s.
Proof.
  intros Hc Hq Hr.
  unfold _load_response, bind at 1 2 3 4, lift at 1 2 3, get_state, require.
  rewrite Hc, Hq, Hr. reflexivity.
Qed.

(** X28: The classification of the validator on an entry that holds the query
    and the raw response: the empty-response error ([StandardError], on
    Python 2) when the response is empty or [None], the malformed-response
    error ([ValueError]) when the parser raises [ValueError] or a subclass
    of it, the api-error ([LookupError]) when the parsed dict reports an
    error, when the action is ['parse'] and the ['parse'] key is missing,
    and when the action is ['wikidata'] and the only entity id is ['-1'];
    when it succeeds it hands back the parsed structure itself and leaves
    the instance untouched. *)
Lemma load_response_classification :
  forall (action : string) (s : State) (e : CacheEntry) (q : string) (r : Body),
    cache s !! action = Some e ->
    ce_query e = Some q ->
    ce_response e = Some r ->
    (python3 = false -> body_truthy r = false ->
     _load_response action s = (Raise (StandardError (params s)), s))
    /\ (forall err : Exc,
          body_truthy r = true -> json_loads r = Raise err ->
          is_ValueError err = true ->
          _load_response action s = (Raise (ValueError (reported q)), s))
    /\ (forall (m : gmap string json) (err : json),
          body_truthy r = true -> json_loads r = Ok (JObj m) ->
          m !! "error" = Some err -> truthy err = true ->
          _load_response action s = (Raise (LookupError (reported q)), s))
    /\ (forall m : gmap string json,
          body_truthy r = true -> json_loads r = Ok (JObj m) ->
          action = "parse" -> m !! "parse" = None ->
          _load_response action s = (Raise (LookupError (reported q)), s))
    /\ (forall m ents : gmap string json,
          body_truthy r = true -> json_loads r = Ok (JObj m) ->
          action = "wikidata" -> m !! "entities" = Some (JObj ents) ->
          dom ents = {["-1"]} ->
          _load_response action s = (Raise (LookupError (reported q)), s))
    /\ (forall (d : json) (s' : State),
          _load_response action s = (Ok d, s') ->
          s' = s /\ json_loads r = Ok d)
    /\ (forall m : gmap string json,
          body_truthy r = true -> json_loads r = Ok (JObj m) ->
          truthy (default JNull (m !! "error")) = false ->
          action <> "parse" -> action <> "wikidata" ->
          _load_response action s = (Ok (JObj m), s)).
Proof.
  intros action s e q r Hc Hq Hr.
  pose proof (load_response_found action s e q r Hc Hq Hr) as E.
  repeat apply conj.
  - intros Hpy Hr0. rewrite E, Hr0, Hpy. reflexivity.
  - intros err Hr1 Hj Hv. rewrite E, Hr1, Hj, Hv. reflexivity.
  - intros m err Hr1 Hj Hm Herr. rewrite E, Hr1, Hj. cbn [negb].
    unfold bind, lift, py_get. rewrite Hm. cbn [default from_option id].
    rewrite Herr. reflexivity.
  - intros m Hr1 Hj -> Hm. rewrite E, Hr1, Hj. cbn [negb].
    unfold bind, lift, py_get, raise, ret. rewrite Hm.
    destruct (truthy (default JNull (m !! "error"))); reflexivity.
  - intros m ents Hr1 Hj -> Hm Hdom. rewrite E, Hr1, Hj. cbn [negb].
    unfold bind, lift, py_get, raise, ret. rewrite Hm.
    destruct (truthy (default JNull (m !! "error"))); [reflexivity|].
    assert (Hin : is_Some (ents !! "-1")).
    { apply elem_of_dom. rewrite Hdom. set_solver. }
    cbn. destruct (truthy (default JNull (m !! "parse"))); cbn;
      rewrite bool_decide_eq_true_2 by exact Hin; reflexivity.
  - intros d s' H. split.
    + pose proof (load_response_pure action s) as P. rewrite H in P.
      exact P.
    + rewrite E in H. destruct (body_truthy r); [|discriminate H].
      cbn [negb] in H.
      destruct (json_loads r) as [d0|e0];
        [|destruct (is_ValueError e0); discriminate H].
      f_equal. unfold bind, lift, raise, ret in H.
      destruct (py_get d0 "error") as [err|]; [|discriminate H].
      destruct (truthy err); [discriminate H|].
      destruct (String.eqb action "parse");
        [destruct (py_get d0 "parse") as [p|]; [|discriminate H];
         destruct (truthy p); cbn in H; [|discriminate H]|];
        (destruct (String.eqb action "wikidata");
         [destruct (py_get d0 "entities") as [ents|]; [|discriminate H];
          destruct (py_contains "-1" ents) as [[]|]; try discriminate H|]);
        congruence.
  - intros m Hr1 Hj Herr Hp Hw. rewrite E, Hr1, Hj. cbn [negb].
    unfold bind, lift, py_get, raise, ret. rewrite Herr.
    apply String.eqb_neq in Hp, Hw. rewrite Hp, Hw. reflexivity.
Qed.

(** C3: the empty-response error is not what an empty response gets on
    Python 3, and not what an absent one gets on either Python.  For a
    cached action whose entry holds the query and a response that is
    empty or [None], [_load_response] on Python 3 raises [NameError] for
    the name [StandardError]; for a cached action whose entry has no
    response (or no query) it raises [KeyError].  The instance is left as
    it was. *)
Theorem empty_response_not_classified :
  forall (action : string) (s : State) (e : CacheEntry),
    cache s !! action = Some e ->
    (forall (q : string) (r : Body),
        python3 = true ->
        ce_query e = Some q -> ce_response e = Some r ->
        body_truthy r = false ->
        _load_response action s = (Raise (NameError "StandardError"), s))
    /\ (ce_query e = None ->
        _load_response action s = (Raise (KeyError "query"), s))
    /\ (forall q : string,
          ce_query e = Some q -> ce_response e = None ->
          _load_response action s = (Raise (KeyError "response"), s)).
Proof.
  intros action s e Hc. repeat apply conj.
  - intros q r Hpy Hq Hr Hr0.
    rewrite (load_response_found action s e q r Hc Hq Hr), Hr0, Hpy.
    reflexivity.
  - intros Hq. unfold _load_response, bind, get_state, lift.
    rewrite Hc. cbn [require]. rewrite Hq. reflexivity.
  - intros q Hq Hr. unfold _load_response, bind, get_state, lift.
    rewrite Hc. cbn [require]. rewrite Hq. cbn [require]. rewrite Hr.
    reflexivity.
Qed.

(** The malformed case again, for any action: the instance, and so
    [data], is left as it was. *)
Lemma load_response_malformed (action : string) (s : State) (e : CacheEntry)
    (q : string) (r : Body) (err : Exc) :
  cache s !! action = Some e ->
  ce_query e = Some q ->
  ce_response e = Some r ->
  body_truthy r = true ->
  json_loads r = Raise err ->
  is_ValueError err = true ->
  _load_response action s = (Raise (ValueError (reported q)), s).
Proof.
  intros Hc Hq Hr Hr1 Hj Hv.
  rewrite (load_response_found action s e q r Hc Hq Hr), Hr1, Hj, Hv.
  reflexivity.
Qed.

End Validator.

Lemma empty_response_not_classified_witness :
  _load_response (HP := Cases.parser) "restbase" (Demo.holding "restbase" BNone)
  = (Raise (NameError "StandardError"), Demo.holding "restbase" BNone)
  /\ _load_response (HP := Cases.parser) "restbase"
       (Demo.holding "restbase" (BStr EmptyString))
     = (Raise (NameError "StandardError"),
        Demo.holding "restbase" (BStr EmptyString))
  /\ _load_response "restbase" (Cases.reserved "restbase")
     = (Raise (KeyError "query"), Cases.reserved "restbase").
Proof.
  repeat apply conj.
  - destruct (empty_response_not_classified (HP := Cases.parser) "restbase"
                (Demo.holding "restbase" BNone) _ eq_refl) as (H & _).
    apply (H (Demo.rest_v1 +:+ "/page/summary/X&format=json") BNone);
      reflexivity.
  - destruct (empty_response_not_classified (HP := Cases.parser) "restbase"
                (Demo.holding "restbase" (BStr EmptyString)) _ eq_refl)
      as (H & _).
    apply (H (Demo.rest_v1 +:+ "/page/summary/X&format=json")
             (BStr EmptyString)); reflexivity.
  - destruct (empty_response_not_classified "restbase"
                (Cases.reserved "restbase") empty_entry eq_refl) as (_ & H & _).
    apply H. reflexivity.
Defined.

Lemma load_response_classification_witness :
  _load_response "restbase" (Demo.holding "restbase" BNone)
  = (Raise (StandardError (params Demo.fresh)), Demo.holding "restbase" BNone)
  /\ _load_response "restbase" (Demo.holding "restbase" (BStr ""))
     = (Raise (StandardError (params Demo.fresh)), Demo.holding "restbase" (BStr ""))
  /\ _load_response "restbase" (Demo.holding "restbase" (BStr Demo.doc_truncated))
     = (Raise (ValueError (Demo.rest_v1 +:+ "/page/summary/X")),
        Demo.holding "restbase" (BStr Demo.doc_truncated))
  /\ _load_response "restbase" (Demo.holding "restbase" (BStr Demo.doc_error))
     = (Raise (LookupError (Demo.rest_v1 +:+ "/page/summary/X")),
        Demo.holding "restbase" (BStr Demo.doc_error))
  /\ _load_response "parse" (Demo.holding "parse" (BStr Demo.doc_empty))
     = (Raise (LookupError (Demo.rest_v1 +:+ "/page/summary/X")),
        Demo.holding "parse" (BStr Demo.doc_empty))
  /\ _load_response "wikidata" (Demo.holding "wikidata" (BStr Demo.doc_notfound))
     = (Raise (LookupError (Demo.rest_v1 +:+ "/page/summary/X")),
        Demo.holding "wikidata" (BStr Demo.doc_notfound))
  /\ _load_response "restbase" (Demo.holding "restbase" (BStr Demo.doc_summary))
     = (Ok (JObj {["title" := JStr "Douglas Adams"]}),
        Demo.holding "restbase" (BStr Demo.doc_summary)).
Proof.
  repeat apply conj.
  - destruct (load_response_classification "restbase"
                (Demo.holding "restbase" BNone) _ _ BNone
                eq_refl eq_refl eq_refl) as (H & _).
    apply H; reflexivity.
  - destruct (load_response_classification "restbase"
                (Demo.holding "restbase" (BStr "")) _ _ (BStr "")
                eq_refl eq_refl eq_refl) as (H & _).
    apply H; reflexivity.
  - destruct (load_response_classification "restbase"
                (Demo.holding "restbase" (BStr Demo.doc_truncated)) _ _ _
                eq_refl eq_refl eq_refl) as (_ & H & _).
    apply (H (ValueError "No JSON object could be decoded")); reflexivity.
  - destruct (load_response_classification "restbase"
                (Demo.holding "restbase" (BStr Demo.doc_error)) _ _ _
                eq_refl eq_refl eq_refl) as (_ & _ & H & _).
    apply (H {["error" := JObj {["code" := JNum 1]}]}
             (JObj {["code" := JNum 1]})); reflexivity.
  - destruct (load_response_classification "parse"
                (Demo.holding "parse" (BStr Demo.doc_empty)) _ _ _
                eq_refl eq_refl eq_refl) as (_ & _ & _ & H & _).
    apply (H ∅); reflexivity.
  - destruct (load_response_classification "wikidata"
                (Demo.holding "wikidata" (BStr Demo.doc_notfound)) _ _ _
                eq_refl eq_refl eq_refl) as (_ & _ & _ & _ & H & _).
    apply (H {["entities" := JObj {["-1" := JObj ∅]}]} {["-1" := JObj ∅]});
      reflexivity.
  - destruct (load_response_classification "restbase"
                (Demo.holding "restbase" (BStr Demo.doc_summary)) _ _ _
                eq_refl eq_refl eq_refl) as (_ & _ & _ & _ & _ & _ & H).
    apply H; try reflexivity; discriminate.
Defined.

(** ** The fetch lifecycle *)

Section Fetch.
Context {QB : QueryBuilder} {TR : Transport} {HP : Helpers} {SRC : Source}.

(** A cache hit: nothing but the notice. *)
Lemma get_cache_hit (action : string) (show_ : bool) (proxy : option string)
    (timeout : Z) (s : State) :
  action <> "imageinfo" ->
  is_Some (cache s !! action) ->
  _get action show_ proxy timeout s
  = (Ok tt, with_stderr (stderr_calls s ++ [cache_notice action s]) s).
Proof.
  intros Hne [e He]. apply String.eqb_neq in Hne.
  unfold _get, bind, get_state. rewrite He, Hne. reflexivity.
Qed.

(** What [_get] does past the cache check. *)
Lemma get_proceeds (action : string) (show_ : bool) (proxy : option string)
    (timeout : Z) (s : State) :
  proceeds action s ->
  _get action show_ proxy timeout s
  = (if bool_decide (action ∈ skip (flags s))
     then stderr ("+ skipping " +:+ action) None
     else
       qq <- lift (_query action (qobj_of s) (reserve action s)) ;;
       update_entry action (set_query (fst qq)) ;;;
       ri <- req_get proxy timeout (fst qq) (q_status (snd qq)) ;;
       update_entry action (set_response (fst ri)) ;;;
       update_entry action (set_info (snd ri)) ;;;
       _set_data action ;;;
       if show_ then show false else ret tt) (reserve action s).
Proof.
  intros Hp. unfold _get, reserve.
  unfold bind at 1, get_state at 1. unfold bind at 1.
  destruct (cache s !! action) as [e|] eqn:He.
  - destruct Hp as [Hp| ->]; [congruence|]. cbn.
    destruct (bool_decide _); reflexivity.
  - cbn. destruct (bool_decide _); reflexivity.
Qed.

Lemma reserve_lookup (action : string) (s : State) :
  exists e, cache (reserve action s) !! action = Some e
            /\ cache (reserve action s) = <[action := e]> (cache s).
Proof.
  unfold reserve. destruct (cache s !! action) as [e|] eqn:He.
  - exists e. split; [exact He|]. symmetry. apply insert_id. exact He.
  - exists empty_entry. cbn. split; [apply lookup_insert_eq|reflexivity].
Qed.

Lemma reserve_frame (action : string) (s : State) :
  data (reserve action s) = data s /\ flags (reserve action s) = flags s
  /\ params (reserve action s) = params s
  /\ stderr_calls (reserve action s) = stderr_calls s
  /\ wire (reserve action s) = wire s.
Proof. unfold reserve. destruct (cache s !! action); repeat split. Qed.

(** A skipped action: the notice, and the entry created by the cache
    check stays behind. *)
Lemma get_skipped (action : string) (show_ : bool) (proxy : option string)
    (timeout : Z) (s : State) :
  proceeds action s ->
  action ∈ skip (flags s) ->
  _get action show_ proxy timeout s
  = (Ok tt, with_stderr (stderr_calls s ++ [skip_notice action])
              (reserve action s)).
Proof.
  intros Hp Hs. rewrite get_proceeds by exact Hp.
  rewrite bool_decide_eq_true_2 by exact Hs.
  destruct (reserve_frame action s) as (_ & _ & _ & E & _).
  unfold stderr, modify. rewrite E. reflexivity.
Qed.

(** The query builder fails: nothing is sent. *)
Lemma get_query_raises (action : string) (show_ : bool) (proxy : option string)
    (timeout : Z) (s : State) (e : Exc) :
  proceeds action s ->
  action ∉ skip (flags s) ->
  _query action (qobj_of s) (reserve action s) = Raise e ->
  _get action show_ proxy timeout s = (Raise e, reserve action s).
Proof.
  intros Hp Hs Hq. rewrite get_proceeds by exact Hp.
  rewrite bool_decide_eq_false_2 by exact Hs.
  unfold bind, lift. rewrite Hq. reflexivity.
Qed.

(** The transport answers: the normalizer runs on [arrived], then the
    dump if asked for. *)
Lemma get_fetches (action : string) (show_ : bool) (proxy : option string)
    (timeout : Z) (s : State) (qq : string * QObj) (body : Body) (i : Info) :
  proceeds action s ->
  action ∉ skip (flags s) ->
  _query action (qobj_of s) (reserve action s) = Ok qq ->
  http_get (wire s) (silent (flags s)) (verbose (flags s))
    (request_of proxy timeout qq) = Some (body, i) ->
  _get action show_ proxy timeout s
  = (_set_data action ;;; if show_ then show false else ret tt)
      (arrived action (request_of proxy timeout qq) body i s).
Proof.
  intros Hp Hs Hq Hh. rewrite get_proceeds by exact Hp.
  rewrite bool_decide_eq_false_2 by exact Hs.
  destruct (reserve_lookup action s) as (e0 & He0 & Hc0).
  destruct (reserve_frame action s) as (Hd & Hf & Hpa & Hst & Hw).
  unfold bind at 1, lift at 1. rewrite Hq.
  unfold bind at 1. unfold update_entry at 1, bind at 1 2, get_state at 1, lift at 1.
  rewrite He0. cbn [require modify].
  unfold bind at 1. unfold req_get at 1. cbn [wire flags with_cache].
  rewrite Hw, Hf. change (http_get (wire s) (silent (flags s)) (verbose (flags s))
    {| rq_query := qq.1; rq_status := q_status qq.2; rq_proxy := proxy;
       rq_timeout := timeout |}) with (http_get (wire s) (silent (flags s))
    (verbose (flags s)) (request_of proxy timeout qq)).
  rewrite Hh.
  unfold bind at 1. unfold update_entry at 1, bind at 1 2, get_state at 1, lift at 1.
  cbn [cache with_wire with_cache]. rewrite lookup_insert_eq. cbn [require modify].
  unfold bind at 1. unfold update_entry at 1, bind at 1 2, get_state at 1, lift at 1.
  cbn [cache with_wire with_cache]. rewrite lookup_insert_eq. cbn [require modify].
  f_equal. unfold arrived, with_cache, with_wire.
  cbn [cache data flags params stderr_calls wire].
  rewrite Hd, Hf, Hpa, Hst, !insert_insert_eq, Hc0, insert_insert_eq.
  reflexivity.
Qed.

(** The transport fails: the request was sent, the normalizer never runs. *)
Lemma get_transport_raises (action : string) (show_ : bool)
    (proxy : option string) (timeout : Z) (s : State) (qq : string * QObj) :
  proceeds action s ->
  action ∉ skip (flags s) ->
  _query action (qobj_of s) (reserve action s) = Ok qq ->
  http_get (wire s) (silent (flags s)) (verbose (flags s))
    (request_of proxy timeout qq) = None ->
  exists s', _get action show_ proxy timeout s = (Raise TransportError, s')
             /\ wire s' = wire s ++ [request_of proxy timeout qq]
             /\ data s' = data s
             /\ is_Some (cache s' !! action)
             /\ same_cache_but action s s'.
Proof.
  intros Hp Hs Hq Hh. rewrite get_proceeds by exact Hp.
  rewrite bool_decide_eq_false_2 by exact Hs.
  destruct (reserve_lookup action s) as (e0 & He0 & Hc0).
  destruct (reserve_frame action s) as (Hd & Hf & Hpa & Hst & Hw).
  unfold bind at 1, lift at 1. rewrite Hq.
  unfold bind at 1. unfold update_entry at 1, bind at 1 2, get_state at 1, lift at 1.
  rewrite He0. cbn [require modify].
  unfold bind at 1. unfold req_get at 1. cbn [wire flags with_cache].
  rewrite Hw, Hf. change (http_get (wire s) (silent (flags s)) (verbose (flags s))
    {| rq_query := qq.1; rq_status := q_status qq.2; rq_proxy := proxy;
       rq_timeout := timeout |}) with (http_get (wire s) (silent (flags s))
    (verbose (flags s)) (request_of proxy timeout qq)).
  rewrite Hh. eexists. split; [reflexivity|].
  cbn [cache with_wire with_cache data wire]. rewrite Hd.
  repeat split.
  - rewrite lookup_insert_eq. eauto.
  - intros k Hk. cbn [cache with_wire with_cache].
    rewrite lookup_insert_ne by congruence.
    rewrite Hc0. apply lookup_insert_ne. congruence.
Qed.

End Fetch.

(** ** Frames: what a computation leaves alone *)

Section Frames.
Context (R : State -> State -> Prop) `{!PreOrder R}.

Lemma keeps_ret {A} (a : A) : keeps R (ret a).
Proof. intros s. reflexivity. Qed.

Lemma keeps_raise {A} (e : Exc) : keeps R (@raise A e).
Proof. intros s. reflexivity. Qed.

Lemma keeps_lift {A} (r : Result A) : keeps R (lift r).
Proof. intros s. reflexivity. Qed.

Lemma keeps_get_state : keeps R get_state.
Proof. intros s. reflexivity. Qed.

Lemma keeps_modify (f : State -> State) :
  (forall s, R s (f s)) -> keeps R (modify f).
Proof. intros H s. apply H. Qed.

Lemma keeps_bind {A B} (c : M A) (k : A -> M B) :
  keeps R c -> (forall a, keeps R (k a)) -> keeps R (x <- c ;; k x).
Proof.
  intros Hc Hk s. unfold bind. specialize (Hc s).
  destruct (c s) as [[a|e] s1]; cbn [snd] in *.
  - transitivity s1; [exact Hc|apply Hk].
  - exact Hc.
Qed.

End Frames.

#[global] Instance same_wire_preorder : PreOrder same_wire.
Proof.
  split; [intros s; reflexivity|].
  intros s1 s2 s3 H1 H2. unfold same_wire in *. congruence.
Qed.

#[global] Instance same_cache_preorder : PreOrder same_cache.
Proof.
  split; [intros s; reflexivity|].
  intros s1 s2 s3 H1 H2. unfold same_cache in *. congruence.
Qed.

#[global] Instance same_data_preorder : PreOrder same_data.
Proof.
  split; [intros s; reflexivity|].
  intros s1 s2 s3 H1 H2. unfold same_data in *. congruence.
Qed.

#[global] Instance same_params_preorder : PreOrder same_params.
Proof.
  split; [intros s; reflexivity|].
  intros s1 s2 s3 H1 H2. unfold same_params in *. congruence.
Qed.

#[global] Instance same_cache_but_preorder (a : string) :
  PreOrder (same_cache_but a).
Proof.
  split; [intros s k _; reflexivity|].
  intros s1 s2 s3 H1 H2 k Hk. rewrite H2, H1 by exact Hk. reflexivity.
Qed.

(** Steps through a computation built from [bind], [if] and [match]. *)
Ltac keeps_step :=
  first
    [ apply keeps_ret; exact _
    | apply keeps_raise; exact _
    | apply keeps_lift; exact _
    | apply keeps_get_state; exact _
    | apply keeps_bind; [exact _| |intros ?]
    | match goal with
      | |- keeps _ (if ?b then _ else _) => destruct b
      | |- keeps _ (match ?x with _ => _ end) => destruct x
      end ].

Section FrameFacts.
Context {QB : QueryBuilder} {TR : Transport} {HP : Helpers}.

Lemma keeps_stderr R `{!PreOrder R} (msg : string) (sil : option bool) :
  (forall s l, R s (with_stderr l s)) -> keeps R (stderr msg sil).
Proof. intros H. apply keeps_modify. intros s. apply H. Qed.

Lemma keeps_set_data R `{!PreOrder R} (key : string) (v : json) :
  (forall s d, R s (with_data d s)) -> keeps R (set_data key v).
Proof. intros H. apply keeps_modify. intros s. apply H. Qed.

Lemma keeps_prettyprint R `{!PreOrder R} (lines : list string) :
  (forall s l, R s (with_stderr l s)) -> keeps R (prettyprint lines).
Proof.
  intros H. unfold prettyprint. generalize (MAXWIDTH - (RPAD + 2))%Z.
  induction lines as [|line rest IH]; intros extent; cbn [prettyprint_from].
  - apply keeps_ret; assumption.
  - apply keeps_bind; [assumption| |intros _; apply IH].
    apply keeps_stderr; assumption.
Qed.

Lemma keeps_show R `{!PreOrder R} (force : bool) :
  (forall s l, R s (with_stderr l s)) -> keeps R (show force).
Proof.
  intros H. unfold show. repeat keeps_step; try assumption.
  apply keeps_prettyprint; assumption.
Qed.

Lemma keeps_load_response R `{!PreOrder R} (action : string) :
  keeps R (_load_response action).
Proof. intros s. rewrite load_response_pure. reflexivity. Qed.

Lemma keeps_append_image R `{!PreOrder R} (img : gmap string json) :
  (forall s d, R s (with_data d s)) -> keeps R (append_image img).
Proof.
  intros H. unfold append_image. repeat keeps_step; try assumption;
    apply keeps_set_data; assumption.
Qed.

Lemma keeps_unpack_images R `{!PreOrder R} (rdata : json) :
  (forall s d, R s (with_data d s)) -> keeps R (_unpack_images rdata).
Proof.
  intros H. unfold _unpack_images.
  repeat keeps_step; try assumption;
    first [apply keeps_set_data | apply keeps_append_image]; assumption.
Qed.

Lemma keeps_handle_response R `{!PreOrder R} :
  (forall s d, R s (with_data d s)) ->
  (forall s l, R s (with_stderr l s)) ->
  (forall s, R s (with_cache (delete "restbase" (cache s)) s)) ->
  keeps R _handle_response.
Proof.
  intros Hd Hs Hc. unfold _handle_response.
  repeat keeps_step; try assumption;
    first [ apply keeps_set_data; assumption
          | apply keeps_load_response; assumption
          | apply keeps_stderr; assumption
          | apply keeps_modify; assumption ].
Qed.

Lemma keeps_set_restbase_data R `{!PreOrder R} :
  (forall s d, R s (with_data d s)) ->
  (forall s l, R s (with_stderr l s)) ->
  (forall s, R s (with_cache (delete "restbase" (cache s)) s)) ->
  keeps R _set_restbase_data.
Proof.
  intros Hd Hs Hc. unfold _set_restbase_data, merge_modified.
  apply keeps_bind; [assumption|apply keeps_handle_response; assumption|].
  intros [res|]; [|apply keeps_ret; assumption].
  repeat keeps_step; try assumption;
    first [ apply keeps_set_data; assumption
          | apply keeps_unpack_images; assumption ].
Qed.

(** The RESTBase normalizer sends nothing. *)
Lemma set_restbase_data_offline : offline _set_restbase_data.
Proof.
  apply (keeps_set_restbase_data same_wire); intros; reflexivity.
Qed.

(** The RESTBase normalizer touches no cache entry but its own. *)
Lemma set_restbase_data_cache :
  keeps (same_cache_but "restbase") _set_restbase_data.
Proof.
  apply (keeps_set_restbase_data (same_cache_but "restbase")).
  - intros s d k Hk. reflexivity.
  - intros s l k Hk. reflexivity.
  - intros s k Hk. cbn. apply lookup_delete_ne. congruence.
Qed.

Lemma show_offline (force : bool) : offline (show force).
Proof. apply (keeps_show same_wire). intros; reflexivity. Qed.

Lemma show_cache (force : bool) : keeps same_cache (show force).
Proof. apply (keeps_show same_cache). intros; reflexivity. Qed.

Lemma show_data (force : bool) : keeps same_data (show force).
Proof. apply (keeps_show same_data). intros; reflexivity. Qed.

End FrameFacts.

(** ** Cache hits, skipped actions and the number of requests *)

Section FetchOnce.
Context {QB : QueryBuilder} {TR : Transport} {HP : Helpers} {SRC : Source}.

(** Past the cache check and the skip-list, with a query built, exactly
    one request goes out, whatever the transport and the normalizer do. *)
Lemma get_sends_one (action : string) (show_ : bool) (proxy : option string)
    (timeout : Z) (s : State) (qq : string * QObj) :
  offline (_set_data action) ->
  proceeds action s ->
  action ∉ skip (flags s) ->
  _query action (qobj_of s) (reserve action s) = Ok qq ->
  wire (snd (_get action show_ proxy timeout s))
  = wire s ++ [request_of proxy timeout qq].
Proof.
  intros Hoff Hp Hs Hq.
  destruct (http_get (wire s) (silent (flags s)) (verbose (flags s))
              (request_of proxy timeout qq)) as [[body i]|] eqn:Hh.
  - rewrite (get_fetches action show_ proxy timeout s qq body i Hp Hs Hq Hh).
    assert (K : keeps same_wire
                  (_set_data action ;;; if show_ then show false else ret tt)).
    { apply keeps_bind; [exact _|exact Hoff|]. intros _.
      destruct show_; [apply show_offline|apply keeps_ret; exact _]. }
    rewrite (K (arrived action (request_of proxy timeout qq) body i s)).
    reflexivity.
  - destruct (get_transport_raises action show_ proxy timeout s qq Hp Hs Hq Hh)
      as (s' & E & Hw & _).
    rewrite E. exact Hw.
Qed.

(** C1, amended: a cache hit of an action other than ['imageinfo'] returns
    with nothing but the notice, so nothing is sent; an action that gets
    past the cache check (no entry yet, or ['imageinfo']), is not in the
    skip-list and has its query built sends exactly one request per
    invocation; when its entry is still cached after that fetch, a second
    fetch sends nothing more: one request for the two; and an action of
    the skip-list is never requested. *)
Theorem fetch_cached_once :
  forall (action : string) (show_ : bool) (proxy : option string)
         (timeout : Z) (s : State),
    offline (_set_data action) ->
    (action <> "imageinfo" -> is_Some (cache s !! action) ->
     _get action show_ proxy timeout s
     = (Ok tt, with_stderr (stderr_calls s ++ [cache_notice action s]) s))
    /\ (forall qq : string * QObj,
          proceeds action s -> action ∉ skip (flags s) ->
          _query action (qobj_of s) (reserve action s) = Ok qq ->
          wire (snd (_get action show_ proxy timeout s))
          = wire s ++ [request_of proxy timeout qq])
    /\ (forall qq : string * QObj,
          action <> "imageinfo" -> cache s !! action = None ->
          action ∉ skip (flags s) ->
          _query action (qobj_of s) (reserve action s) = Ok qq ->
          is_Some (cache (snd (_get action show_ proxy timeout s)) !! action) ->
          forall (show' : bool) (proxy' : option string) (timeout' : Z),
            wire (snd (_get action show' proxy' timeout'
                         (snd (_get action show_ proxy timeout s))))
            = wire s ++ [request_of proxy timeout qq])
    /\ (action ∈ skip (flags s) ->
        wire (snd (_get action show_ proxy timeout s)) = wire s).
Proof.
  intros action show_ proxy timeout s Hoff. repeat apply conj.
  4:{ intros Hs.
      assert (Hgo : proceeds action s ->
                    wire (snd (_get action show_ proxy timeout s)) = wire s).
      { intros Hp. rewrite (get_skipped action show_ proxy timeout s Hp Hs).
        destruct (reserve_frame action s) as (_ & _ & _ & _ & Hw). exact Hw. }
      destruct (cache s !! action) as [e|] eqn:Hc; [|apply Hgo; left; exact Hc].
      destruct (String.eqb_spec action "imageinfo") as [Heq|Hne];
        [apply Hgo; right; exact Heq|].
      rewrite get_cache_hit by eauto. reflexivity. }
  - apply get_cache_hit.
  - intros qq Hp Hs Hq. apply get_sends_one; assumption.
  - intros qq Hne Hc Hs Hq Hstill show' proxy' timeout'.
    rewrite (get_cache_hit action show' proxy' timeout' _ Hne Hstill).
    cbn [snd wire with_stderr].
    apply get_sends_one; [assumption|left; assumption|assumption|assumption].
Qed.

(** The skip notice is written whatever the silent flag says. *)
Lemma skip_notice_written (action : string) (show_ : bool)
    (proxy : option string) (timeout : Z) (s : State) :
  proceeds action s ->
  action ∈ skip (flags s) ->
  emitted (stderr_calls (snd (_get action show_ proxy timeout s)))
  = emitted (stderr_calls s) ++ ["+ skipping " +:+ action].
Proof.
  intros Hp Hs. rewrite (get_skipped action show_ proxy timeout s Hp Hs).
  cbn [snd stderr_calls with_stderr]. unfold emitted.
  rewrite List.filter_app, map_app. reflexivity.
Qed.

(** The cache-hit notice is not written when the silent flag is set. *)
Lemma cache_notice_silenced (action : string) (show_ : bool)
    (proxy : option string) (timeout : Z) (s : State) :
  action <> "imageinfo" ->
  is_Some (cache s !! action) ->
  silent (flags s) = true ->
  emitted (stderr_calls (snd (_get action show_ proxy timeout s)))
  = emitted (stderr_calls s).
Proof.
  intros Hne Hc Hsil. rewrite (get_cache_hit action show_ proxy timeout s Hne Hc).
  cbn [snd stderr_calls with_stderr]. unfold emitted.
  rewrite List.filter_app, map_app. cbn. unfold stderr_writes. cbn.
  rewrite Hsil. cbn. apply app_nil_r.
Qed.

End FetchOnce.

Lemma fetch_cached_once_witness :
  wire (snd (_get "restbase" true None 0
               (snd (_get "restbase" true None 0 Demo.summary_page))))
  = wire Demo.summary_page
    ++ [request_of None 0
          (qobj_restbase (qobj_of Demo.summary_page)
             "/page/summary/Douglas_Adams")].
Proof.
  destruct (fetch_cached_once (SRC := WPToolsRESTBase) "restbase" true None 0
              Demo.summary_page set_restbase_data_offline) as (_ & _ & H & _).
  apply (H (qobj_restbase (qobj_of Demo.summary_page)
              "/page/summary/Douglas_Adams")).
  - discriminate.
  - reflexivity.
  - apply not_elem_of_nil.
  - reflexivity.
  - vm_compute. eexists. reflexivity.
Defined.

(** C1, as stated, fails on a skipped action: two fetches in succession of
    ['restbase'] send no request at all, where the claim has one, and a
    skipped ['imageinfo'] is not requested either; it fails on the root
    listing too, whose entry is discarded and which is requested twice. *)
Lemma fetch_twice_skipped_counterexample :
  cache Demo.skipping !! "restbase" = None
  /\ length (wire (snd (_get "restbase" true None 0
                          (snd (_get "restbase" true None 0 Demo.skipping)))))
     <> length (wire Demo.skipping) + 1
  /\ length (wire (snd (_get "imageinfo" true None 0 Demo.skipping_imageinfo)))
     <> length (wire Demo.skipping_imageinfo) + 1
  /\ length (wire (snd (_get "restbase" true None 0
                          (snd (_get "restbase" true None 0 Demo.fresh)))))
     <> length (wire Demo.fresh) + 1.
Proof. repeat apply conj; [reflexivity|vm_compute; lia..]. Qed.

(** C4: at [WPToolsRESTBase(silent=True, skip=['restbase']).get_restbase()]
    nothing is sent, but the cache, empty before, now holds an empty entry
    for the skipped action, on which the inspector [query] raises. *)
Theorem skip_leaves_empty_entry :
  cache Demo.skipping = ∅
  /\ get_restbase None true None 0 Demo.skipping
     = (Ok tt,
        with_stderr [skip_notice "restbase"]
          (with_cache {["restbase" := empty_entry]} Demo.skipping))
  /\ wire (snd (get_restbase None true None 0 Demo.skipping)) = []
  /\ fst (query (Some "restbase")
            (snd (get_restbase None true None 0 Demo.skipping)))
     = Raise (KeyError "query").
Proof. repeat apply conj; reflexivity. Qed.

(** C5: with the silent flag set, the skip notice still reaches the
    diagnostic stream, while the cache-hit notice of the next call does
    not. *)
Theorem skip_notice_ignores_silent :
  silent (flags Demo.skipping) = true
  /\ emitted (stderr_calls (snd (get_restbase None true None 0 Demo.skipping)))
     = ["+ skipping restbase"]
  /\ emitted (stderr_calls
                (snd (get_restbase None true None 0
                        (snd (get_restbase None true None 0 Demo.skipping)))))
     = ["+ skipping restbase"].
Proof. repeat apply conj; reflexivity. Qed.

(** ** The RESTBase source *)

Section RESTBaseFetch.
Context {QB : QueryBuilder} {TR : Transport} {HP : Helpers}.

(** A body that is not HTML and does not parse stops the normalizer in
    the validator, before anything is written. *)
Lemma set_restbase_data_malformed (s : State) (q : string) (r : Body) (i : Info)
    (err : Exc) :
  cache s !! "restbase" = Some (fetched q r i) ->
  Py.startswith "text/html" (content i) = false ->
  body_truthy r = true ->
  json_loads r = Raise err ->
  is_ValueError err = true ->
  _set_restbase_data s = (Raise (ValueError (reported q)), s).
Proof.
  intros Hc Hhtml Hr Hj Hv. unfold _set_restbase_data.
  apply bind_raise. unfold _handle_response.
  unfold bind at 1, get_state at 1. unfold bind at 1, lift at 1.
  rewrite Hc. cbn [require]. unfold bind at 1, lift at 1. cbn [ce_info fetched require].
  rewrite Hhtml. apply bind_raise.
  apply (load_response_malformed "restbase" s (fetched q r i) q r err);
    [assumption|reflexivity|reflexivity|assumption|assumption|assumption].
Qed.

(** C9, amended: a cached body that is not empty and does not parse (the
    parser raises [ValueError] or a subclass of it) makes the validator
    fail with the malformed-response error ([ValueError]) for every
    action whose entry holds the query and the response, the instance
    untouched; and a fetch of the action ['restbase'] that receives such
    a body, not announced as HTML, fails with that error and leaves
    [data] as it was before the call. *)
Theorem malformed_body_leaves_data :
  (forall (action : string) (s : State) (e : CacheEntry) (q : string) (r : Body)
          (err : Exc),
      cache s !! action = Some e -> ce_query e = Some q ->
      ce_response e = Some r ->
      body_truthy r = true -> json_loads r = Raise err ->
      is_ValueError err = true ->
      _load_response action s = (Raise (ValueError (reported q)), s))
  /\ (forall (show_ : bool) (proxy : option string) (timeout : Z) (s : State)
             (ep : string) (body : Body) (i : Info) (err : Exc),
        cache s !! "restbase" = None ->
        "restbase" ∉ skip (flags s) ->
        endpoint (params s) = Some ep ->
        http_get (wire s) (silent (flags s)) (verbose (flags s))
          (request_of proxy timeout (qobj_restbase (qobj_of s) ep))
        = Some (body, i) ->
        Py.startswith "text/html" (content i) = false ->
        body_truthy body = true ->
        json_loads body = Raise err ->
        is_ValueError err = true ->
        exists s',
          _get "restbase" show_ proxy timeout s
          = (Raise (ValueError (reported (fst (qobj_restbase (qobj_of s) ep)))), s')
          /\ data s' = data s).
Proof.
  split; [exact load_response_malformed|].
  intros show_ proxy timeout s ep body i err Hc Hs Hep Hh Hhtml Hb Hj Hv.
  assert (Hq : _query "restbase" (qobj_of s) (reserve "restbase" s)
               = Ok (qobj_restbase (qobj_of s) ep)).
  { cbn [_query WPToolsRESTBase].
    destruct (reserve_frame "restbase" s) as (_ & _ & -> & _).
    rewrite Hep. reflexivity. }
  rewrite (get_fetches "restbase" show_ proxy timeout s _ body i
             (or_introl Hc) Hs Hq Hh).
  eexists. split.
  - apply bind_raise. cbn [_set_data WPToolsRESTBase].
    apply (set_restbase_data_malformed _ _ body i err);
      [|assumption|assumption|assumption|assumption].
    unfold arrived. cbn [cache with_wire with_cache]. apply lookup_insert_eq.
  - reflexivity.
Qed.

(** A fetch leaves every cache entry but that of its own action alone,
    provided the normalizer does. *)
Lemma get_same_cache_but {SRC : Source} (action : string) (show_ : bool)
    (proxy : option string) (timeout : Z) (s : State) :
  keeps (same_cache_but action) (_set_data action) ->
  same_cache_but action s (snd (_get action show_ proxy timeout s)).
Proof.
  intros Hset.
  assert (Hres : same_cache_but action s (reserve action s)).
  { intros k Hk. destruct (reserve_lookup action s) as (e0 & _ & ->).
    apply lookup_insert_ne. congruence. }
  assert (Hgo : proceeds action s ->
                same_cache_but action s (snd (_get action show_ proxy timeout s))).
  { intros Hp. destruct (decide (action ∈ skip (flags s))) as [Hs|Hs].
    { rewrite (get_skipped action show_ proxy timeout s Hp Hs). exact Hres. }
    destruct (_query action (qobj_of s) (reserve action s)) as [qq|e] eqn:Hq.
    2:{ rewrite (get_query_raises action show_ proxy timeout s e Hp Hs Hq).
        exact Hres. }
    destruct (http_get (wire s) (silent (flags s)) (verbose (flags s))
                (request_of proxy timeout qq)) as [[body i]|] eqn:Hh.
    - rewrite (get_fetches action show_ proxy timeout s qq body i Hp Hs Hq Hh).
      assert (K : keeps (same_cache_but action)
                    (_set_data action ;;; if show_ then show false else ret tt)).
      { apply keeps_bind; [exact _|exact Hset|]. intros _.
        destruct show_; [|apply keeps_ret; exact _].
        apply (keeps_show (same_cache_but action)). intros s0 l k Hk.
        reflexivity. }
      transitivity (arrived action (request_of proxy timeout qq) body i s);
        [|apply K].
      intros k Hk. unfold arrived. cbn [cache with_wire with_cache].
      apply lookup_insert_ne. congruence.
    - destruct (get_transport_raises action show_ proxy timeout s qq Hp Hs Hq Hh)
        as (s' & E & _ & _ & _ & Hsame).
      rewrite E. exact Hsame. }
  destruct (cache s !! action) as [e|] eqn:Hc.
  - destruct (String.eqb_spec action "imageinfo") as [Heq|Hne].
    + apply Hgo. right. exact Heq.
    + rewrite get_cache_hit by eauto. intros k Hk. reflexivity.
  - apply Hgo. left. exact Hc.
Qed.

(** [_parse_endpoint] does not touch the cache. *)
Lemma parse_endpoint_cache (ep known : option string) :
  keeps same_cache (_parse_endpoint ep known).
Proof.
  unfold _parse_endpoint.
  repeat keeps_step; apply keeps_modify; intros ?; reflexivity.
Qed.

(** C6, amended: a RESTBase fetch never removes or alters a cache entry
    that was there before the call, whatever its outcome; the one removal
    in the code, that of [_handle_response] on the root listing, takes
    away the entry of ['restbase'] only, which the fetch itself had just
    created. *)
Theorem fetch_keeps_cached_entries :
  forall (ep : option string) (show_ : bool) (proxy : option string)
         (timeout : Z) (s : State) (k : string) (e : CacheEntry),
    cache s !! k = Some e ->
    cache (snd (get_restbase ep show_ proxy timeout s)) !! k = Some e
    /\ cache (snd (_get "restbase" show_ proxy timeout s)) !! k = Some e
    /\ (k <> "restbase" -> cache (snd (_handle_response s)) !! k = Some e).
Proof.
  intros ep show_ proxy timeout s k e Hk.
  assert (G : forall s0, cache s0 = cache s ->
                cache (snd (_get "restbase" show_ proxy timeout s0)) !! k = Some e).
  { intros s0 E. destruct (decide (k = "restbase")) as [->|Hne].
    - rewrite get_cache_hit; [|discriminate|rewrite E; eauto].
      cbn [snd cache with_stderr]. rewrite E. exact Hk.
    - rewrite (get_same_cache_but (SRC := WPToolsRESTBase) "restbase" show_
                 proxy timeout s0 set_restbase_data_cache k Hne).
      rewrite E. exact Hk. }
  repeat apply conj.
  - unfold get_restbase.
    set (c := if Py.truthy_opt ep then _ else _).
    assert (Kc : keeps same_cache c).
    { subst c. repeat keeps_step.
      - apply parse_endpoint_cache.
      - apply keeps_modify. intros s0. reflexivity. }
    unfold bind. specialize (Kc s). destruct (c s) as [[[]|err] s1]; cbn [snd] in *.
    + apply G. exact Kc.
    + rewrite Kc. exact Hk.
  - apply G. reflexivity.
  - intros Hne.
    rewrite (keeps_handle_response (same_cache_but "restbase")).
    + exact Hk.
    + intros s0 d k0 Hk0. reflexivity.
    + intros s0 l k0 Hk0. reflexivity.
    + intros s0 k0 Hk0. cbn [cache with_cache]. apply lookup_delete_ne. congruence.
    + exact Hne.
Qed.

End RESTBaseFetch.

Lemma malformed_body_leaves_data_witness :
  _load_response "parse" (Demo.holding "parse" (BStr Demo.doc_truncated))
  = (Raise (ValueError (reported (Demo.rest_v1 +:+ "/page/summary/X&format=json"))),
     Demo.holding "parse" (BStr Demo.doc_truncated))
  /\ exists s',
       _get "restbase" true None 0 Demo.broken_page
       = (Raise (ValueError
                   (reported (fst (qobj_restbase (qobj_of Demo.broken_page)
                                     "/page/summary/Broken")))), s')
       /\ data s' = data Demo.broken_page.
Proof.
  destruct malformed_body_leaves_data as [H1 H2]. split.
  - apply (H1 "parse" (Demo.holding "parse" (BStr Demo.doc_truncated))
              (fetched (Demo.rest_v1 +:+ "/page/summary/X&format=json")
                 (BStr Demo.doc_truncated)
                 {| content := "application/json"; status := 200 |})
              _ (BStr Demo.doc_truncated)
              (ValueError "No JSON object could be decoded"));
      reflexivity.
  - apply (H2 true None 0%Z Demo.broken_page "/page/summary/Broken"
              (BStr Demo.doc_truncated)
              {| content := "application/json"; status := 200 |}
              (ValueError "No JSON object could be decoded"));
      try reflexivity.
    apply not_elem_of_nil.
Defined.

(** C9, as stated, fails for an action other than ['restbase']: the
    normalizer of the RESTBase source looks at the entry of ['restbase']
    whatever the action.  A fetch of ['imageinfo'] that receives a body
    which is not empty, not HTML and does not parse fails with [KeyError]
    when nothing is cached for ['restbase'], and when an earlier summary
    is cached there it returns normally and overwrites [data] from that
    summary. *)
Lemma malformed_fetch_other_action :
  http_get (wire Demo.broken_page) (silent (flags Demo.broken_page))
    (verbose (flags Demo.broken_page))
    (request_of None 0
       (qobj_restbase (qobj_of Demo.broken_page) "/page/summary/Broken"))
  = Some (BStr Demo.doc_truncated,
          {| content := "application/json"; status := 200 |})
  /\ body_truthy (BStr Demo.doc_truncated) = true
  /\ json_loads (BStr Demo.doc_truncated)
     = Raise (ValueError "No JSON object could be decoded")
  /\ fst (_get "imageinfo" true None 0 Demo.broken_page)
     = Raise (KeyError "restbase")
  /\ cache (snd (_get "imageinfo" true None 0 Cases.broken_after_summary))
       !! "imageinfo"
     = Some (fetched (Demo.rest_v1 +:+ "/page/summary/Broken")
               (BStr Demo.doc_truncated)
               {| content := "application/json"; status := 200 |})
  /\ fst (_get "imageinfo" true None 0 Cases.broken_after_summary) = Ok tt
  /\ data Cases.broken_after_summary !! "title" = Some (JStr "Broken")
  /\ data (snd (_get "imageinfo" true None 0 Cases.broken_after_summary))
       !! "title" = Some (JStr "Douglas_Adams").
Proof. repeat apply conj; vm_compute; reflexivity. Qed.

Lemma fetch_keeps_cached_entries_witness :
  cache (snd (get_restbase None true None 0
                (Demo.holding "query" (BStr Demo.doc_empty)))) !! "query"
  = Some (fetched (Demo.rest_v1 +:+ "/page/summary/X&format=json")
            (BStr Demo.doc_empty)
            {| content := "application/json"; status := 200 |}).
Proof.
  destruct (fetch_keeps_cached_entries None true None 0%Z
              (Demo.holding "query" (BStr Demo.doc_empty)) "query"
              (fetched (Demo.rest_v1 +:+ "/page/summary/X&format=json")
                 (BStr Demo.doc_empty)
                 {| content := "application/json"; status := 200 |})
              eq_refl) as (H & _).
  exact H.
Defined.

(** C6, as stated, fails: on the root listing the normalizer removes the
    cache entry of ['restbase'] that the fetch has just filled. *)
Lemma root_listing_discards_entry :
  is_Some (cache Demo.root_arrived !! "restbase")
  /\ fst (_set_data "restbase" Demo.root_arrived) = Ok tt
  /\ cache (snd (_set_data "restbase" Demo.root_arrived)) !! "restbase" = None
  /\ cache (snd (_handle_response Demo.root_arrived)) !! "restbase" = None.
Proof.
  repeat apply conj; [vm_compute; eexists; reflexivity|reflexivity..].
Qed.

(** ** Image unpacking *)

#[global] Instance image_grows_preorder : PreOrder image_grows.
Proof.
  split.
  - intros s. split; [reflexivity|]. intros l Hl. exists []. rewrite app_nil_r.
    exact Hl.
  - intros s1 s2 s3 [Ha1 Hb1] [Ha2 Hb2]. split.
    + intros k Hk. rewrite Ha2, Ha1 by exact Hk. reflexivity.
    + intros l Hl. destruct (Hb1 l Hl) as [a1 H1].
      destruct (Hb2 _ H1) as [a2 H2]. exists (a1 ++ a2).
      rewrite app_assoc. exact H2.
Qed.

Section Images.
Context {HP : Helpers}.

Lemma image_grows_append (s : State) (l : list json) (x : json) :
  data s !! "image" = Some (JArr l) ->
  image_grows s (with_data (<["image" := JArr (l ++ [x])]> (data s)) s).
Proof.
  intros Hl. split.
  - intros k Hk. cbn [data with_data]. apply lookup_insert_ne. congruence.
  - intros l' Hl'. rewrite Hl in Hl'. injection Hl' as <-. exists [x].
    cbn [data with_data]. apply lookup_insert_eq.
Qed.

Lemma image_grows_create (s : State) :
  data s !! "image" = None ->
  image_grows s (with_data (<["image" := JArr []]> (data s)) s).
Proof.
  intros Hl. split.
  - intros k Hk. cbn [data with_data]. apply lookup_insert_ne. congruence.
  - intros l' Hl'. congruence.
Qed.

Lemma append_image_grows (img : gmap string json) :
  keeps image_grows (append_image img).
Proof.
  intros s. unfold append_image, bind, get_state.
  destruct (data s !! "image") as [[| | | |l|]|] eqn:Hl; try reflexivity.
  apply image_grows_append. exact Hl.
Qed.

Lemma create_image_list_grows :
  keeps image_grows
    (s <- get_state ;;
     match data s !! "image" with
     | None => set_data "image" (JArr [])
     | Some _ => ret tt
     end).
Proof.
  intros s. unfold bind, get_state.
  destruct (data s !! "image") eqn:Hl; [reflexivity|].
  apply image_grows_create. exact Hl.
Qed.

Lemma unpack_images_grows (rdata : json) :
  keeps image_grows (_unpack_images rdata).
Proof.
  unfold _unpack_images.
  apply keeps_bind; [exact _|apply keeps_lift; exact _|intros image].
  apply keeps_bind; [exact _|apply keeps_lift; exact _|intros originalimage].
  apply keeps_bind; [exact _|apply keeps_lift; exact _|intros thumbnail].
  apply keeps_bind; [exact _| |intros _].
  { destruct (_ || _); [apply create_image_list_grows|apply keeps_ret; exact _]. }
  repeat first [apply append_image_grows | keeps_step].
Qed.

(** The list after [append_image], when there is a list. *)
Lemma append_image_ok (img : gmap string json) (s : State) (l : list json) :
  data s !! "image" = Some (JArr l) ->
  append_image img s
  = (Ok tt, with_data (<["image" := JArr (l ++ [JObj img])]> (data s)) s).
Proof.
  intros Hl. unfold append_image, bind, get_state. rewrite Hl. reflexivity.
Qed.

Lemma with_url_ok (shape img : gmap string json) :
  with_url (JObj shape) img = Ok (with_source_url shape img).
Proof. reflexivity. Qed.

Lemma tagged_kind (kind : string) (shape : gmap string json) :
  shape !! "kind" = None ->
  tagged kind shape !! "kind" = Some (JStr kind).
Proof.
  intros H. unfold tagged, dict_update.
  rewrite lookup_union_r by exact H. apply lookup_singleton_eq.
Qed.

Lemma with_source_url_kind (shape img : gmap string json) :
  with_source_url shape img !! "kind" = img !! "kind".
Proof.
  unfold with_source_url, dict_update.
  destruct (truthy _); [|reflexivity].
  apply lookup_union_r. apply lookup_singleton_ne. discriminate.
Qed.

(** The state after the list has been made sure of. *)
Lemma ensure_image_list (s : State) :
  image_list_ok s ->
  exists s1,
    (s0 <- get_state ;;
     match data s0 !! "image" with
     | None => set_data "image" (JArr [])
     | Some _ => ret tt
     end) s = (Ok tt, s1)
    /\ data s1 !! "image" = Some (JArr (images_of s))
    /\ image_grows s s1.
Proof.
  intros [Hn|[l Hl]]; unfold bind, get_state, images_of.
  - rewrite Hn. eexists. split; [reflexivity|]. split.
    + cbn. apply lookup_insert_eq.
    + apply image_grows_create. exact Hn.
  - rewrite Hl. eexists. split; [reflexivity|]. split; [exact Hl|reflexivity].
Qed.

(** A response with the two shapes of [/page/summary]. *)
Lemma unpack_original_and_thumbnail (s : State) (m o t : gmap string json) :
  image_list_ok s ->
  truthy (default JNull (m !! "image")) = false ->
  m !! "originalimage" = Some (JObj o) ->
  m !! "thumbnail" = Some (JObj t) ->
  truthy (JObj o) = true ->
  truthy (JObj t) = true ->
  exists s',
    _unpack_images (JObj m) s = (Ok tt, s')
    /\ data s' !! "image"
       = Some (JArr (images_of s
                       ++ [JObj (with_source_url o (tagged "restbase-original" o));
                           JObj (with_source_url t (tagged "restbase-thumb" t))])).
Proof.
  intros Hok Hi Ho Ht Hot Htt.
  destruct (ensure_image_list s Hok) as (s1 & E1 & L1 & _).
  unfold _unpack_images.
  unfold bind at 1, lift at 1, py_get at 1.
  unfold bind at 1, lift at 1, py_get at 1.
  unfold bind at 1, lift at 1, py_get at 1.
  rewrite Ho, Ht. cbn [default from_option id]. rewrite Hi, Hot, Htt.
  cbn [orb]. rewrite (bind_step _ _ s tt s1 E1).
  rewrite (bind_step _ _ s1 tt s1 eq_refl).
  erewrite bind_step.
  2:{ unfold bind, lift, py_update, with_url, py_get.
      rewrite (append_image_ok _ s1 _ L1). reflexivity. }
  unfold bind, lift, py_update, with_url, py_get.
  erewrite append_image_ok by (cbn [data with_data]; apply lookup_insert_eq).
  eexists. split; [reflexivity|].
  cbn [data with_data]. rewrite lookup_insert_eq, <- app_assoc. reflexivity.
Qed.

(** A response with the one shape of [/page/mobile-sections-lead]. *)
Lemma unpack_image_only (s : State) (m i : gmap string json) :
  image_list_ok s ->
  m !! "image" = Some (JObj i) ->
  truthy (JObj i) = true ->
  truthy (default JNull (m !! "originalimage")) = false ->
  truthy (default JNull (m !! "thumbnail")) = false ->
  exists s',
    _unpack_images (JObj m) s = (Ok tt, s')
    /\ data s' !! "image"
       = Some (JArr (images_of s ++ [JObj (tagged "restbase-image" i)])).
Proof.
  intros Hok Hi Hit Ho Ht.
  destruct (ensure_image_list s Hok) as (s1 & E1 & L1 & _).
  unfold _unpack_images.
  unfold bind at 1, lift at 1, py_get at 1.
  unfold bind at 1, lift at 1, py_get at 1.
  unfold bind at 1, lift at 1, py_get at 1.
  rewrite Hi. cbn [default from_option id]. rewrite Ho, Ht, Hit.
  cbn [orb]. rewrite (bind_step _ _ s tt s1 E1).
  erewrite bind_step.
  2:{ unfold bind, lift, py_update.
      rewrite (append_image_ok _ s1 _ L1). reflexivity. }
  unfold bind, ret. eexists. split; [reflexivity|].
  cbn [data with_data]. apply lookup_insert_eq.
Qed.

(** C8, amended: image unpacking only ever appends to the list in
    [data['image']] and leaves the other fields alone, whatever its
    outcome; a response whose ['originalimage'] and ['thumbnail'] are
    non-empty objects (and that has no ['image']) adds exactly two records
    at the end, tagged ['restbase-original'] and ['restbase-thumb'] when
    the shapes carry no ['kind'] field of their own; a later response with
    just an ['image'] object adds a third record behind them. *)
Theorem unpack_images_appends :
  (forall rdata : json, keeps image_grows (_unpack_images rdata))
  /\ (forall (s : State) (m o t : gmap string json),
        image_list_ok s ->
        truthy (default JNull (m !! "image")) = false ->
        m !! "originalimage" = Some (JObj o) ->
        m !! "thumbnail" = Some (JObj t) ->
        truthy (JObj o) = true ->
        truthy (JObj t) = true ->
        exists s' : State,
          _unpack_images (JObj m) s = (Ok tt, s')
          /\ data s' !! "image"
             = Some (JArr (images_of s
                             ++ [JObj (original_record o); JObj (thumb_record t)]))
          /\ (o !! "kind" = None ->
              original_record o !! "kind" = Some (JStr "restbase-original"))
          /\ (t !! "kind" = None ->
              thumb_record t !! "kind" = Some (JStr "restbase-thumb"))
          /\ (forall (s2 : State) (m' i : gmap string json),
                data s2 !! "image" = data s' !! "image" ->
                m' !! "image" = Some (JObj i) ->
                truthy (JObj i) = true ->
                truthy (default JNull (m' !! "originalimage")) = false ->
                truthy (default JNull (m' !! "thumbnail")) = false ->
                exists s3 : State,
                  _unpack_images (JObj m') s2 = (Ok tt, s3)
                  /\ data s3 !! "image"
                     = Some (JArr (images_of s
                                     ++ [JObj (original_record o);
                                         JObj (thumb_record t);
                                         JObj (image_record i)]))
                  /\ (i !! "kind" = None ->
                      image_record i !! "kind" = Some (JStr "restbase-image")))).
Proof.
  split; [exact unpack_images_grows|].
  intros s m o t Hok Hi Ho Ht Hot Htt.
  destruct (unpack_original_and_thumbnail s m o t Hok Hi Ho Ht Hot Htt)
    as (s' & E & L).
  exists s'. split; [exact E|]. split; [exact L|]. split; [|split].
  - intros Hk. unfold original_record. rewrite with_source_url_kind.
    apply tagged_kind. exact Hk.
  - intros Hk. unfold thumb_record. rewrite with_source_url_kind.
    apply tagged_kind. exact Hk.
  - intros s2 m' i L2 Hi' Hit Ho' Ht'. rewrite L in L2.
    assert (Hok2 : image_list_ok s2) by (right; eauto).
    destruct (unpack_image_only s2 m' i Hok2 Hi' Hit Ho' Ht') as (s3 & E3 & L3).
    exists s3. split; [exact E3|]. split.
    + rewrite L3. unfold images_of at 1. rewrite L2, <- app_assoc. reflexivity.
    + apply tagged_kind.
Qed.

End Images.

Lemma unpack_images_appends_witness :
  exists s' : State,
    _unpack_images (JObj Demo.summary_images) Demo.fresh = (Ok tt, s')
    /\ data s' !! "image"
       = Some (JArr [JObj (original_record (Demo.shape "https://upload/full.jpg" 1200));
                     JObj (thumb_record (Demo.shape "https://upload/thumb.jpg" 240))])
    /\ exists s3 : State,
         _unpack_images (JObj Demo.lead_images) s' = (Ok tt, s3)
         /\ data s3 !! "image"
            = Some (JArr [JObj (original_record (Demo.shape "https://upload/full.jpg" 1200));
                          JObj (thumb_record (Demo.shape "https://upload/thumb.jpg" 240));
                          JObj (image_record {["file" := JStr "Douglas_adams.jpg"]})]).
Proof.
  destruct unpack_images_appends as [_ H].
  destruct (H Demo.fresh Demo.summary_images
              (Demo.shape "https://upload/full.jpg" 1200)
              (Demo.shape "https://upload/thumb.jpg" 240)
              (or_introl eq_refl) eq_refl eq_refl eq_refl eq_refl eq_refl)
    as (s' & E & L & _ & _ & H3).
  exists s'. split; [exact E|]. split; [exact L|].
  destruct (H3 s' Demo.lead_images {["file" := JStr "Douglas_adams.jpg"]}
              eq_refl eq_refl eq_refl eq_refl eq_refl) as (s3 & E3 & L3 & _).
  exists s3. split; [exact E3|exact L3].
Defined.

(** C8, as stated, fails when the shapes bring a ['kind'] field: the two
    records then carry that field, not the two distinct tags. *)
Lemma unpack_images_kind_overridden :
  exists r1 r2 : gmap string json,
    _unpack_images (JObj Demo.kinded_images) Demo.fresh
    = (Ok tt, with_data {["image" := JArr [JObj r1; JObj r2]]} Demo.fresh)
    /\ r1 !! "kind" = Some (JStr "photo")
    /\ r2 !! "kind" = Some (JStr "photo").
Proof.
  exists (original_record
            (<["kind" := JStr "photo"]> (Demo.shape "https://upload/full.jpg" 1200))),
         (thumb_record
            (<["kind" := JStr "photo"]> (Demo.shape "https://upload/thumb.jpg" 240))).
  repeat apply conj; reflexivity.
Qed.

(** ** Field extraction *)

#[global] Instance data_but_preorder (W : list string) : PreOrder (data_but W).
Proof.
  split; [intros s k _; reflexivity|].
  intros s1 s2 s3 H1 H2 k Hk. rewrite H2, H1 by exact Hk. reflexivity.
Qed.

Lemma lift_ok {A} (r : Result A) (s : State) (a : A) (s1 : State) :
  lift r s = (Ok a, s1) -> r = Ok a /\ s1 = s.
Proof. unfold lift. intros H. injection H as -> ->. split; reflexivity. Qed.

Lemma set_data_ok (k : string) (v : json) (s : State) (a : unit) (s1 : State) :
  set_data k v s = (Ok a, s1) ->
  data s1 !! k = Some v /\ data_but [k] s s1.
Proof.
  unfold set_data, modify. intros H. injection H as _ <-. split.
  - apply lookup_insert_eq.
  - intros k' Hk'. cbn [data with_data]. apply lookup_insert_ne.
    intros ->. apply Hk'. apply list_elem_of_singleton. reflexivity.
Qed.

Lemma keeps_set_data_but (W : list string) (k : string) (v : json) :
  k ∈ W -> keeps (data_but W) (set_data k v).
Proof.
  intros Hk. apply keeps_modify. intros s k' Hk'. cbn [data with_data].
  apply lookup_insert_ne. intros ->. contradiction.
Qed.

Lemma unpack_images_data_but `{Helpers} (rdata : json) :
  keeps (data_but ["image"]) (_unpack_images rdata).
Proof.
  intros s k Hk. apply (unpack_images_grows rdata s).
  intros ->. apply Hk. apply list_elem_of_singleton. reflexivity.
Qed.

Section Extraction.
Context {QB : QueryBuilder} {TR : Transport} {HP : Helpers}.

(** When [_handle_response] hands a response back it has changed nothing. *)
Lemma handle_response_some (s : State) (v : json) (s1 : State) :
  _handle_response s = (Ok (Some v), s1) -> s1 = s.
Proof.
  unfold _handle_response. intros H.
  apply bind_ok in H as (s0 & sa & E0 & H). injection E0 as <- <-.
  apply bind_ok in H as (e & sa & E0 & H). apply lift_ok in E0 as [_ ->].
  apply bind_ok in H as (i & sa & E0 & H). apply lift_ok in E0 as [_ ->].
  destruct (Py.startswith "text/html" (content i)).
  - apply bind_ok in H as (h & sa & _ & H).
    apply bind_ok in H as (h' & sb & _ & H).
    apply bind_ok in H as (u & sc & _ & H). discriminate H.
  - apply bind_ok in H as (r & sa & E0 & H).
    pose proof (load_response_pure "restbase" s) as P. rewrite E0 in P.
    cbn [snd] in P. subst sa.
    apply bind_ok in H as (s2 & sa & E1 & H). injection E1 as <- <-.
    apply bind_ok in H as (e2 & sa & E1 & H). apply lift_ok in E1 as [_ ->].
    apply bind_ok in H as (i2 & sa & E1 & H). apply lift_ok in E1 as [_ ->].
    destruct (status i2 =? 404)%Z.
    + apply bind_ok in H as (q & sa & _ & H). discriminate H.
    + destruct (bool_decide _).
      * apply bind_ok in H as (it & sa & _ & H).
        apply bind_ok in H as (u & sb & _ & H).
        apply bind_ok in H as (s3 & sc & _ & H).
        apply bind_ok in H as (u2 & sd & _ & H).
        apply bind_ok in H as (u3 & se & _ & H). discriminate H.
      * injection H as _ <-. reflexivity.
Qed.

End Extraction.

#[global] Instance touches_preorder (W : list string) : PreOrder (touches W).
Proof.
  split.
  - intros s. split; [reflexivity|split; reflexivity].
  - intros s1 s2 s3 (Ha & Hb & Hc) (Ha' & Hb' & Hc'). split; [|split].
    + transitivity s2; assumption.
    + congruence.
    + congruence.
Qed.

Lemma set_data_touches (k : string) (v : json) (s : State) (a : unit) (s1 : State) :
  set_data k v s = (Ok a, s1) ->
  data s1 !! k = Some v /\ touches [k] s s1.
Proof.
  intros H. destruct (set_data_ok k v s a s1 H) as [Hv Hb].
  split; [exact Hv|]. split; [exact Hb|].
  unfold set_data, modify in H. injection H as _ <-. split; reflexivity.
Qed.

Lemma keeps_set_data_touches (W : list string) (k : string) (v : json) :
  k ∈ W -> keeps (touches W) (set_data k v).
Proof.
  intros Hk s. split; [apply keeps_set_data_but; exact Hk|].
  split; reflexivity.
Qed.

Lemma merge_modified_touches (lastmodified : json) :
  keeps (touches ["modified"]) (merge_modified lastmodified).
Proof.
  unfold merge_modified.
  repeat keeps_step; apply keeps_set_data_touches;
    apply list_elem_of_singleton; reflexivity.
Qed.

Lemma unpack_images_touches `{Helpers} (rdata : json) :
  keeps (touches ["image"]) (_unpack_images rdata).
Proof.
  intros s. split; [apply unpack_images_data_but|]. split.
  - apply (keeps_unpack_images same_cache). intros; reflexivity.
  - apply (keeps_unpack_images same_params). intros; reflexivity.
Qed.

(** reads a field through a step that does not write it *)
Lemma touches_lookup (W : list string) (s s' : State) (k : string) :
  touches W s s' -> k ∉ W -> data s' !! k = data s !! k.
Proof. intros [H _] Hk. apply H. exact Hk. Qed.

Ltac not_written :=
  rewrite ?not_elem_of_cons; repeat split;
  first [discriminate | apply not_elem_of_nil].

Lemma keeps_at (R : State -> State -> Prop) {A} (c : M A) (s : State)
    (r : Result A) (s1 : State) :
  keeps R c -> c s = (r, s1) -> R s s1.
Proof. intros K E. specialize (K s). rewrite E in K. exact K. Qed.

(** follows a field of [data] back through the steps that do not write it *)
Ltac chase :=
  repeat match goal with
         | T : touches ?W ?a ?b |- context [data ?b !! ?k] =>
             rewrite (touches_lookup W a b k T) by not_written
         end.

Section Normalizer.
Context {QB : QueryBuilder} {TR : Transport} {HP : Helpers}.

(** What a successful normalization leaves in [data], field by field, for
    a validated response [m]. *)
Lemma set_restbase_data_effect :
  forall (s s' : State) (m : gmap string json) (s1 : State),
    _handle_response s = (Ok (Some (JObj m)), s1) ->
    _set_restbase_data s = (Ok tt, s') ->
    let g := fun k => default JNull (m !! k) in
    data s' !! "description" = Some (g "description")
    /\ data s' !! "pageid" = Some (py_or (g "id") (g "pageid"))
    /\ data s' !! "exrest" = Some (g "extract")
    /\ data s' !! "exhtml" = Some (g "extract_html")
    /\ (if truthy (py_or (g "title") (g "normalizedtitle"))
        then exists t, py_or (g "title") (g "normalizedtitle") = JStr t
                       /\ data s' !! "title" = Some (JStr (Py.replace " " "_" t))
        else data s' !! "title" = data s !! "title")
    /\ (if truthy (g "wikibase_item")
        then data s' !! "wikibase" = Some (g "wikibase_item")
             /\ data s' !! "wikidata_url" = Some (wikidata_url (g "wikibase_item"))
        else data s' !! "wikibase" = data s !! "wikibase"
             /\ data s' !! "wikidata_url" = data s !! "wikidata_url")
    /\ (if truthy (g "sections")
        then exists lead text, py_index0 (g "sections") = Ok lead
                               /\ py_get lead "text" = Ok text
                               /\ data s' !! "lead" = Some text
        else data s' !! "lead" = data s !! "lead")
    /\ (exists (e : CacheEntry) (q t : string),
          cache s !! "restbase" = Some e /\ ce_query e = Some q
          /\ title (params s) = Some t
          /\ data s' !! "url" = Some (JStr (derived_url q t))
          /\ data s' !! "url_raw" = Some (JStr (derived_url q t +:+ "?action=raw"))).
Proof.
  intros s s' m s1 H1 H g.
  pose proof (handle_response_some s _ s1 H1) as ->.
  unfold _set_restbase_data in H. rewrite (bind_step _ _ s _ s H1) in H.
  (* description *)
  apply bind_ok in H as (v & sa & E & H). apply lift_ok in E as [E ->].
  injection E as <-.
  apply bind_ok in H as (u & sA & EA & H). apply set_data_touches in EA as [VA TA].
  (* pageid *)
  apply bind_ok in H as (v & sa & E & H). apply lift_ok in E as [E ->].
  injection E as <-.
  apply bind_ok in H as (v & sa & E & H). apply lift_ok in E as [E ->].
  injection E as <-.
  apply bind_ok in H as (u' & sB & EB & H). apply set_data_touches in EB as [VB TB].
  (* exrest, exhtml *)
  apply bind_ok in H as (v & sa & E & H). apply lift_ok in E as [E ->].
  injection E as <-.
  apply bind_ok in H as (u2 & sC & EC & H). apply set_data_touches in EC as [VC TC].
  apply bind_ok in H as (v & sa & E & H). apply lift_ok in E as [E ->].
  injection E as <-.
  apply bind_ok in H as (u3 & sD & ED & H). apply set_data_touches in ED as [VD TD].
  (* modified *)
  apply bind_ok in H as (v & sa & E & H). apply lift_ok in E as [E ->].
  injection E as <-.
  apply bind_ok in H as (u4 & sE & EE & H).
  assert (TE : touches ["modified"] sD sE).
  { destruct (truthy (default JNull (m !! "lastmodified"))).
    - exact (keeps_at _ _ _ _ _ (merge_modified_touches _) EE).
    - injection EE as _ <-. reflexivity. }
  clear EE.
  (* lead *)
  apply bind_ok in H as (v & sa & E & H). apply lift_ok in E as [E ->].
  injection E as <-.
  apply bind_ok in H as (u5 & sF & EF & H).
  assert (TF : touches ["lead"] sE sF
               /\ if truthy (g "sections")
                  then exists lead text, py_index0 (g "sections") = Ok lead
                                         /\ py_get lead "text" = Ok text
                                         /\ data sF !! "lead" = Some text
                  else data sF !! "lead" = data sE !! "lead").
  { subst g. cbn beta. destruct (truthy (default JNull (m !! "sections"))).
    - apply bind_ok in EF as (lead & sa & E & EF). apply lift_ok in E as [E ->].
      apply bind_ok in EF as (text & sa & E' & EF). apply lift_ok in E' as [E' ->].
      apply set_data_touches in EF as [V T]. split; [exact T|].
      exists lead, text. repeat split; assumption.
    - injection EF as _ <-. split; reflexivity. }
  destruct TF as [TF VF]. clear EF.
  (* title *)
  apply bind_ok in H as (v & sa & E & H). apply lift_ok in E as [E ->].
  injection E as <-.
  apply bind_ok in H as (v & sa & E & H). apply lift_ok in E as [E ->].
  injection E as <-.
  apply bind_ok in H as (u6 & sG & EG & H).
  assert (TG : touches ["title"] sF sG
               /\ if truthy (py_or (g "title") (g "normalizedtitle"))
                  then exists t, py_or (g "title") (g "normalizedtitle") = JStr t
                                 /\ data sG !! "title"
                                    = Some (JStr (Py.replace " " "_" t))
                  else data sG !! "title" = data sF !! "title").
  { subst g. cbn beta.
    destruct (truthy (py_or (default JNull (m !! "title"))
                        (default JNull (m !! "normalizedtitle")))).
    - revert EG.
      destruct (py_or (default JNull (m !! "title"))
                  (default JNull (m !! "normalizedtitle"))) as [| | |t| |];
        intros EG; try discriminate EG.
      apply set_data_touches in EG as [V T]. split; [exact T|].
      exists t. split; [reflexivity|exact V].
    - injection EG as _ <-. split; reflexivity. }
  destruct TG as [TG VG]. clear EG.
  (* wikibase *)
  apply bind_ok in H as (v & sa & E & H). apply lift_ok in E as [E ->].
  injection E as <-.
  apply bind_ok in H as (u7 & sH & EH & H).
  assert (TH : touches ["wikibase"; "wikidata_url"] sG sH
               /\ if truthy (g "wikibase_item")
                  then data sH !! "wikibase" = Some (g "wikibase_item")
                       /\ data sH !! "wikidata_url"
                          = Some (wikidata_url (g "wikibase_item"))
                  else data sH !! "wikibase" = data sG !! "wikibase"
                       /\ data sH !! "wikidata_url" = data sG !! "wikidata_url").
  { subst g. cbn beta. destruct (truthy (default JNull (m !! "wikibase_item"))).
    - apply bind_ok in EH as (w1 & sw & E1 & EH).
      apply set_data_touches in E1 as [V1 T1].
      apply set_data_touches in EH as [V2 T2].
      split; [|split].
      + destruct T1 as (D1 & C1 & P1), T2 as (D2 & C2 & P2).
        split; [|split; congruence].
        intros k Hk. apply not_elem_of_cons in Hk as [Hk1 Hk2].
        rewrite D2 by exact Hk2. apply D1.
        apply not_elem_of_cons. split; [exact Hk1|apply not_elem_of_nil].
      + rewrite (touches_lookup _ _ _ "wikibase" T2) by not_written. exact V1.
      + exact V2.
    - injection EH as _ <-. repeat split; reflexivity. }
  destruct TH as [TH VH]. clear EH.
  (* url, url_raw *)
  apply bind_ok in H as (s0 & sa & E & H). injection E as <- <-.
  apply bind_ok in H as (e & sa & Ee & H). apply lift_ok in Ee as [Ee ->].
  apply bind_ok in H as (q & sa & Eq & H). apply lift_ok in Eq as [Eq ->].
  apply bind_ok in H as (t & sa & Et & H). apply lift_ok in Et as [Et ->].
  apply bind_ok in H as (u8 & sI & EI & H). apply set_data_touches in EI as [VI TI].
  apply bind_ok in H as (u9 & sJ & EJ & H). apply set_data_touches in EJ as [VJ TJ].
  pose proof (keeps_at _ _ _ _ _ (unpack_images_touches (JObj m)) H) as TU.
  clear H.
  assert (Hrest : cache sH = cache s /\ params sH = params s).
  { destruct TA as (_ & CA & PA), TB as (_ & CB & PB), TC as (_ & CC & PC),
      TD as (_ & CD & PD), TE as (_ & CE & PE), TF as (_ & CF & PF),
      TG as (_ & CG & PG), TH as (_ & CH & PH). split; congruence. }
  destruct Hrest as [Hcache Hparams].
  repeat apply conj.
  - chase. exact VA.
  - chase. exact VB.
  - chase. exact VC.
  - chase. exact VD.
  - fold g in VG. destruct (truthy (py_or (g "title") (g "normalizedtitle"))).
    + destruct VG as (t0 & Ht0 & V). exists t0. split; [exact Ht0|].
      chase. exact V.
    + chase. rewrite VG. chase. reflexivity.
  - fold g in VH. destruct (truthy (g "wikibase_item")).
    + destruct VH as [V1 V2]. split; chase; assumption.
    + destruct VH as [V1 V2]. split; chase; [rewrite V1|rewrite V2]; chase;
        reflexivity.
  - fold g in VF. destruct (truthy (g "sections")).
    + destruct VF as (lead & text & L1 & L2 & V). exists lead, text.
      repeat split; try assumption. chase. exact V.
    + chase. rewrite VF. chase. reflexivity.
  - rewrite Hcache in Ee. rewrite Hparams in Et.
    exists e, q, t.
    destruct (cache s !! "restbase") as [e0|]; [|discriminate Ee].
    injection Ee as ->.
    destruct (ce_query e) as [q0|]; [|discriminate Eq]. injection Eq as ->.
    destruct (title (params s)) as [t0|]; [|discriminate Et]. injection Et as ->.
    repeat split.
    + chase. exact VI.
    + chase. exact VJ.
Qed.

(** C7, amended: after a successful normalization of a validated response
    [m], [description], [exrest] and [exhtml] hold the value the response
    supplies for them and [pageid] the value of ['id'] when that is true,
    else the one supplied for ['pageid']; [title], [wikibase] and
    [wikidata_url] are never reset: they are written from a true value of
    the response only, the title with its spaces turned into underscores,
    and keep their previous value otherwise; [lead] changes only when the
    response has sections; [url] and [url_raw] are rebuilt from the cached
    query and the known title. *)
Theorem set_restbase_data_fields :
  forall (s s' : State) (m : gmap string json) (s1 : State),
    _handle_response s = (Ok (Some (JObj m)), s1) ->
    _set_restbase_data s = (Ok tt, s') ->
    let g := fun k => default JNull (m !! k) in
    (forall v, m !! "description" = Some v -> data s' !! "description" = Some v)
    /\ (truthy (g "id") = true -> data s' !! "pageid" = Some (g "id"))
    /\ (truthy (g "id") = false ->
        forall v, m !! "pageid" = Some v -> data s' !! "pageid" = Some v)
    /\ (forall v, m !! "extract" = Some v -> data s' !! "exrest" = Some v)
    /\ (forall v, m !! "extract_html" = Some v -> data s' !! "exhtml" = Some v)
    /\ (if truthy (py_or (g "title") (g "normalizedtitle"))
        then exists t, py_or (g "title") (g "normalizedtitle") = JStr t
                       /\ data s' !! "title" = Some (JStr (Py.replace " " "_" t))
        else data s' !! "title" = data s !! "title")
    /\ (if truthy (g "wikibase_item")
        then data s' !! "wikibase" = Some (g "wikibase_item")
             /\ data s' !! "wikidata_url" = Some (wikidata_url (g "wikibase_item"))
        else data s' !! "wikibase" = data s !! "wikibase"
             /\ data s' !! "wikidata_url" = data s !! "wikidata_url")
    /\ (if truthy (g "sections")
        then exists lead text, py_index0 (g "sections") = Ok lead
                               /\ py_get lead "text" = Ok text
                               /\ data s' !! "lead" = Some text
        else data s' !! "lead" = data s !! "lead")
    /\ (exists (e : CacheEntry) (q t : string),
          cache s !! "restbase" = Some e /\ ce_query e = Some q
          /\ title (params s) = Some t
          /\ data s' !! "url" = Some (JStr (derived_url q t))
          /\ data s' !! "url_raw" = Some (JStr (derived_url q t +:+ "?action=raw"))).
Proof.
  intros s s' m s1 H1 H g.
  destruct (set_restbase_data_effect s s' m s1 H1 H)
    as (Hd & Hp & Hx & Hh & Ht & Hw & Hl & Hu).
  subst g. cbn beta in *.
  repeat apply conj; try assumption.
  - intros v Hv. rewrite Hd, Hv. reflexivity.
  - intros Hid. rewrite Hp. unfold py_or. rewrite Hid. reflexivity.
  - intros Hid v Hv. rewrite Hp. unfold py_or. rewrite Hid, Hv. reflexivity.
  - intros v Hv. rewrite Hx, Hv. reflexivity.
  - intros v Hv. rewrite Hh, Hv. reflexivity.
Qed.

End Normalizer.

Lemma set_restbase_data_fields_witness :
  let s := Demo.described (BStr Demo.doc_summary) in
  let s' := snd (_set_restbase_data s) in
  data s' !! "title" = Some (JStr "Douglas_Adams")
  /\ data s' !! "wikibase" = None
  /\ data s' !! "url" = Some (JStr "https://en.wikipedia.org/wiki/Douglas_Adams").
Proof.
  intros s s'.
  assert (H1 : _handle_response s
               = (Ok (Some (JObj {["title" := JStr "Douglas Adams"]})), s))
    by (vm_compute; reflexivity).
  assert (H2 : _set_restbase_data s = (Ok tt, s')) by (vm_compute; reflexivity).
  destruct (set_restbase_data_fields s s' {["title" := JStr "Douglas Adams"]} s
              H1 H2)
    as (_ & _ & _ & _ & _ & Ht & Hw & _ & Hu).
  split; [|split].
  - cbn in Ht. destruct Ht as (t & Et & Ht). injection Et as <-. exact Ht.
  - cbn in Hw. destruct Hw as [Hw _]. exact Hw.
  - destruct Hu as (e & q & t & He & Hq & Ht' & Hu & _).
    injection He as <-. injection Hq as <-. injection Ht' as <-. exact Hu.
Defined.

(** C7, as stated, fails: a description and a page id on record are reset
    to [None] by a response that has neither, and a page id is taken from
    ['pageid'] although ['id'] is there and not null (it is 0). *)
Lemma set_restbase_data_resets_fields :
  data (Demo.described (BStr Demo.doc_summary)) !! "description"
  = Some (JStr "English writer and humorist")
  /\ data (Demo.described (BStr Demo.doc_summary)) !! "pageid" = Some (JNum 8091)
  /\ fst (_set_restbase_data (Demo.described (BStr Demo.doc_summary))) = Ok tt
  /\ data (snd (_set_restbase_data (Demo.described (BStr Demo.doc_summary))))
     !! "description" = Some JNull
  /\ data (snd (_set_restbase_data (Demo.described (BStr Demo.doc_summary))))
     !! "pageid" = Some JNull
  /\ json_loads (BStr Demo.doc_ids)
     = Ok (JObj (<["id" := JNum 0]> {["pageid" := JNum 5]}))
  /\ data (snd (_set_restbase_data (Demo.described (BStr Demo.doc_ids))))
     !! "pageid" = Some (JNum 5).
Proof. repeat apply conj; reflexivity. Qed.


(** * Further properties of the code *)

(** ** Endpoint resolution, all shapes *)

Lemma endpoint_parts_head (ep : string) (parts : list string) :
  endpoint_parts ep = Ok parts -> exists rest, parts = "page" :: rest.
Proof.
  unfold endpoint_parts.
  destruct (filter _ (Py.split "/" ep)) as [|p0 rest]; [discriminate|].
  cbn [first_part]. destruct (String.eqb_spec p0 "page") as [->|Hne]; cbn [negb];
    intros H; injection H as <-; eauto.
Qed.

(** How a supplied endpoint resolves, by the number of its segments. *)
Lemma parse_endpoint_two (ep : string) (known : option string) (s : State)
    (a b : string) :
  Py.nonempty ep = true ->
  endpoint_parts ep = Ok [a; b] ->
  _parse_endpoint (Some ep) known s
  = match known with
    | Some t => if Py.nonempty t
                then (Ok ("/" +:+ Py.join "/" [a; b; t]), s)
                else (Raise (ValueError "need a title."), s)
    | None => (Raise (ValueError "need a title."), s)
    end.
Proof.
  intros Hep Hparts. unfold _parse_endpoint. rewrite Hep. cbn [negb].
  unfold bind at 1, lift at 1. rewrite Hparts. cbn [length Nat.eqb].
  destruct known as [t|]; [|reflexivity].
  destruct (Py.nonempty t) eqn:Ht; [|reflexivity].
  unfold bind, ret. cbn [app]. rewrite String.eqb_refl. reflexivity.
Qed.

Lemma parse_endpoint_three (ep : string) (known : option string) (s : State)
    (a b c : string) :
  Py.nonempty ep = true ->
  endpoint_parts ep = Ok [a; b; c] ->
  _parse_endpoint (Some ep) known s
  = if Py.truthy_opt known
    then (if bool_decide (known = Some c)
          then (Ok ("/" +:+ Py.join "/" [a; b; c]), s)
          else (Raise (ValueError "titles conflict."), s))
    else (Ok ("/" +:+ Py.join "/" [a; b; c]),
          with_params (with_title (Some c) (params s)) s).
Proof.
  intros Hep Hparts. unfold _parse_endpoint. rewrite Hep. cbn [negb].
  unfold bind at 1, lift at 1. rewrite Hparts. cbn [length Nat.eqb].
  unfold bind, ret, raise, modify. destruct known as [t|]; cbn [Py.truthy_opt];
    [|reflexivity].
  destruct (Py.nonempty t); [|reflexivity].
  destruct (String.eqb_spec t c) as [->|Hne]; cbn [negb].
  - rewrite bool_decide_eq_true_2 by reflexivity. reflexivity.
  - rewrite bool_decide_eq_false_2 by congruence. reflexivity.
Qed.

Lemma parse_endpoint_other (ep : string) (known : option string) (s : State)
    (parts : list string) :
  Py.nonempty ep = true ->
  endpoint_parts ep = Ok parts ->
  length parts <> 2 -> length parts <> 3 ->
  _parse_endpoint (Some ep) known s = (Ok ("/" +:+ Py.join "/" parts), s).
Proof.
  intros Hep Hparts H2 H3. unfold _parse_endpoint. rewrite Hep. cbn [negb].
  unfold bind at 1, lift at 1. rewrite Hparts.
  destruct parts as [|a [|b [|c [|d rest]]]]; cbn [length] in *;
    try reflexivity; lia.
Qed.


Lemma endpoint_parts_error (ep : string) (e : Exc) :
  endpoint_parts ep = Raise e -> e = IndexError.
Proof.
  unfold endpoint_parts.
  destruct (filter _ (Py.split "/" ep)) as [|p0 rest]; cbn [first_part];
    intros H; [injection H as <-; reflexivity|discriminate].
Qed.

(** How a resolution can fail. *)
Lemma parse_endpoint_raise_inv :
  forall (ep known : option string) (s s' : State) (e : Exc),
    _parse_endpoint ep known s = (Raise e, s') ->
    s' = s
    /\ (e = IndexError \/ e = ValueError "need a title."
        \/ e = ValueError "titles conflict.").
Proof.
  intros ep known s s' e H.
  destruct ep as [ep|]; [|discriminate H].
  destruct (Py.nonempty ep) eqn:Hep.
  2:{ unfold _parse_endpoint in H. rewrite Hep in H. discriminate H. }
  destruct (endpoint_parts ep) as [parts|e0] eqn:Hparts.
  2:{ unfold _parse_endpoint in H. rewrite Hep in H. cbn [negb] in H.
      unfold bind, lift in H. rewrite Hparts in H. injection H as <- <-.
      split; [reflexivity|]. left. exact (endpoint_parts_error ep e0 Hparts). }
  destruct parts as [|a [|b [|c [|d rest]]]].
  - rewrite (parse_endpoint_other ep known s [] Hep Hparts) in H
      by (cbn; lia). discriminate H.
  - rewrite (parse_endpoint_other ep known s [a] Hep Hparts) in H
      by (cbn; lia). discriminate H.
  - rewrite (parse_endpoint_two ep known s a b Hep Hparts) in H.
    destruct known as [t|]; [destruct (Py.nonempty t); [discriminate H|]|];
      injection H as <- <-; auto.
  - rewrite (parse_endpoint_three ep known s a b c Hep Hparts) in H.
    destruct (Py.truthy_opt known); [|discriminate H].
    destruct (bool_decide _); [discriminate H|].
    injection H as <- <-. auto.
  - rewrite (parse_endpoint_other ep known s _ Hep Hparts) in H
      by (cbn; lia). discriminate H.
Qed.

(** X1: Resolution fails in three ways only, and a failed resolution leaves
    the instance as it was. *)
Theorem parse_endpoint_failures :
  forall (ep known : option string) (s s' : State) (e : Exc),
    _parse_endpoint ep known s = (Raise e, s') ->
    s' = s
    /\ (e = IndexError \/ e = ValueError "need a title."
        \/ e = ValueError "titles conflict.").
Proof. exact parse_endpoint_raise_inv. Qed.

Lemma parse_endpoint_failures_witness :
  Demo.fresh = Demo.fresh
  /\ (ValueError "titles conflict." = IndexError
      \/ ValueError "titles conflict." = ValueError "need a title."
      \/ ValueError "titles conflict." = ValueError "titles conflict.").
Proof.
  apply (parse_endpoint_failures (Some "page/html/Y") (Some "X") Demo.fresh
           Demo.fresh (ValueError "titles conflict.")).
  reflexivity.
Defined.

(** What a resolution that succeeds has done. *)
Lemma parse_endpoint_ok_inv :
  forall (ep known : option string) (s s' : State) (r : string),
    _parse_endpoint ep known s = (Ok r, s') ->
    Py.startswith "/page" r = true
    /\ (s' = s
        \/ (Py.truthy_opt known = false
            /\ exists a b c, r = "/" +:+ Py.join "/" [a; b; c]
                             /\ Py.nonempty c = true
                             /\ s' = with_params (with_title (Some c) (params s)) s)).
Proof.
  intros ep known s s' r H.
  destruct ep as [ep|]; [|injection H as <- <-; split; [reflexivity|left; reflexivity]].
  destruct (Py.nonempty ep) eqn:Hep.
  2:{ unfold _parse_endpoint in H. rewrite Hep in H. injection H as <- <-.
      split; [reflexivity|left; reflexivity]. }
  destruct (endpoint_parts ep) as [parts|e0] eqn:Hparts.
  2:{ unfold _parse_endpoint in H. rewrite Hep in H. cbn [negb] in H.
      unfold bind, lift in H. rewrite Hparts in H. discriminate H. }
  destruct (endpoint_parts_head ep parts Hparts) as [rest ->].
  destruct rest as [|b [|c [|d rest]]].
  - rewrite (parse_endpoint_other ep known s _ Hep Hparts) in H by (cbn; lia).
    injection H as <- <-. split; [reflexivity|left; reflexivity].
  - rewrite (parse_endpoint_two ep known s _ b Hep Hparts) in H.
    destruct known as [t|]; [destruct (Py.nonempty t); [|discriminate H]
                            |discriminate H].
    injection H as <- <-. split; [reflexivity|left; reflexivity].
  - rewrite (parse_endpoint_three ep known s _ b c Hep Hparts) in H.
    destruct (Py.truthy_opt known) eqn:Hk.
    + destruct (bool_decide _); [|discriminate H]. injection H as <- <-.
      split; [reflexivity|left; reflexivity].
    + injection H as <- <-. split; [reflexivity|]. right.
      split; [reflexivity|]. exists "page", b, c.
      repeat split.
      unfold endpoint_parts in Hparts.
      assert (Hin : c ∈ filter (fun x => Is_true (Py.nonempty x))
                           (Py.split "/" ep)).
      { destruct (filter _ (Py.split "/" ep)) as [|p0 l]; [discriminate|].
        cbn [first_part] in Hparts.
        destruct (negb (p0 =? "page")); simplify_eq; set_solver. }
      apply list_elem_of_filter in Hin as [Hc _].
      apply Is_true_true in Hc. exact Hc.
  - rewrite (parse_endpoint_other ep known s _ Hep Hparts) in H by (cbn; lia).
    injection H as <- <-. split; [reflexivity|left; reflexivity].
Qed.




(** ** Splitting and joining paths *)

Lemma split_no_slash (p : string) :
  no_slash p = true -> Py.split "/" p = [p].
Proof.
  induction p as [|c p IH]; [reflexivity|]. cbn [no_slash Py.split].
  intros H. apply andb_true_iff in H as [Hc Hp].
  apply negb_true_iff in Hc. rewrite Hc, (IH Hp). reflexivity.
Qed.

Lemma split_app_slash (p x : string) :
  no_slash p = true ->
  Py.split "/" (p +:+ String "/" x) = p :: Py.split "/" x.
Proof.
  induction p as [|c p IH]; [reflexivity|]. cbn [no_slash].
  intros H. apply andb_true_iff in H as [Hc Hp].
  apply negb_true_iff in Hc.
  change (String c p +:+ String "/" x) with (String c (p +:+ String "/" x)).
  cbn [Py.split]. rewrite Hc, (IH Hp). reflexivity.
Qed.

Lemma split_pieces_no_slash (s : string) :
  Forall (fun p => no_slash p = true) (Py.split "/" s).
Proof.
  induction s as [|c s IH]; [repeat constructor|]. cbn [Py.split].
  destruct (Ascii.eqb c "/") eqn:Hc.
  - constructor; [reflexivity|exact IH].
  - destruct (Py.split "/" s) as [|h t].
    + repeat constructor. cbn. rewrite Hc. reflexivity.
    + inversion IH as [|? ? Hh Ht]; subst. constructor; [|exact Ht].
      cbn. rewrite Hc, Hh. reflexivity.
Qed.

(** Joining proper segments and splitting again gives the segments back. *)
Lemma split_join (parts : list string) :
  parts <> [] ->
  Forall segment parts ->
  Py.split "/" (Py.join "/" parts) = parts.
Proof.
  induction parts as [|p ps IH]; [congruence|]. intros _ Hall.
  inversion Hall as [|? ? [_ Hp] Hps]; subst.
  destruct ps as [|q ps].
  - apply split_no_slash. exact Hp.
  - change (Py.join "/" (p :: q :: ps))
      with (p +:+ String "/" (Py.join "/" (q :: ps))).
    rewrite split_app_slash by exact Hp.
    rewrite IH; [reflexivity|discriminate|exact Hps].
Qed.

Lemma filter_segments (parts : list string) :
  Forall segment parts ->
  filter (fun x => Is_true (Py.nonempty x)) parts = parts.
Proof.
  induction 1 as [|p ps [Hp _] _ IH]; [reflexivity|].
  rewrite filter_cons_True by (rewrite Hp; exact I). rewrite IH. reflexivity.
Qed.

Lemma endpoint_parts_segments (ep : string) (parts : list string) :
  endpoint_parts ep = Ok parts -> Forall segment parts.
Proof.
  unfold endpoint_parts. intros H.
  assert (Hall : Forall segment
                   (filter (fun x => Is_true (Py.nonempty x)) (Py.split "/" ep))).
  { apply Forall_forall. intros p Hin.
    apply list_elem_of_filter in Hin as [Hne Hin]. split.
    - apply Is_true_true. exact Hne.
    - pose proof (split_pieces_no_slash ep) as F.
      rewrite Forall_forall in F. apply F. exact Hin. }
  destruct (filter _ (Py.split "/" ep)) as [|p0 rest]; [discriminate|].
  cbn [first_part] in H. destruct (negb (p0 =? "page")); injection H as <-;
    [|exact Hall].
  constructor; [split; reflexivity|exact Hall].
Qed.

(** The canonical path of rooted segments splits into those segments. *)
Lemma endpoint_parts_join (rest : list string) :
  Forall segment rest ->
  endpoint_parts ("/" +:+ Py.join "/" ("page" :: rest)) = Ok ("page" :: rest).
Proof.
  intros Hall.
  assert (Hall' : Forall segment ("page" :: rest))
    by (constructor; [split; reflexivity|exact Hall]).
  unfold endpoint_parts.
  change ("/" +:+ Py.join "/" ("page" :: rest))
    with (String "/" (Py.join "/" ("page" :: rest))).
  cbn [Py.split]. rewrite Ascii.eqb_refl.
  rewrite split_join by (try discriminate; exact Hall').
  rewrite filter_cons_False by (cbn; tauto).
  rewrite filter_segments by exact Hall'. reflexivity.
Qed.


(** A resolved path resolves to itself. *)
Lemma resolve_again :
  forall (ep : string) (s : State) (r : string) (s1 : State),
    Py.nonempty ep = true ->
    title_ok s ->
    resolve ep s = (Ok r, s1) ->
    resolve r s1 = (Ok r, s1) /\ title_ok s1.
Proof.
  intros ep s r s1 Hep Hok H.
  change (_parse_endpoint (Some ep) (title (params s)) s = (Ok r, s1)) in H.
  change (_parse_endpoint (Some r) (title (params s1)) s1 = (Ok r, s1) /\ title_ok s1).
  destruct (endpoint_parts ep) as [parts|e0] eqn:Hparts.
  2:{ unfold _parse_endpoint in H. rewrite Hep in H. cbn [negb] in H.
      unfold bind, lift in H. rewrite Hparts in H. discriminate H. }
  pose proof (endpoint_parts_segments ep parts Hparts) as Hseg.
  destruct (endpoint_parts_head ep parts Hparts) as [rest ->].
  inversion Hseg as [|? ? _ Hrest]; subst.
  destruct rest as [|b [|c [|d rest]]].
  - rewrite (parse_endpoint_other ep _ s _ Hep Hparts) in H by (cbn; lia).
    injection H as <- <-. split; [|exact Hok].
    apply parse_endpoint_other with (parts := ["page"]);
      [reflexivity|reflexivity|cbn; lia|cbn; lia].
  - rewrite (parse_endpoint_two ep _ s _ b Hep Hparts) in H.
    unfold title_ok in Hok.
    destruct (title (params s)) as [t|] eqn:Ht; [|discriminate H].
    destruct (Py.nonempty t) eqn:Hne; [|discriminate H].
    injection H as <- <-. split; [|unfold title_ok; rewrite Ht; exact Hok].
    rewrite (parse_endpoint_three _ _ s "page" b t); rewrite ?Ht.
    + cbn [Py.truthy_opt]. rewrite Hne.
      rewrite bool_decide_eq_true_2 by reflexivity. reflexivity.
    + reflexivity.
    + apply (endpoint_parts_join [b; t]).
      inversion Hrest as [|? ? Hb _]; subst.
      constructor; [exact Hb|]. constructor; [exact Hok|constructor].
  - rewrite (parse_endpoint_three ep _ s _ b c Hep Hparts) in H.
    assert (Hc : segment c).
    { inversion Hrest as [|? ? _ Hr2]; subst. inversion Hr2; subst. assumption. }
    assert (Hre : endpoint_parts ("/" +:+ Py.join "/" ["page"; b; c])
                  = Ok ["page"; b; c])
      by (apply (endpoint_parts_join [b; c]); exact Hrest).
    destruct (Py.truthy_opt (title (params s))) eqn:Hk.
    + destruct (bool_decide (title (params s) = Some c)) eqn:Hd;
        [|discriminate H].
      injection H as <- <-. split; [|exact Hok].
      rewrite (parse_endpoint_three ("/" +:+ Py.join "/" ["page"; b; c]) _ s
                 "page" b c eq_refl Hre).
      rewrite Hk, Hd. reflexivity.
    + injection H as <- <-. split; [|exact Hc].
      rewrite (parse_endpoint_three ("/" +:+ Py.join "/" ["page"; b; c]) _ _
                 "page" b c eq_refl Hre).
      cbn [title params with_params with_title Py.truthy_opt].
      rewrite (proj1 Hc). rewrite bool_decide_eq_true_2 by reflexivity.
      reflexivity.
  - rewrite (parse_endpoint_other ep _ s _ Hep Hparts) in H by (cbn; lia).
    injection H as <- <-. split; [|exact Hok].
    apply parse_endpoint_other with (parts := "page" :: b :: c :: d :: rest);
      [reflexivity| |cbn; lia|cbn; lia].
    apply (endpoint_parts_join (b :: c :: d :: rest)). exact Hrest.
Qed.

(** X3: Resolving a resolved path again, as [get_restbase] would, changes
    nothing: the same path comes back and the instance stays as it is. *)
Theorem resolve_idempotent :
  forall (ep : string) (s : State) (r : string) (s1 : State),
    Py.nonempty ep = true ->
    title_ok s ->
    resolve ep s = (Ok r, s1) ->
    resolve r s1 = (Ok r, s1) /\ title_ok s1.
Proof. exact resolve_again. Qed.

Lemma resolve_idempotent_witness :
  resolve "/page/summary/Douglas_Adams"
    (with_params (with_title (Some "Douglas_Adams") (params Demo.fresh)) Demo.fresh)
  = (Ok "/page/summary/Douglas_Adams",
     with_params (with_title (Some "Douglas_Adams") (params Demo.fresh)) Demo.fresh)
  /\ title_ok
       (with_params (with_title (Some "Douglas_Adams") (params Demo.fresh)) Demo.fresh).
Proof.
  apply (resolve_idempotent "summary/Douglas_Adams" Demo.fresh);
    [reflexivity|exact I|reflexivity].
Defined.

(** X4: With a title known and two or three segments, a successful resolution
    ends in that title and leaves the instance alone. *)
Theorem parse_endpoint_title_segment :
  forall (ep t : string) (s s' : State) (r : string) (a b : string)
         (rest : list string),
    Py.nonempty ep = true ->
    Py.nonempty t = true ->
    endpoint_parts ep = Ok (a :: b :: rest) ->
    length rest <= 1 ->
    _parse_endpoint (Some ep) (Some t) s = (Ok r, s') ->
    r = "/page/" +:+ b +:+ "/" +:+ t /\ s' = s.
Proof.
  intros ep t s s' r a b rest Hep Ht Hparts Hlen H.
  destruct (endpoint_parts_head ep _ Hparts) as [rest' E]. injection E as -> <-.
  destruct rest as [|c [|d rest]]; [| |cbn in Hlen; lia].
  - rewrite (parse_endpoint_two ep _ s _ b Hep Hparts), Ht in H.
    injection H as <- <-. split; reflexivity.
  - rewrite (parse_endpoint_three ep _ s _ b c Hep Hparts) in H.
    cbn [Py.truthy_opt] in H. rewrite Ht in H.
    destruct (bool_decide (Some t = Some c)) eqn:Hd; [|discriminate H].
    apply bool_decide_eq_true_1 in Hd. injection Hd as ->.
    injection H as <- <-. split; reflexivity.
Qed.

Lemma parse_endpoint_title_segment_witness :
  "/page/html/X" = "/page/" +:+ "html" +:+ "/" +:+ "X" /\ Demo.fresh = Demo.fresh.
Proof.
  apply (parse_endpoint_title_segment "html" "X" Demo.fresh Demo.fresh
           "/page/html/X" "page" "html" []); try reflexivity.
  cbn. lia.
Defined.

(** X5: Four segments or more are joined as they are: no title is appended,
    compared or adopted, so a title that conflicts goes unnoticed. *)
Theorem parse_endpoint_long_unchecked :
  forall (ep : string) (known : option string) (s : State) (parts : list string),
    Py.nonempty ep = true ->
    endpoint_parts ep = Ok parts ->
    4 <= length parts ->
    _parse_endpoint (Some ep) known s = (Ok ("/" +:+ Py.join "/" parts), s).
Proof.
  intros ep known s parts Hep Hparts Hlen.
  apply parse_endpoint_other; [assumption|assumption|lia|lia].
Qed.

Lemma parse_endpoint_long_unchecked_witness :
  _parse_endpoint (Some "page/media/Y/extra") (Some "X") Demo.fresh
  = (Ok ("/" +:+ Py.join "/" ["page"; "media"; "Y"; "extra"]), Demo.fresh).
Proof.
  apply parse_endpoint_long_unchecked; [reflexivity|reflexivity|cbn; lia].
Defined.

(** X6: An endpoint whose only segment is ['page'], the documented default
    ['/page/'] among them, resolves to ['/page'] without the closing
    separator: it is not the root path that [_handle_response] looks for. *)
Theorem parse_endpoint_bare_root :
  forall (ep p : string) (known : option string) (s : State),
    Py.nonempty ep = true ->
    endpoint_parts ep = Ok [p] ->
    _parse_endpoint (Some ep) known s = (Ok "/page", s)
    /\ _parse_endpoint None known s = (Ok "/page/", s).
Proof.
  intros ep p known s Hep Hparts.
  destruct (endpoint_parts_head ep _ Hparts) as [rest E]. injection E as -> _.
  split; [|reflexivity].
  apply (parse_endpoint_other ep known s ["page"] Hep Hparts); cbn; lia.
Qed.

Lemma parse_endpoint_bare_root_witness :
  _parse_endpoint (Some "/page/") None Demo.fresh = (Ok "/page", Demo.fresh)
  /\ _parse_endpoint None None Demo.fresh = (Ok "/page/", Demo.fresh).
Proof.
  apply (parse_endpoint_bare_root "/page/" "page"); reflexivity.
Defined.


(** ** Round trip of the segments *)

(** X7: The segments of an endpoint are proper segments, and the path joined
    from them splits into the same segments again. *)
Theorem endpoint_parts_round_trip :
  forall (ep : string) (parts : list string),
    endpoint_parts ep = Ok parts ->
    Forall segment parts
    /\ endpoint_parts ("/" +:+ Py.join "/" parts) = Ok parts.
Proof.
  intros ep parts H. pose proof (endpoint_parts_segments ep parts H) as Hseg.
  split; [exact Hseg|].
  destruct (endpoint_parts_head ep parts H) as [rest ->].
  inversion Hseg; subst. apply endpoint_parts_join. assumption.
Qed.

Lemma endpoint_parts_round_trip_witness :
  Forall segment ["page"; "summary"; "X"]
  /\ endpoint_parts ("/" +:+ Py.join "/" ["page"; "summary"; "X"])
     = Ok ["page"; "summary"; "X"].
Proof. apply (endpoint_parts_round_trip "summary//X/"). reflexivity. Defined.


(** ** Construction and re-targeting *)

Section Retarget.
Context {QB : QueryBuilder} {TR : Transport} {HP : Helpers}.

(** [_get] keeps whatever does not depend on the cache, the diagnostic
    stream or the wire, provided the normalizer keeps it. *)
Lemma keeps_get R `{!PreOrder R} {SRC : Source} (action : string)
    (show_ : bool) (proxy : option string) (timeout : Z) :
  (forall s c, R s (with_cache c s)) ->
  (forall s l, R s (with_stderr l s)) ->
  (forall s w, R s (with_wire w s)) ->
  keeps R (_set_data action) ->
  keeps R (_get action show_ proxy timeout).
Proof.
  intros Hc Hs Hw Hset.
  assert (Hupd : forall f, keeps R (update_entry action f)).
  { intros f. unfold update_entry. repeat keeps_step.
    apply keeps_modify. intros s. apply Hc. }
  assert (Hreq : forall q st, keeps R (req_get proxy timeout q st)).
  { intros q st s. unfold req_get. destruct (http_get _ _ _ _); apply Hw. }
  unfold _get.
  repeat first [ exact Hset | apply Hupd | apply Hreq
               | apply keeps_show; [exact _|exact Hs]
               | apply keeps_stderr; [exact _|exact Hs]
               | apply keeps_modify; intros ?; apply Hc
               | keeps_step ].
Qed.

(** A fetch through the RESTBase source never changes the parameters or
    the flags. *)
Lemma get_restbase_params (show_ : bool) (proxy : option string) (timeout : Z) :
  keeps same_params (_get "restbase" show_ proxy timeout).
Proof.
  apply (keeps_get (SRC := WPToolsRESTBase) same_params).
  - intros s c. reflexivity.
  - intros s l. reflexivity.
  - intros s w. reflexivity.
  - change (keeps same_params _set_restbase_data).
    apply (keeps_set_restbase_data same_params); intros; reflexivity.
Qed.

(** X8: Construction with an endpoint of two segments never succeeds.
    With a positional argument, the documented place of the title, the
    call raises [TypeError]; without one it raises [ValueError] for the
    missing title, no title being on record yet when the constructor
    resolves the endpoint. *)
Theorem init_two_segments_needs_title :
  forall (args : list json) (kw : Kwargs) (ep a b : string),
    kw_endpoint kw = Some ep ->
    Py.nonempty ep = true ->
    endpoint_parts ep = Ok [a; b] ->
    WPToolsRESTBase__init__ args kw
    = Raise (match args with
             | [] => ValueError "need a title."
             | _ :: _ => TypeError
             end).
Proof.
  intros args kw ep a b Hkw Hep Hparts. unfold WPToolsRESTBase__init__.
  destruct args as [|x args]; [|reflexivity].
  unfold bind at 1, get_state at 1. rewrite Hkw.
  rewrite (bind_raise _ _ _ (ValueError "need a title.") (WPTools__init__ kw));
    [reflexivity|].
  rewrite (parse_endpoint_two ep _ _ a b Hep Hparts). reflexivity.
Qed.

(** X9: A resolution that fails inside [get_restbase] stops it there: the
    instance is as before, the stored endpoint included, and nothing is
    sent. *)
Theorem get_restbase_bad_endpoint :
  forall (ep : string) (show_ : bool) (proxy : option string) (timeout : Z)
         (s s' : State) (e : Exc),
    Py.nonempty ep = true ->
    _parse_endpoint (Some ep) (title (params s)) s = (Raise e, s') ->
    get_restbase (Some ep) show_ proxy timeout s = (Raise e, s).
Proof.
  intros ep show_ proxy timeout s s' e Hep H.
  destruct (parse_endpoint_raise_inv _ _ _ _ _ H) as [-> _].
  unfold get_restbase. cbn [Py.truthy_opt]. rewrite Hep.
  apply bind_raise. unfold bind at 1, get_state at 1.
  apply bind_raise. exact H.
Qed.

(** X10: Once ['restbase'] is cached, [get_restbase] with another endpoint
    records that endpoint and stops at the cache hit: nothing is sent, and
    cache and data stay those of the earlier fetch. *)
Theorem get_restbase_retarget_cached :
  forall (ep : string) (show_ : bool) (proxy : option string) (timeout : Z)
         (s s1 : State) (r : string),
    Py.nonempty ep = true ->
    is_Some (cache s !! "restbase") ->
    _parse_endpoint (Some ep) (title (params s)) s = (Ok r, s1) ->
    exists s',
      get_restbase (Some ep) show_ proxy timeout s = (Ok tt, s')
      /\ endpoint (params s') = Some r
      /\ wire s' = wire s /\ cache s' = cache s /\ data s' = data s
      /\ stderr_calls s' = stderr_calls s ++ [cache_notice "restbase" s].
Proof.
  intros ep show_ proxy timeout s s1 r Hep Hc H.
  pose proof (parse_endpoint_cache (Some ep) (title (params s)) s) as Kc.
  rewrite H in Kc. unfold same_cache in Kc. cbn [snd] in Kc.
  assert (Hrest : data s1 = data s /\ wire s1 = wire s
                  /\ stderr_calls s1 = stderr_calls s /\ flags s1 = flags s).
  { destruct (parse_endpoint_ok_inv _ _ _ _ _ H) as [_ [->|(_ & a & b & c & _ & _ & ->)]];
      repeat split. }
  destruct Hrest as (Hd & Hw & Hs & Hf).
  unfold get_restbase. cbn [Py.truthy_opt]. rewrite Hep.
  unfold bind at 1. unfold bind at 1, get_state at 1. unfold bind at 1.
  rewrite H. cbn [modify].
  rewrite get_cache_hit; [|discriminate|cbn [cache with_params]; rewrite Kc; exact Hc].
  eexists. split; [reflexivity|].
  cbn [params with_stderr with_params endpoint with_endpoint wire cache data
       stderr_calls].
  repeat split; try assumption.
  rewrite Hs. unfold cache_notice. cbn [flags with_params]. rewrite Hf.
  reflexivity.
Qed.

(** X11: Construction leaves an instance with nothing cached, nothing recorded
    and nothing sent, which is [ready]; and every [get_restbase], whatever
    its outcome, leaves a [ready] instance [ready]. *)
Theorem ready_invariant :
  (forall (args : list json) (kw : Kwargs) (s : State),
      WPToolsRESTBase__init__ args kw = Ok s ->
      ready s /\ cache s = ∅ /\ data s = ∅ /\ wire s = [] /\ stderr_calls s = [])
  /\ (forall (ep : option string) (show_ : bool) (proxy : option string)
             (timeout : Z) (s : State),
        ready s ->
        ready (snd (get_restbase ep show_ proxy timeout s))).
Proof.
  assert (Hstep : forall (ep : option string) (s : State) (r : string) (s1 : State),
             title_ok s ->
             _parse_endpoint ep (title (params s)) s = (Ok r, s1) ->
             ready (with_params (with_endpoint (Some r) (params s1)) s1)
             /\ cache s1 = cache s /\ data s1 = data s /\ wire s1 = wire s
             /\ stderr_calls s1 = stderr_calls s).
  { intros ep s r s1 Hok H.
    destruct (parse_endpoint_ok_inv _ _ _ _ _ H) as [Hpre Hst].
    assert (Htitle : title_ok s1).
    { destruct ep as [ep|]; [|injection H as _ <-; exact Hok].
      destruct (Py.nonempty ep) eqn:Hep.
      - exact (proj2 (resolve_again ep s r s1 Hep Hok H)).
      - unfold _parse_endpoint in H. rewrite Hep in H. injection H as _ <-.
        exact Hok. }
    split.
    - split; [exists r; split; [reflexivity|exact Hpre]|].
      unfold title_ok in *. destruct s1 as [? ? ? []]. exact Htitle.
    - destruct Hst as [->|(_ & a & b & c & _ & _ & ->)]; repeat split. }
  split.
  - intros args kw s H. unfold WPToolsRESTBase__init__ in H.
    destruct args as [|x args]; [|discriminate H].
    match type of H with
    | match ?c with _ => _ end = _ => destruct c as [[[]|e0] sf] eqn:H0
    end; [|discriminate H].
    injection H as <-. rename H0 into H.
    apply bind_ok in H as (s0 & sa & E & H). injection E as <- <-.
    apply bind_ok in H as (r & s1 & E & H). injection H as <-.
    destruct (Hstep _ (WPTools__init__ kw) _ _ I E) as (Hr & Hc & Hd & Hw & Hs).
    split; [exact Hr|]. cbn [cache data wire stderr_calls with_params].
    rewrite Hc, Hd, Hw, Hs. repeat split.
  - intros ep show_ proxy timeout s Hready.
    assert (Hkeep : forall s0, ready s0 ->
              ready (snd (_get "restbase" show_ proxy timeout s0))).
    { intros s0 [He Ht].
      pose proof (get_restbase_params show_ proxy timeout s0) as P.
      unfold same_params in P. unfold ready, title_ok. rewrite P. split; assumption. }
    unfold get_restbase. destruct (Py.truthy_opt ep) eqn:Hep.
    + unfold bind at 1. unfold bind at 1, get_state at 1. unfold bind at 1.
      destruct (_parse_endpoint ep (title (params s)) s) as [[r|e] s1] eqn:E.
      * cbn [modify]. apply Hkeep.
        exact (proj1 (Hstep _ _ _ _ (proj2 Hready) E)).
      * destruct (parse_endpoint_raise_inv _ _ _ _ _ E) as [-> _]. exact Hready.
    + unfold bind at 1, ret at 1. apply Hkeep. exact Hready.
Qed.

End Retarget.


Lemma init_two_segments_needs_title_witness :
  WPToolsRESTBase__init__ [] (Cases.kw_endpoint_only "/page/html")
  = Raise (ValueError "need a title.")
  /\ WPToolsRESTBase__init__ [JStr "Douglas Adams"]
       (Cases.kw_endpoint_only "/page/html")
     = Raise TypeError.
Proof.
  split.
  - apply (init_two_segments_needs_title [] (Cases.kw_endpoint_only "/page/html")
             "/page/html" "page" "html"); reflexivity.
  - apply (init_two_segments_needs_title [JStr "Douglas Adams"]
             (Cases.kw_endpoint_only "/page/html") "/page/html" "page" "html");
      reflexivity.
Defined.

Lemma get_restbase_bad_endpoint_witness :
  get_restbase (Some "/page/html/Other") true None 0 Demo.summary_page
  = (Raise (ValueError "titles conflict."), Demo.summary_page).
Proof.
  apply (get_restbase_bad_endpoint "/page/html/Other" true None 0
           Demo.summary_page Demo.summary_page); reflexivity.
Defined.

Lemma get_restbase_retarget_cached_witness :
  exists s',
    get_restbase (Some "/page/html/Douglas_Adams") true None 0
      (Demo.holding "restbase" (BStr Demo.doc_summary)) = (Ok tt, s')
    /\ endpoint (params s') = Some "/page/html/Douglas_Adams"
    /\ wire s' = wire (Demo.holding "restbase" (BStr Demo.doc_summary))
    /\ cache s' = cache (Demo.holding "restbase" (BStr Demo.doc_summary))
    /\ data s' = data (Demo.holding "restbase" (BStr Demo.doc_summary))
    /\ stderr_calls s'
       = stderr_calls (Demo.holding "restbase" (BStr Demo.doc_summary))
         ++ [cache_notice "restbase" (Demo.holding "restbase" (BStr Demo.doc_summary))].
Proof.
  apply (get_restbase_retarget_cached "/page/html/Douglas_Adams" true None 0
           (Demo.holding "restbase" (BStr Demo.doc_summary))
           (with_params
              (with_title (Some "Douglas_Adams")
                 (params (Demo.holding "restbase" (BStr Demo.doc_summary))))
              (Demo.holding "restbase" (BStr Demo.doc_summary))));
    [reflexivity| |reflexivity].
  exists (fetched (Demo.rest_v1 +:+ "/page/summary/X&format=json")
            (BStr Demo.doc_summary)
            {| content := "application/json"; status := 200 |}).
  reflexivity.
Defined.

Lemma ready_invariant_witness :
  ready Demo.summary_page
  /\ ready (snd (get_restbase (Some "/page/html") true None 0 Demo.summary_page)).
Proof.
  destruct ready_invariant as [Hinit Hget].
  destruct (Hinit [] (Cases.kw_endpoint_only "/page/summary/Douglas_Adams")
              Demo.summary_page eq_refl) as [Hr _].
  split; [exact Hr|]. apply Hget. exact Hr.
Defined.


(** ** The gates of the RESTBase normalizer *)

Section Gates.
Context {QB : QueryBuilder} {TR : Transport} {HP : Helpers}.

Lemma prettyprint_from_ok (extent : Z) (lines : list string) (s : State) :
  fst (prettyprint_from extent lines s) = Ok tt.
Proof.
  revert s. induction lines as [|l rest IH]; intros s; [reflexivity|].
  cbn [prettyprint_from]. unfold bind at 1, stderr, modify. apply IH.
Qed.

(** The dump never raises. *)
Lemma show_ok (force : bool) (s : State) : fst (show force s) = Ok tt.
Proof.
  unfold show, bind, get_state.
  destruct (silent (flags s) && negb force); [reflexivity|].
  destruct (size (data s) =? 0)%nat; [reflexivity|].
  apply prettyprint_from_ok.
Qed.

Lemma handle_response_html (s : State) (e : CacheEntry) (i : Info) (body : Body) :
  cache s !! "restbase" = Some e ->
  ce_info e = Some i ->
  ce_response e = Some body ->
  Py.startswith "text/html" (content i) = true ->
  _handle_response s
  = match html_value body with
    | Ok v => (Ok None, with_data (<["html" := v]> (data s)) s)
    | Raise err => (Raise err, s)
    end.
Proof.
  intros Hc Hi Hr Hhtml. unfold _handle_response.
  unfold bind at 1, get_state at 1. unfold bind at 1, lift at 1.
  rewrite Hc. cbn [require]. unfold bind at 1, lift at 1. rewrite Hi.
  cbn [require]. rewrite Hhtml.
  unfold bind at 1, lift at 1. rewrite Hr. cbn [require].
  unfold html_value.
  destruct body as [|t|b]; [reflexivity|reflexivity|].
  destruct (utf8_decode b); reflexivity.
Qed.

(** [prettyprint] writes one line for each line it is given, clipped,
    and touches nothing else. *)
Lemma prettyprint_calls (lines : list string) (s : State) :
  prettyprint lines s
  = (Ok tt, with_stderr (stderr_calls s ++ map (fun l => plain_call (clip l)) lines) s).
Proof.
  unfold prettyprint. revert s.
  induction lines as [|l rest IH]; intros s.
  - cbn [prettyprint_from map]. rewrite app_nil_r. destruct s; reflexivity.
  - cbn [prettyprint_from map]. unfold bind at 1, stderr at 1, modify.
    rewrite IH. cbn [stderr_calls with_stderr]. rewrite <- app_assoc.
    reflexivity.
Qed.

(** The dump only adds to the diagnostic stream. *)
Lemma show_stderr_grows (force : bool) (s : State) :
  stderr_grows s (snd (show force s)).
Proof.
  unfold show, bind, get_state.
  destruct (silent (flags s) && negb force);
    [exists []; symmetry; apply app_nil_r|].
  destruct (size (data s) =? 0)%nat; [exists []; symmetry; apply app_nil_r|].
  rewrite prettyprint_calls. eexists. reflexivity.
Qed.

(** X12: A body announced as HTML is stored as it is and nothing is checked:
    neither an empty body nor a 404 status is noticed. *)
Theorem html_body_stored_unchecked :
  forall (s : State) (e : CacheEntry) (i : Info) (body : Body),
    cache s !! "restbase" = Some e ->
    ce_info e = Some i ->
    ce_response e = Some body ->
    Py.startswith "text/html" (content i) = true ->
    _set_restbase_data s
    = match html_value body with
      | Ok v => (Ok tt, with_data (<["html" := v]> (data s)) s)
      | Raise err => (Raise err, s)
      end.
Proof.
  intros s e i body Hc Hi Hr Hhtml.
  pose proof (handle_response_html s e i body Hc Hi Hr Hhtml) as H.
  unfold _set_restbase_data.
  destruct (html_value body) as [v|err].
  - rewrite (bind_step _ _ s None _ H). reflexivity.
  - apply bind_raise. exact H.
Qed.

(** What [_handle_response] does with a body that is not HTML, once the
    validator has passed it. *)
Lemma handle_response_validated (s : State) (q : string) (r : Body) (i : Info)
    (d : json) :
  cache s !! "restbase" = Some (fetched q r i) ->
  Py.startswith "text/html" (content i) = false ->
  _load_response "restbase" s = (Ok d, s) ->
  _handle_response s
  = if (status i =? 404)%Z then (Raise (LookupError q), s)
    else if bool_decide (endpoint (params s) = Some "/page/")
         then match py_get d "items" with
              | Ok items =>
                  (Ok None,
                   with_cache (delete "restbase" (cache s))
                     (with_stderr (stderr_calls s ++ [listing_notice items]) s))
              | Raise err => (Raise err, s)
              end
         else (Ok (Some d), s).
Proof.
  intros Hc Hhtml Hl. unfold _handle_response.
  unfold bind at 1, get_state at 1. unfold bind at 1, lift at 1.
  rewrite Hc. cbn [require]. unfold bind at 1, lift at 1.
  cbn [ce_info fetched require]. rewrite Hhtml.
  rewrite (bind_step _ _ s d s Hl).
  unfold bind at 1, get_state at 1. unfold bind at 1, lift at 1.
  rewrite Hc. cbn [require]. unfold bind at 1, lift at 1.
  cbn [ce_info fetched require].
  destruct (status i =? 404)%Z; [reflexivity|].
  destruct (bool_decide (endpoint (params s) = Some "/page/")); [|reflexivity].
  unfold bind at 1, lift at 1. destruct (py_get d "items") as [items|err];
    [|reflexivity].
  unfold bind, stderr, modify, get_state, lift, ret.
  cbn [cache with_stderr]. rewrite Hc. reflexivity.
Qed.

(** X13: A 404 status is looked at only after the validator has passed the
    body: it then raises [LookupError] with the cached query, format
    suffix included, and nothing is written; when the validator fails,
    its error is the one raised. *)
Theorem not_found_after_validation :
  forall (s : State) (q : string) (r : Body) (i : Info),
    cache s !! "restbase" = Some (fetched q r i) ->
    Py.startswith "text/html" (content i) = false ->
    status i = 404%Z ->
    _set_restbase_data s
    = match fst (_load_response "restbase" s) with
      | Ok _ => (Raise (LookupError q), s)
      | Raise err => (Raise err, s)
      end.
Proof.
  intros s q r i Hc Hhtml H404.
  pose proof (load_response_pure "restbase" s) as P.
  destruct (_load_response "restbase" s) as [[d|err] s0] eqn:Hl;
    cbn [fst snd] in *; subst s0.
  - unfold _set_restbase_data. apply bind_raise.
    rewrite (handle_response_validated s q r i d Hc Hhtml Hl), H404.
    reflexivity.
  - unfold _set_restbase_data. apply bind_raise.
    unfold _handle_response.
    unfold bind at 1, get_state at 1. unfold bind at 1, lift at 1.
    rewrite Hc. cbn [require]. unfold bind at 1, lift at 1.
    cbn [ce_info fetched require]. rewrite Hhtml.
    apply bind_raise. exact Hl.
Qed.

(** X14: A fetch of the root listing that goes through leaves cache and data
    as they were before the call: one request is sent, the listing is
    written to the diagnostic stream without the silent flag, and the
    entry of the fetch is gone again. *)
Theorem root_listing_leaves_no_trace :
  forall (show_ : bool) (proxy : option string) (timeout : Z) (s : State)
         (body : Body) (i : Info) (m : gmap string json),
    cache s !! "restbase" = None ->
    "restbase" ∉ skip (flags s) ->
    endpoint (params s) = Some "/page/" ->
    http_get (wire s) (silent (flags s)) (verbose (flags s))
      (request_of proxy timeout (qobj_restbase (qobj_of s) "/page/"))
    = Some (body, i) ->
    Py.startswith "text/html" (content i) = false ->
    status i <> 404%Z ->
    body_truthy body = true ->
    json_loads body = Ok (JObj m) ->
    truthy (default JNull (m !! "error")) = false ->
    exists s',
      _get "restbase" show_ proxy timeout s = (Ok tt, s')
      /\ cache s' = cache s /\ data s' = data s /\ params s' = params s
      /\ wire s' = wire s
                   ++ [request_of proxy timeout (qobj_restbase (qobj_of s) "/page/")]
      /\ listing_notice (default JNull (m !! "items")) ∈ stderr_calls s'.
Proof.
  intros show_ proxy timeout s body i m Hc Hs Hep Hh Hhtml H404 Hb Hj Herr.
  assert (Hq : _query "restbase" (qobj_of s) (reserve "restbase" s)
               = Ok (qobj_restbase (qobj_of s) "/page/")).
  { cbn [_query WPToolsRESTBase].
    destruct (reserve_frame "restbase" s) as (_ & _ & -> & _).
    rewrite Hep. reflexivity. }
  rewrite (get_fetches "restbase" show_ proxy timeout s _ body i
             (or_introl Hc) Hs Hq Hh).
  set (rq := request_of proxy timeout (qobj_restbase (qobj_of s) "/page/")).
  set (s1 := arrived "restbase" rq body i s).
  assert (Hc1 : cache s1 !! "restbase" = Some (fetched (rq_query rq) body i))
    by (apply lookup_insert_eq).
  assert (Hl : _load_response "restbase" s1 = (Ok (JObj m), s1)).
  { rewrite (load_response_found "restbase" s1 _ (rq_query rq) body Hc1
               eq_refl eq_refl).
    rewrite Hb, Hj. cbn [negb]. unfold bind, lift, py_get, ret.
    rewrite Herr. reflexivity. }
  assert (Hset : _set_data "restbase" s1
                 = (Ok tt,
                    with_cache (delete "restbase" (cache s1))
                      (with_stderr
                         (stderr_calls s1
                            ++ [listing_notice (default JNull (m !! "items"))]) s1))).
  { cbn [_set_data WPToolsRESTBase]. unfold _set_restbase_data.
    pose proof (handle_response_validated s1 _ body i _ Hc1 Hhtml Hl) as Hh1.
    apply Z.eqb_neq in H404. rewrite H404 in Hh1.
    rewrite bool_decide_eq_true_2 in Hh1 by exact Hep.
    cbn [py_get] in Hh1.
    rewrite (bind_step _ _ s1 None _ Hh1). reflexivity. }
  rewrite (bind_step _ _ s1 tt _ Hset).
  set (s2 := with_cache _ _).
  assert (Hshow : exists s', (if show_ then show false else ret tt) s2 = (Ok tt, s')
                  /\ cache s' = cache s2 /\ data s' = data s2
                  /\ params s' = params s2 /\ wire s' = wire s2
                  /\ (forall c, c ∈ stderr_calls s2 -> c ∈ stderr_calls s')).
  { destruct show_.
    - exists (snd (show false s2)). split.
      + pose proof (show_ok false s2) as Ho.
        destruct (show false s2) as [r0 s0]. cbn in Ho. subst r0. reflexivity.
      + split; [apply (show_cache false s2)|].
        split; [apply (show_data false s2)|].
        split; [apply (keeps_show same_params false); intros; reflexivity|].
        split; [apply (show_offline false s2)|].
        intros c Hin. destruct (show_stderr_grows false s2) as [l ->].
        apply elem_of_app. left. exact Hin.
    - exists s2. repeat split. auto. }
  destruct Hshow as (s' & E & Hca & Hda & Hpa & Hwi & Hst).
  exists s'. split; [exact E|]. rewrite Hca, Hda, Hpa, Hwi.
  subst s2 s1. unfold arrived.
  cbn [cache data params wire with_cache with_stderr with_wire].
  split; [apply delete_insert_id; exact Hc|].
  repeat split. apply Hst. cbn [stderr_calls with_cache with_stderr].
  apply elem_of_app. right. apply list_elem_of_singleton. reflexivity.
Qed.

End Gates.


Lemma html_body_stored_unchecked_witness :
  _set_restbase_data Cases.html_not_found
  = (Ok tt,
     with_data (<["html" := JStr EmptyString]> (data Cases.html_not_found))
       Cases.html_not_found).
Proof.
  apply (html_body_stored_unchecked Cases.html_not_found
           (fetched (Demo.rest_v1 +:+ "/page/html/Nope") (BStr EmptyString)
              {| content := "text/html; charset=utf-8"; status := 404 |})
           {| content := "text/html; charset=utf-8"; status := 404 |}
           (BStr EmptyString)); reflexivity.
Defined.

Lemma not_found_after_validation_witness :
  _set_restbase_data Cases.json_not_found
  = (Raise (LookupError (Demo.rest_v1 +:+ "/page/summary/Nope&format=json")),
     Cases.json_not_found).
Proof.
  rewrite (not_found_after_validation Cases.json_not_found
             (Demo.rest_v1 +:+ "/page/summary/Nope&format=json")
             (BStr Demo.doc_empty)
             {| content := "application/json"; status := 404 |})
    by reflexivity.
  vm_compute. reflexivity.
Defined.

Lemma root_listing_leaves_no_trace_witness :
  exists s',
    _get "restbase" true None 0 Demo.fresh = (Ok tt, s')
    /\ cache s' = cache Demo.fresh /\ data s' = data Demo.fresh
    /\ params s' = params Demo.fresh
    /\ wire s' = wire Demo.fresh
                 ++ [request_of None 0 (qobj_restbase (qobj_of Demo.fresh) "/page/")]
    /\ listing_notice (default JNull ((∅ : gmap string json) !! "items"))
       ∈ stderr_calls s'.
Proof.
  apply (root_listing_leaves_no_trace true None 0 Demo.fresh (BStr Demo.doc_empty)
           Cases.ok_json ∅); try reflexivity.
  - intros H. inversion H.
  - discriminate.
Defined.


(** ** The dump *)

Lemma len_append (a b : string) :
  Py.len (a +:+ b) = Py.len a + Py.len b.
Proof.
  induction a as [|c a IH]; [reflexivity|].
  change (String c a +:+ b) with (String c (a +:+ b)). cbn [Py.len].
  rewrite IH. destruct (Py.continuation c); reflexivity.
Qed.

Lemma len_take (n : nat) (s : string) :
  Py.len (Py.take n s) = Nat.min n (Py.len s).
Proof.
  revert n. induction s as [|c s IH]; intros n; [destruct n; reflexivity|].
  cbn [Py.take Py.len]. destruct (Py.continuation c) eqn:Hc.
  - cbn [Py.len]. rewrite Hc. apply IH.
  - destruct n as [|n]; [reflexivity|]. cbn [Py.len]. rewrite Hc, IH.
    reflexivity.
Qed.

Section Dump.
Context {QB : QueryBuilder} {TR : Transport} {HP : Helpers}.

(** X15: [prettyprint] writes every line, in order and whatever the silent
    flag; a line of fewer characters than the maximum width is written as
    it is, however many bytes it takes, and with a right padding of at
    least 2 that leaves room for the cut, no written line reaches the
    maximum width in characters. *)
Theorem prettyprint_clips :
  (forall (lines : list string) (s : State),
      prettyprint lines s
      = (Ok tt,
         with_stderr (stderr_calls s ++ map (fun l => plain_call (clip l)) lines) s))
  /\ (forall line : string,
        (Z.of_nat (Py.len line) < MAXWIDTH)%Z -> clip line = line)
  /\ ((2 <= RPAD)%Z -> (RPAD + 2 <= MAXWIDTH)%Z ->
      forall line : string,
        (Z.of_nat (Py.len (clip line)) < MAXWIDTH)%Z).
Proof.
  split; [exact prettyprint_calls|]. split.
  - intros line Hlt. unfold clip.
    destruct (Z.leb_spec MAXWIDTH (Z.of_nat (Py.len line))); [lia|reflexivity].
  - intros Hr Hm line. unfold clip.
    destruct (Z.leb_spec MAXWIDTH (Z.of_nat (Py.len line))) as [Hge|Hlt];
      [|exact Hlt].
    unfold Py.slice_to.
    destruct (Z.leb_spec 0 (MAXWIDTH - (RPAD + 2))) as [_|Hneg]; [|lia].
    rewrite len_append, len_take. change (Py.len "...") with 3. lia.
Qed.

End Dump.

(** ** Failures and the cache *)

Section Failures.
Context {QB : QueryBuilder} {TR : Transport} {HP : Helpers} {SRC : Source}.

(** X17: A transport error leaves the entry with its query only.  The action
    then counts as cached: the next fetch stops at the cache hit and sends
    nothing, [query] answers, [info] and [response] raise [KeyError]. *)
Theorem transport_failure_blocks_retry :
  forall (action : string) (show_ : bool) (proxy : option string) (timeout : Z)
         (s : State) (qq : string * QObj),
    action <> "imageinfo" ->
    cache s !! action = None ->
    action ∉ skip (flags s) ->
    _query action (qobj_of s) (reserve action s) = Ok qq ->
    http_get (wire s) (silent (flags s)) (verbose (flags s))
      (request_of proxy timeout qq) = None ->
    let s1 := with_wire (wire s ++ [request_of proxy timeout qq])
                (with_cache (<[action := set_query (fst qq) empty_entry]> (cache s)) s) in
    _get action show_ proxy timeout s = (Raise TransportError, s1)
    /\ (forall (show' : bool) (proxy' : option string) (timeout' : Z),
          _get action show' proxy' timeout' s1
          = (Ok tt, with_stderr (stderr_calls s ++ [cache_notice action s]) s1))
    /\ query (Some action) s1 = (Ok (Item (reported (fst qq))), s1)
    /\ info (Some action) s1 = (Raise (KeyError "info"), s1)
    /\ response (Some action) s1 = (Raise (KeyError "response"), s1).
Proof.
  intros action show_ proxy timeout s qq Hne Hc Hs Hq Hh s1.
  assert (Hres : reserve action s
                 = with_cache (<[action := empty_entry]> (cache s)) s)
    by (unfold reserve; rewrite Hc; reflexivity).
  assert (Hl1 : cache s1 !! action = Some (set_query (fst qq) empty_entry))
    by (apply lookup_insert_eq).
  split; [|split; [|split; [|split]]].
  - rewrite get_proceeds by (left; exact Hc).
    rewrite bool_decide_eq_false_2 by exact Hs.
    unfold bind at 1, lift at 1. rewrite Hq.
    unfold bind at 1. unfold update_entry at 1, bind at 1 2, get_state at 1, lift at 1.
    rewrite Hres. cbn [cache with_cache]. rewrite lookup_insert_eq.
    cbn [require modify]. unfold bind at 1. unfold req_get at 1.
    cbn [wire flags with_cache].
    change {| rq_query := qq.1; rq_status := q_status qq.2; rq_proxy := proxy;
              rq_timeout := timeout |} with (request_of proxy timeout qq).
    rewrite Hh. subst s1. unfold with_wire, with_cache.
    cbn [cache data flags params stderr_calls wire].
    rewrite insert_insert_eq. reflexivity.
  - intros show' proxy' timeout'.
    rewrite get_cache_hit by (try assumption; rewrite Hl1; eauto).
    reflexivity.
  - unfold query, bind, get_state, lift, ret. cbn [mbind option_bind].
    rewrite Hl1. reflexivity.
  - unfold info, bind, get_state, lift, ret. cbn [mbind option_bind].
    rewrite Hl1. reflexivity.
  - unfold response, bind, get_state, lift, ret. cbn [mbind option_bind].
    rewrite Hl1. reflexivity.
Qed.

End Failures.

Section ValidatorEdges.
Context {HP : Helpers}.

(** X18: What the validator needs in the cache: without an entry, or with an
    entry that lacks the query or the response (as the one a skipped
    action leaves), it raises [KeyError] for the missing key, the query
    being looked up first. *)
Theorem load_response_missing_keys :
  forall (action : string) (s : State),
    (cache s !! action = None ->
     _load_response action s = (Raise (KeyError action), s))
    /\ (forall e, cache s !! action = Some e -> ce_query e = None ->
          _load_response action s = (Raise (KeyError "query"), s))
    /\ (forall e q, cache s !! action = Some e -> ce_query e = Some q ->
          ce_response e = None ->
          _load_response action s = (Raise (KeyError "response"), s)).
Proof.
  intros action s. unfold _load_response, bind, get_state, lift, require.
  repeat split.
  - intros ->. reflexivity.
  - intros e -> ->. reflexivity.
  - intros e q -> -> ->. reflexivity.
Qed.

(** X19: Errors the validator does not classify: a body that parses to
    anything but a dict raises [AttributeError]; for ['wikidata'], a dict
    without entities raises [TypeError]; and an exception of the parser
    that is not a [ValueError] goes through as it is, whereas its
    [UnicodeDecodeError], a [ValueError] by inheritance, is turned into
    the malformed-response error. *)
Theorem load_response_unclassified :
  forall (action : string) (s : State) (e : CacheEntry) (q : string) (r : Body),
    cache s !! action = Some e ->
    ce_query e = Some q ->
    ce_response e = Some r ->
    body_truthy r = true ->
    (forall d, json_loads r = Ok d -> (forall m, d <> JObj m) ->
       _load_response action s = (Raise AttributeError, s))
    /\ (forall m, json_loads r = Ok (JObj m) ->
          truthy (default JNull (m !! "error")) = false ->
          action = "wikidata" ->
          default JNull (m !! "entities") = JNull ->
          _load_response action s = (Raise TypeError, s))
    /\ (forall err, json_loads r = Raise err ->
          is_ValueError err = false ->
          _load_response action s = (Raise err, s))
    /\ (json_loads r = Raise UnicodeDecodeError ->
        _load_response action s = (Raise (ValueError (reported q)), s)).
Proof.
  intros action s e q r Hc Hq Hr Hb.
  rewrite (load_response_found action s e q r Hc Hq Hr), Hb. cbn [negb].
  repeat split.
  - intros d Hj Hd. rewrite Hj. unfold bind, lift.
    destruct d; try reflexivity. exfalso. exact (Hd _ eq_refl).
  - intros m Hj Herr -> Hents. rewrite Hj.
    unfold bind, lift, py_get, ret. rewrite Herr. cbn [String.eqb Ascii.eqb Bool.eqb].
    rewrite Hents. reflexivity.
  - intros err Hj Hv. rewrite Hj, Hv. reflexivity.
  - intros Hj. rewrite Hj. reflexivity.
Qed.

End ValidatorEdges.


Lemma prettyprint_clips_witness :
  clip (Cases.wide 30) = Cases.wide 30
  /\ String.length (Cases.wide 30) = 90
  /\ (Z.of_nat (Py.len (clip (Cases.dashes 100))) < MAXWIDTH)%Z.
Proof.
  destruct (prettyprint_clips (QB := Demo.query_builder)) as (_ & Hshort & Hlong).
  split; [|split].
  - apply Hshort. reflexivity.
  - reflexivity.
  - apply Hlong; discriminate.
Defined.

Lemma transport_failure_blocks_retry_witness :
  let qq := qobj_restbase (qobj_of Demo.fresh) "/page/" in
  let s1 := with_wire (wire Demo.fresh ++ [request_of None 0 qq])
              (with_cache (<["restbase" := set_query (fst qq) empty_entry]>
                             (cache Demo.fresh)) Demo.fresh) in
  _get (TR := Cases.down) "restbase" true None 0 Demo.fresh
  = (Raise TransportError, s1)
  /\ _get (TR := Cases.down) "restbase" true None 0 s1
     = (Ok tt,
        with_stderr (stderr_calls Demo.fresh ++ [cache_notice "restbase" Demo.fresh]) s1)
  /\ response (Some "restbase") s1 = (Raise (KeyError "response"), s1).
Proof.
  intros qq s1.
  destruct (transport_failure_blocks_retry (TR := Cases.down) "restbase" true None 0
              Demo.fresh qq)
    as (H1 & H2 & _ & _ & H5).
  - discriminate.
  - reflexivity.
  - intros H. inversion H.
  - reflexivity.
  - reflexivity.
  - split; [exact H1|]. split; [apply H2|exact H5].
Defined.

Lemma load_response_missing_keys_witness :
  _load_response "restbase" Demo.fresh = (Raise (KeyError "restbase"), Demo.fresh)
  /\ _load_response "restbase" (Cases.reserved "restbase")
     = (Raise (KeyError "query"), Cases.reserved "restbase").
Proof.
  split.
  - apply (load_response_missing_keys "restbase" Demo.fresh). reflexivity.
  - apply (proj1 (proj2 (load_response_missing_keys "restbase"
                           (Cases.reserved "restbase"))) empty_entry);
      reflexivity.
Defined.

Lemma load_response_unclassified_witness :
  _load_response (HP := Cases.parser) "restbase"
    (Demo.holding "restbase" (BStr Cases.doc_list))
  = (Raise AttributeError, Demo.holding "restbase" (BStr Cases.doc_list))
  /\ _load_response "wikidata" (Demo.holding "wikidata" (BStr Demo.doc_empty))
     = (Raise TypeError, Demo.holding "wikidata" (BStr Demo.doc_empty))
  /\ _load_response (HP := Cases.parser) "restbase"
       (Demo.holding "restbase" (BBytes Demo.doc_summary))
     = (Raise TypeError, Demo.holding "restbase" (BBytes Demo.doc_summary)).
Proof.
  split; [|split].
  - destruct (load_response_unclassified (HP := Cases.parser) "restbase"
                (Demo.holding "restbase" (BStr Cases.doc_list))
                (fetched (Demo.rest_v1 +:+ "/page/summary/X&format=json")
                   (BStr Cases.doc_list) Cases.ok_json)
                (Demo.rest_v1 +:+ "/page/summary/X&format=json")
                (BStr Cases.doc_list) eq_refl eq_refl eq_refl eq_refl)
      as (H & _ & _).
    apply (H (JArr [])); [reflexivity|discriminate].
  - destruct (load_response_unclassified (HP := Demo.helpers) "wikidata"
                (Demo.holding "wikidata" (BStr Demo.doc_empty))
                (fetched (Demo.rest_v1 +:+ "/page/summary/X&format=json")
                   (BStr Demo.doc_empty) Cases.ok_json)
                (Demo.rest_v1 +:+ "/page/summary/X&format=json")
                (BStr Demo.doc_empty) eq_refl eq_refl eq_refl eq_refl)
      as (_ & H & _).
    apply (H ∅); reflexivity.
  - destruct (load_response_unclassified (HP := Cases.parser) "restbase"
                (Demo.holding "restbase" (BBytes Demo.doc_summary))
                (fetched (Demo.rest_v1 +:+ "/page/summary/X&format=json")
                   (BBytes Demo.doc_summary) Cases.ok_json)
                (Demo.rest_v1 +:+ "/page/summary/X&format=json")
                (BBytes Demo.doc_summary) eq_refl eq_refl eq_refl eq_refl)
      as (_ & _ & H & _).
    apply (H TypeError); reflexivity.
Defined.


(** ** Image unpacking, every combination *)

Section ImageCases.
Context {HP : Helpers}.

Lemma shape_of_false (v : json) : truthy v = false -> shape_of v = [].
Proof. destruct v; try reflexivity. cbn [shape_of]. intros ->. reflexivity. Qed.

Lemma well_shaped_cases (v : json) :
  well_shaped v ->
  (truthy v = false /\ shape_of v = [])
  \/ (exists o, v = JObj o /\ truthy v = true /\ shape_of v = [o]).
Proof.
  intros [Hf|[o ->]].
  - left. split; [exact Hf|apply shape_of_false; exact Hf].
  - destruct (truthy (JObj o)) eqn:Ht.
    + right. exists o. cbn [shape_of]. rewrite Ht. repeat split.
    + left. split; [reflexivity|]. cbn [shape_of]. rewrite Ht. reflexivity.
Qed.

Lemma image_step (v : json) (s : State) (l : list json) :
  well_shaped v ->
  data s !! "image" = Some (JArr l) ->
  exists s',
    (if truthy v
     then img <- lift (py_update {["kind" := JStr "restbase-image"]} v) ;;
          append_image img
     else ret tt) s = (Ok tt, s')
    /\ data s' !! "image"
       = Some (JArr (l ++ map (fun o => JObj (image_record o)) (shape_of v))).
Proof.
  intros Hw Hl. destruct (well_shaped_cases v Hw) as [[Hf ->]|(o & -> & Ht & ->)].
  - rewrite Hf. exists s. cbn [map]. rewrite app_nil_r. split; [reflexivity|exact Hl].
  - rewrite Ht. unfold bind, lift, py_update.
    rewrite (append_image_ok _ s l Hl). eexists. split; [reflexivity|].
    cbn [data with_data map]. apply lookup_insert_eq.
Qed.

Lemma original_step (v : json) (s : State) (l : list json) :
  well_shaped v ->
  data s !! "image" = Some (JArr l) ->
  exists s',
    (if truthy v
     then img <- lift (py_update {["kind" := JStr "restbase-original"]} v) ;;
          img <- lift (with_url v img) ;;
          append_image img
     else ret tt) s = (Ok tt, s')
    /\ data s' !! "image"
       = Some (JArr (l ++ map (fun o => JObj (original_record o)) (shape_of v))).
Proof.
  intros Hw Hl. destruct (well_shaped_cases v Hw) as [[Hf ->]|(o & -> & Ht & ->)].
  - rewrite Hf. exists s. cbn [map]. rewrite app_nil_r. split; [reflexivity|exact Hl].
  - rewrite Ht. unfold bind, lift, py_update, with_url, py_get.
    rewrite (append_image_ok _ s l Hl). eexists. split; [reflexivity|].
    cbn [data with_data map]. apply lookup_insert_eq.
Qed.

Lemma thumb_step (v : json) (s : State) (l : list json) :
  well_shaped v ->
  data s !! "image" = Some (JArr l) ->
  exists s',
    (if truthy v
     then img <- lift (py_update {["kind" := JStr "restbase-thumb"]} v) ;;
          img <- lift (with_url v img) ;;
          append_image img
     else ret tt) s = (Ok tt, s')
    /\ data s' !! "image"
       = Some (JArr (l ++ map (fun o => JObj (thumb_record o)) (shape_of v))).
Proof.
  intros Hw Hl. destruct (well_shaped_cases v Hw) as [[Hf ->]|(o & -> & Ht & ->)].
  - rewrite Hf. exists s. cbn [map]. rewrite app_nil_r. split; [reflexivity|exact Hl].
  - rewrite Ht. unfold bind, lift, py_update, with_url, py_get.
    rewrite (append_image_ok _ s l Hl). eexists. split; [reflexivity|].
    cbn [data with_data map]. apply lookup_insert_eq.
Qed.

(** X20: Image unpacking in full: for a response whose three shapes are each
    missing, false or an object, it succeeds and adds one record for each
    shape that is there, in the order image, original, thumbnail, behind
    the records already on the list; nothing is compared with what is
    there, so the same response twice adds its records twice; and a
    response without shapes leaves the instance exactly as it was, with no
    list created. *)
Theorem unpack_images_exact :
  forall (s : State) (m : gmap string json),
    image_list_ok s ->
    well_shaped (default JNull (m !! "image")) ->
    well_shaped (default JNull (m !! "originalimage")) ->
    well_shaped (default JNull (m !! "thumbnail")) ->
    exists s',
      _unpack_images (JObj m) s = (Ok tt, s')
      /\ images_of s' = images_of s ++ added_images m
      /\ image_list_ok s'
      /\ (added_images m = [] -> s' = s).
Proof.
  intros s m Hok Wi Wo Wt.
  unfold _unpack_images.
  unfold bind at 1, lift at 1, py_get at 1.
  unfold bind at 1, lift at 1, py_get at 1.
  unfold bind at 1, lift at 1, py_get at 1.
  set (vi := default JNull (m !! "image")) in *.
  set (vo := default JNull (m !! "originalimage")) in *.
  set (vt := default JNull (m !! "thumbnail")) in *.
  unfold added_images. fold vi vo vt.
  destruct (truthy vi || truthy vo || truthy vt) eqn:Hany.
  - destruct (ensure_image_list s Hok) as (s1 & E1 & L1 & _).
    rewrite (bind_step _ _ s tt s1 E1).
    destruct (image_step vi s1 _ Wi L1) as (s2 & E2 & L2).
    rewrite (bind_step _ _ s1 tt s2 E2).
    destruct (original_step vo s2 _ Wo L2) as (s3 & E3 & L3).
    rewrite (bind_step _ _ s2 tt s3 E3).
    destruct (thumb_step vt s3 _ Wt L3) as (s4 & E4 & L4).
    exists s4. split; [exact E4|]. split; [|split].
    + unfold images_of at 1. rewrite L4, <- !app_assoc. reflexivity.
    + right. eauto.
    + intros Hnil. exfalso.
      apply orb_true_iff in Hany as [Hany|Ht];
        [apply orb_true_iff in Hany as [Hi|Ho]|].
      * destruct (well_shaped_cases vi Wi) as [[Hf _]|(o & _ & _ & Hs)];
          [congruence|]. rewrite Hs in Hnil. discriminate Hnil.
      * destruct (well_shaped_cases vo Wo) as [[Hf _]|(o & _ & _ & Hs)];
          [congruence|]. rewrite Hs in Hnil.
        destruct (map _ (shape_of vi)); discriminate Hnil.
      * destruct (well_shaped_cases vt Wt) as [[Hf _]|(o & _ & _ & Hs)];
          [congruence|]. rewrite Hs in Hnil.
        destruct (map _ (shape_of vi)); [|discriminate Hnil].
        destruct (map _ (shape_of vo)); discriminate Hnil.
  - apply orb_false_iff in Hany as [Hany Ht].
    apply orb_false_iff in Hany as [Hi Ho].
    rewrite Hi, Ho, Ht. rewrite !shape_of_false by assumption.
    exists s. cbn [map app]. rewrite app_nil_r.
    repeat split; [exact Hok].
Qed.

(** X21: An ['image'] that is true but not iterable as pairs (a number
    other than 0, [True], a string that is not empty) stops the unpacking
    with the error of [dict.update], [TypeError] or for a string
    [ValueError], after the list has been created: the failure leaves an
    empty list in [data['image']] where there was none. *)
Theorem unpack_images_bad_shape :
  forall (s : State) (m : gmap string json),
    data s !! "image" = None ->
    truthy (default JNull (m !! "image")) = true ->
    scalar (default JNull (m !! "image")) = true ->
    _unpack_images (JObj m) s
    = (Raise (update_error (default JNull (m !! "image"))),
       with_data (<["image" := JArr []]> (data s)) s).
Proof.
  intros s m Hn Ht Hs. unfold _unpack_images.
  unfold bind at 1, lift at 1, py_get at 1.
  unfold bind at 1, lift at 1, py_get at 1.
  unfold bind at 1, lift at 1, py_get at 1.
  rewrite Ht. cbn [orb].
  unfold bind at 1. unfold bind at 1, get_state at 1. rewrite Hn.
  cbn [set_data modify]. unfold set_data, modify.
  apply bind_raise. apply bind_raise. unfold lift.
  destruct (default JNull (m !! "image")) as [|b|z|t|l|o];
    try discriminate Hs; try reflexivity.
  destruct t; [discriminate Ht|reflexivity].
Qed.

End ImageCases.

Lemma unpack_images_exact_witness :
  exists s',
    _unpack_images (JObj Demo.summary_images) Demo.fresh = (Ok tt, s')
    /\ images_of s' = images_of Demo.fresh ++ added_images Demo.summary_images
    /\ image_list_ok s'
    /\ (added_images Demo.summary_images = [] -> s' = Demo.fresh).
Proof.
  apply (unpack_images_exact Demo.fresh Demo.summary_images).
  - left. reflexivity.
  - left. reflexivity.
  - right. eexists. reflexivity.
  - right. eexists. reflexivity.
Defined.

Lemma unpack_images_bad_shape_witness :
  _unpack_images (JObj Cases.numbered_image) Demo.fresh
  = (Raise TypeError, with_data (<["image" := JArr []]> (data Demo.fresh)) Demo.fresh).
Proof.
  apply (unpack_images_bad_shape Demo.fresh Cases.numbered_image); reflexivity.
Defined.


(** ** The normalizer, step by step *)

Lemma keeps_touches_mono (W W' : list string) {A} (c : M A) :
  (forall k, k ∈ W -> k ∈ W') ->
  keeps (touches W) c -> keeps (touches W') c.
Proof.
  intros Hsub K s. destruct (K s) as (D & C & P). split; [|split; assumption].
  intros k Hk. apply D. intros Hin. apply Hk. apply Hsub. exact Hin.
Qed.

(** Proves that a stretch of the normalizer writes no field outside [W]. *)
Ltac in_list :=
  repeat first [apply list_elem_of_here | apply list_elem_of_further].

Ltac writes_within :=
  repeat first
    [ apply keeps_set_data_touches; in_list
    | apply (keeps_touches_mono ["modified"]);
        [intros ? ?%list_elem_of_singleton; subst; in_list
        |apply merge_modified_touches]
    | apply (keeps_touches_mono ["image"]);
        [intros ? ?%list_elem_of_singleton; subst; in_list
        |apply unpack_images_touches]
    | keeps_step ].

Lemma replace_space (t : string) :
  substring_in " " (Py.replace " " "_" t) = false
  /\ String.length (Py.replace " " "_" t) = String.length t.
Proof.
  unfold Py.replace. induction t as [|c t [IH1 IH2]]; [split; reflexivity|].
  cbn [Py.replace_from String.prefix String.length Nat.sub].
  destruct (ascii_dec " " c) as [<-|Hne].
  - change ("_" +:+ Py.replace_from " " "_" 0 t)
      with (String "_" (Py.replace_from " " "_" 0 t)).
    replace (String.prefix "" t) with true by (destruct t; reflexivity).
    cbn [substring_in String.prefix String.length].
    destruct (ascii_dec " " "_"); [discriminate|].
    rewrite IH2. split; [exact IH1|reflexivity].
  - cbn [substring_in String.prefix String.length].
    destruct (ascii_dec " " c); [contradiction|].
    rewrite IH2. split; [exact IH1|reflexivity].
Qed.

Section Steps.
Context {QB : QueryBuilder} {TR : Transport} {HP : Helpers}.

(** X22: The title the normalizer stores has no space in it and is as long as
    the title of the response. *)
Theorem stored_title_has_no_space :
  forall (s s' : State) (m : gmap string json) (s1 : State),
    _handle_response s = (Ok (Some (JObj m)), s1) ->
    _set_restbase_data s = (Ok tt, s') ->
    truthy (py_or (default JNull (m !! "title"))
              (default JNull (m !! "normalizedtitle"))) = true ->
    exists t t',
      py_or (default JNull (m !! "title")) (default JNull (m !! "normalizedtitle"))
      = JStr t
      /\ data s' !! "title" = Some (JStr t')
      /\ substring_in " " t' = false
      /\ String.length t' = String.length t.
Proof.
  intros s s' m s1 H1 H Ht.
  destruct (set_restbase_data_effect s s' m s1 H1 H)
    as (_ & _ & _ & _ & Htitle & _).
  cbn beta in Htitle. rewrite Ht in Htitle. destruct Htitle as (t & Et & Hd).
  exists t, (Py.replace " " "_" t). split; [exact Et|]. split; [exact Hd|].
  apply replace_space.
Qed.

(** X23: Without a title on record the normalizer cannot finish: after a
    validated response it always raises, and by then it has already
    written the description of the response; the cache and the
    parameters are untouched. *)
Theorem normalizer_needs_title :
  forall (s : State) (m : gmap string json) (s1 : State),
    _handle_response s = (Ok (Some (JObj m)), s1) ->
    title (params s) = None ->
    exists (err : Exc) (s' : State),
      _set_restbase_data s = (Raise err, s')
      /\ data s' !! "description" = Some (default JNull (m !! "description"))
      /\ cache s' = cache s /\ params s' = params s.
Proof.
  intros s m s1 H1 Hno.
  pose proof (handle_response_some s _ s1 H1) as ->.
  destruct (_set_restbase_data s) as [[[]|err] s'] eqn:E.
  - destruct (set_restbase_data_effect s s' m s H1 E)
      as (_ & _ & _ & _ & _ & _ & _ & (e & q & t & _ & _ & Ht & _)).
    congruence.
  - exists err, s'. split; [reflexivity|].
    unfold _set_restbase_data in E. rewrite (bind_step _ _ s _ s H1) in E.
    unfold bind at 1, lift at 1, py_get at 1 in E.
    unfold bind at 1, set_data at 1, modify at 1 in E.
    match type of E with
    | ?c ?st = _ =>
        assert (K : keeps (touches ["pageid"; "exrest"; "exhtml"; "modified";
                                    "lead"; "title"; "wikibase"; "wikidata_url";
                                    "url"; "url_raw"; "image"]) c)
          by writes_within;
        pose proof (K st) as T; rewrite E in T
    end.
    cbn [snd] in T. destruct T as (D & C & P). split; [|split; assumption].
    rewrite D by not_written. cbn [data with_data]. apply lookup_insert_eq.
Qed.

(** X24: The dates of modification: a true ['lastmodified'] of the response is
    put under ['page'] in [data['modified']], next to the dates other
    sources have put there; without it the field is left alone; and a
    normalization that succeeds never finds anything but a dict there. *)
Theorem modified_dates_merge :
  forall (s s' : State) (m : gmap string json) (s1 : State),
    _handle_response s = (Ok (Some (JObj m)), s1) ->
    _set_restbase_data s = (Ok tt, s') ->
    let lm := default JNull (m !! "lastmodified") in
    if truthy lm
    then match data s !! "modified" with
         | Some (JObj d) => data s' !! "modified" = Some (JObj (<["page" := lm]> d))
         | Some _ => False
         | None => data s' !! "modified" = Some (JObj {["page" := lm]})
         end
    else data s' !! "modified" = data s !! "modified".
Proof.
  intros s s' m s1 H1 H lm.
  pose proof (handle_response_some s _ s1 H1) as ->.
  unfold _set_restbase_data in H. rewrite (bind_step _ _ s _ s H1) in H.
  apply bind_ok in H as (v & sa & E & H). apply lift_ok in E as [E ->].
  injection E as <-.
  apply bind_ok in H as (u & sA & EA & H). apply set_data_touches in EA as [_ TA].
  apply bind_ok in H as (v & sa & E & H). apply lift_ok in E as [E ->].
  injection E as <-.
  apply bind_ok in H as (v & sa & E & H). apply lift_ok in E as [E ->].
  injection E as <-.
  apply bind_ok in H as (u' & sB & EB & H). apply set_data_touches in EB as [_ TB].
  apply bind_ok in H as (v & sa & E & H). apply lift_ok in E as [E ->].
  injection E as <-.
  apply bind_ok in H as (u2 & sC & EC & H). apply set_data_touches in EC as [_ TC].
  apply bind_ok in H as (v & sa & E & H). apply lift_ok in E as [E ->].
  injection E as <-.
  apply bind_ok in H as (u3 & sD & ED & H). apply set_data_touches in ED as [_ TD].
  apply bind_ok in H as (v & sa & E & H). apply lift_ok in E as [E ->].
  injection E as <-.
  apply bind_ok in H as (u4 & sE & EE & H).
  assert (Hbefore : data sD !! "modified" = data s !! "modified")
    by (chase; reflexivity).
  assert (Hafter : data s' !! "modified" = data sE !! "modified").
  { match type of H with
    | ?c ?st = _ =>
        assert (K : keeps (touches ["lead"; "title"; "wikibase"; "wikidata_url";
                                    "url"; "url_raw"; "image"]) c)
          by writes_within;
        pose proof (K st) as T; rewrite H in T
    end.
    cbn [snd] in T. destruct T as (D & _). apply D. not_written. }
  rewrite Hafter. fold lm in EE. destruct (truthy lm).
  - unfold merge_modified, bind, get_state in EE. rewrite Hbefore in EE.
    destruct (data s !! "modified") as [[| | | | |d]|]; try discriminate EE.
    + apply set_data_ok in EE as [V _]. rewrite V. unfold dict_update.
      rewrite <- insert_union_singleton_l. reflexivity.
    + apply set_data_ok in EE as [V _]. exact V.
  - injection EE as _ <-. exact Hbefore.
Qed.

End Steps.


Lemma stored_title_has_no_space_witness :
  let s := Demo.described (BStr Demo.doc_summary) in
  let s' := snd (_set_restbase_data s) in
  exists t t',
    py_or (default JNull (({["title" := JStr "Douglas Adams"]} : gmap string json)
                            !! "title"))
      (default JNull (({["title" := JStr "Douglas Adams"]} : gmap string json)
                        !! "normalizedtitle"))
    = JStr t
    /\ data s' !! "title" = Some (JStr t')
    /\ substring_in " " t' = false
    /\ String.length t' = String.length t.
Proof.
  intros s s'.
  apply (stored_title_has_no_space s s' {["title" := JStr "Douglas Adams"]} s);
    vm_compute; reflexivity.
Defined.

Lemma normalizer_needs_title_witness :
  exists (err : Exc) (s' : State),
    _set_restbase_data Cases.bare_root_arrived = (Raise err, s')
    /\ data s' !! "description"
       = Some (default JNull (({["title" := JStr "Douglas Adams"]} : gmap string json)
                                !! "description"))
    /\ cache s' = cache Cases.bare_root_arrived
    /\ params s' = params Cases.bare_root_arrived.
Proof.
  apply (normalizer_needs_title Cases.bare_root_arrived
           {["title" := JStr "Douglas Adams"]} Cases.bare_root_arrived);
    vm_compute; reflexivity.
Defined.

Lemma modified_dates_merge_witness :
  let s := Demo.described (BStr Cases.doc_modified) in
  let s' := snd (_set_restbase_data (HP := Cases.parser) s) in
  data s !! "modified" = None
  /\ data s' !! "modified"
     = Some (JObj {["page" := JStr "2017-01-01T00:00:00Z"]}).
Proof.
  intros s s'.
  assert (H1 : _handle_response (HP := Cases.parser) s
               = (Ok (Some (JObj (<["title" := JStr "Douglas Adams"]>
                                    {["lastmodified" := JStr "2017-01-01T00:00:00Z"]}))),
                  s))
    by (vm_compute; reflexivity).
  assert (H2 : _set_restbase_data (HP := Cases.parser) s = (Ok tt, s'))
    by (vm_compute; reflexivity).
  pose proof (modified_dates_merge (HP := Cases.parser) s s' _ s H1 H2) as H.
  split; [reflexivity|]. vm_compute in H |- *. exact H.
Defined.


(** ** The inspectors *)

Section Inspectors.
Context {HP : Helpers}.

(** X25: [info], [query] and [response] never change the instance, whether
    they answer or raise. *)
Theorem inspectors_read_only :
  forall (action : option string) (s : State),
    snd (info action s) = s /\ snd (query action s) = s
    /\ snd (response action s) = s.
Proof.
  intros action s. unfold info, query, response, bind, get_state, lift, ret.
  destruct (action ≫= _) as [e|]; [|repeat split].
  destruct e as [[q|] [r|] [i|]]; cbn [require ce_info ce_query ce_response];
    repeat split; destruct (json_loads r); reflexivity.
Qed.

(** X26: An action that is not cached is answered like no action at all: with
    the cached actions, or with nothing when the cache is empty; it is
    never an error. *)
Theorem inspectors_unknown_action :
  forall (a : string) (s : State),
    cache s !! a = None ->
    info (Some a) s = info None s
    /\ query (Some a) s = query None s
    /\ response (Some a) s = response None s
    /\ query None s
       = (Ok (if bool_decide (cache s = ∅) then Nothing
              else Actions (elements (dom (cache s)))), s).
Proof.
  intros a s Hc. unfold info, query, response, bind, get_state, ret.
  cbn [mbind option_bind]. rewrite Hc. repeat split.
  unfold cached_actions. f_equal. f_equal.
  destruct (elements (dom (cache s))) as [|k l] eqn:E.
  - apply elements_empty_iff in E. apply dom_empty_iff in E.
    rewrite bool_decide_eq_true_2 by exact E. reflexivity.
  - rewrite bool_decide_eq_false_2; [reflexivity|].
    intros H. rewrite H, dom_empty_L, elements_empty in E. discriminate E.
Qed.

End Inspectors.

Lemma inspectors_unknown_action_witness :
  info (Some "parse") (Demo.holding "restbase" (BStr Demo.doc_summary))
  = info None (Demo.holding "restbase" (BStr Demo.doc_summary))
  /\ query (Some "parse") (Demo.holding "restbase" (BStr Demo.doc_summary))
     = query None (Demo.holding "restbase" (BStr Demo.doc_summary))
  /\ response (Some "parse") (Demo.holding "restbase" (BStr Demo.doc_summary))
     = response None (Demo.holding "restbase" (BStr Demo.doc_summary))
  /\ query None (Demo.holding "restbase" (BStr Demo.doc_summary))
     = (Ok (if bool_decide (cache (Demo.holding "restbase" (BStr Demo.doc_summary)) = ∅)
            then Nothing
            else Actions (elements (dom (cache (Demo.holding "restbase"
                                                  (BStr Demo.doc_summary)))))),
        Demo.holding "restbase" (BStr Demo.doc_summary)).
Proof.
  apply (inspectors_unknown_action "parse"). reflexivity.
Defined.

(** ** The base class *)

Section Abstract.
Context {QB : QueryBuilder} {TR : Transport} {HP : Helpers}.

(** X27: On the base class itself a fetch raises [NotImplementedError], but
    only after the empty entry has been created: the action then counts
    as cached, and the next fetch reports a cache hit instead of raising.
    A skipped action never reaches the abstract method. *)
Theorem base_class_reserves_entry :
  forall (action : string) (show_ : bool) (proxy : option string) (timeout : Z)
         (s : State),
    cache s !! action = None ->
    let s1 := with_cache (<[action := empty_entry]> (cache s)) s in
    (action ∉ skip (flags s) ->
     _get (SRC := WPTools_abstract) action show_ proxy timeout s
     = (Raise NotImplementedError, s1))
    /\ (action ∈ skip (flags s) ->
        _get (SRC := WPTools_abstract) action show_ proxy timeout s
        = (Ok tt, with_stderr (stderr_calls s ++ [skip_notice action]) s1))
    /\ (action <> "imageinfo" ->
        forall (show' : bool) (proxy' : option string) (timeout' : Z),
          _get (SRC := WPTools_abstract) action show' proxy' timeout' s1
          = (Ok tt, with_stderr (stderr_calls s ++ [cache_notice action s]) s1)).
Proof.
  intros action show_ proxy timeout s Hc s1.
  assert (Hres : reserve action s = s1) by (unfold reserve; rewrite Hc; reflexivity).
  split; [|split].
  - intros Hs. rewrite <- Hres.
    apply (get_query_raises (SRC := WPTools_abstract));
      [left; exact Hc|exact Hs|reflexivity].
  - intros Hs. rewrite <- Hres.
    apply (get_skipped (SRC := WPTools_abstract)); [left; exact Hc|exact Hs].
  - intros Hne show' proxy' timeout'.
    rewrite (get_cache_hit (SRC := WPTools_abstract)); [reflexivity|exact Hne|].
    subst s1. cbn [cache with_cache]. rewrite lookup_insert_eq. eauto.
Qed.

End Abstract.

Lemma base_class_reserves_entry_witness :
  let s1 := with_cache (<["parse" := empty_entry]> (cache Demo.fresh)) Demo.fresh in
  _get (SRC := WPTools_abstract) "parse" true None 0 Demo.fresh
  = (Raise NotImplementedError, s1)
  /\ _get (SRC := WPTools_abstract) "parse" true None 0 s1
     = (Ok tt, with_stderr (stderr_calls Demo.fresh ++ [cache_notice "parse" Demo.fresh]) s1).
Proof.
  intros s1.
  destruct (base_class_reserves_entry "parse" true None 0 Demo.fresh eq_refl)
    as (H1 & _ & H3).
  split.
  - apply H1. intros H. inversion H.
  - apply H3. discriminate.
Defined.
